(** * Springer COUNTER book report enhancement

    A shallow embedding of [springer_books.py]: the script opens an Excel
    workbook, looks every book of the report up at link.springer.com and
    writes six metadata fields back into the sheet.

    Layout of the development:
    - [Py]: the Python values, exceptions and string primitives the script uses;
    - [Re]: the four regular expressions of the two page parsers;
    - [Xlsx]: the part of openpyxl's worksheet the script touches;
    - [Env]: the outside world (requests, lxml, what the file system
      allows to be written), kept abstract;
    - the script's functions, in the order of the source file;
    - the properties of the script. *)

From Stdlib Require Import ZArith Ascii.
From stdpp Require Import gmap strings list fin_maps pretty.

#[local] Open Scope Z_scope.

(** ** Python values and primitives *)

Module Py.

(** The values found in cells and in [book_dict]: [None], a [str], an [int]. *)
Inductive value : Type :=
| VNone
| VStr (s : string)
| VInt (n : Z).

(** Truth value of [if v:]. *)
Definition truthy (v : value) : bool :=
  match v with
  | VNone => false
  | VStr s => negb (String.eqb s "")
  | VInt n => negb (n =? 0)
  end.

Inductive exn : Type :=
| TypeError
| IndexError
| KeyError
| ValueError
| FileNotFoundError
| ConnectionError
| ParserError
| InvalidFileException.

(** Outcome of an expression that may raise. *)
Inductive res (A : Type) : Type :=
| Ok (a : A)
| Raise (e : exn).
Arguments Ok {A} a.
Arguments Raise {A} e.

Definition res_bind {A B} (r : res A) (k : A → res B) : res B :=
  match r with
  | Ok a => k a
  | Raise e => Raise e
  end.

Definition res_map {A B} (f : A → B) (r : res A) : res B :=
  res_bind r (λ a, Ok (f a)).

(** [l[i]] on a list. *)
Definition getitem {A} (l : list A) (i : nat) : res A :=
  match l !! i with
  | Some a => Ok a
  | None => Raise IndexError
  end.

(** [d[k]] on a dict with string keys. *)
Definition dict_get (d : gmap string value) (k : string) : res value :=
  match d !! k with
  | Some v => Ok v
  | None => Raise KeyError
  end.

(** [ord(s)]: defined on strings of length one only. *)
Definition ord (s : string) : res Z :=
  match s with
  | String c EmptyString => Ok (Z.of_nat (Ascii.nat_of_ascii c))
  | _ => Raise TypeError
  end.

(** [s.split(".")]: the pieces between the dots, at least one piece. *)
Fixpoint split_dot (s : string) : list string :=
  match s with
  | EmptyString => [EmptyString]
  | String c r =>
      if Ascii.eqb c "."%char then EmptyString :: split_dot r
      else match split_dot r with
           | h :: t => String c h :: t
           | [] => [String c EmptyString]
           end
  end.

(** The right operand of [str + x]: only a [str] is accepted. *)
Definition as_str (v : value) : res string :=
  match v with
  | VStr s => Ok s
  | _ => Raise TypeError
  end.

Definition is_digit (c : ascii) : bool :=
  let n := Ascii.nat_of_ascii c in (48 <=? n)%nat && (n <=? 57)%nat.

Definition digit_val (c : ascii) : Z := Z.of_nat (Ascii.nat_of_ascii c) - 48.

Fixpoint int_digits (acc : Z) (s : string) : res Z :=
  match s with
  | EmptyString => Ok acc
  | String c r =>
      if is_digit c then int_digits (10 * acc + digit_val c) r
      else Raise ValueError
  end.

(** [int(s)] on an unsigned decimal literal; anything else is rejected
    with [ValueError] (Python accepts a few more spellings, none of which
    the script produces). *)
Definition int (s : string) : res Z :=
  match s with
  | EmptyString => Raise ValueError
  | _ => int_digits 0 s
  end.

End Py.

Export Py.

(** ** The regular expressions of the parsers

    Each function is [re.search(pattern, s)] followed by the [group] the
    script reads from the match, [None] when there is no match. *)

Module Re.

Fixpoint take_while (p : ascii → bool) (s : string) : string :=
  match s with
  | EmptyString => EmptyString
  | String c r => if p c then String c (take_while p r) else EmptyString
  end.

(** [s] without the literal prefix [p], when it starts with it. *)
Fixpoint strip_prefix (p s : string) : option string :=
  match p with
  | EmptyString => Some s
  | String a p' =>
      match s with
      | String b s' => if Ascii.eqb a b then strip_prefix p' s' else None
      | EmptyString => None
      end
  end.

(** The class [[A-Za-z\+]]. *)
Definition is_alpha_plus (c : ascii) : bool :=
  let n := Ascii.nat_of_ascii c in
  ((65 <=? n)%nat && (n <=? 90)%nat)
  || ((97 <=? n)%nat && (n <=? 122)%nat)
  || (n =? 43)%nat.

(** [re.search(r"\(([A-Za-z\+]+)", s).group(1)]: the leftmost opening
    parenthesis followed by a letter, and the longest run of letters
    after it. *)
Fixpoint search_acronym (s : string) : option string :=
  match s with
  | EmptyString => None
  | String c r =>
      if Ascii.eqb c "("%char then
        match take_while is_alpha_plus r with
        | EmptyString => search_acronym r
        | g => Some g
        end
      else search_acronym r
  end.

(** The dot of a pattern matches every character but the newline. *)
Definition is_dot (c : ascii) : bool := negb (Ascii.eqb c "010"%char).

(** The part of [l] before its last occurrence of [stop]. *)
Fixpoint before_last (stop : ascii) (l : string) : option string :=
  match l with
  | EmptyString => None
  | String c r =>
      match before_last stop r with
      | Some p => Some (String c p)
      | None => if Ascii.eqb c stop then Some EmptyString else None
      end
  end.

(** [(.+)stop] anchored at the start of [s]: greedy, at least one
    character, inside one line. *)
Definition dot_plus_until (stop : ascii) (s : string) : option string :=
  match take_while is_dot s with
  | EmptyString => None
  | String c r =>
      match before_last stop r with
      | Some p => Some (String c p)
      | None => None
      end
  end.

(** [re.search(lit (.+)stop, s).group(1)] for a literal [lit] and a
    one-character literal [stop]: the leftmost position where the
    pattern matches. *)
Fixpoint search_lit_dot_plus (lit : string) (stop : ascii) (s : string)
  : option string :=
  let here :=
    match strip_prefix lit s with
    | Some rest => dot_plus_until stop rest
    | None => None
    end in
  match here with
  | Some g => Some g
  | None =>
      match s with
      | EmptyString => None
      | String _ r => search_lit_dot_plus lit stop r
      end
  end.

(** [re.search(r"volume (.+)\)", s).group(1)] *)
Definition search_volume (s : string) : option string :=
  search_lit_dot_plus "volume " ")"%char s.

(** [re.search(r"Volume (.+) ", s).group(1)] *)
Definition search_landolt_volume (s : string) : option string :=
  search_lit_dot_plus "Volume " " "%char s.

(** [re.search(r"\d\d\d\d", s).group(0)]: the leftmost four digits in a row. *)
Fixpoint search_year (s : string) : option string :=
  match s with
  | EmptyString => None
  | String a r =>
      match r with
      | String b (String c (String d _)) =>
          if is_digit a && is_digit b && is_digit c && is_digit d
          then Some (String a (String b (String c (String d EmptyString))))
          else search_year r
      | _ => None
      end
  end.

End Re.

(** ** openpyxl: the worksheet operations of the script *)

Module Xlsx.

(** [Worksheet._cells]: the cells that exist, by (row, column), with
    their values. A workbook maps sheet titles to worksheets. *)
Abbreviation Sheet := (gmap (Z * Z) value).
Abbreviation Workbook := (gmap string (gmap (Z * Z) value)).

(** The value seen at a position: a cell that does not exist is blank. *)
Definition cell_value (ws : Sheet) (r c : Z) : value :=
  default VNone (ws !! (r, c)).

(** [ws.max_row]: the largest row that has a cell, 1 on an empty sheet. *)
Definition max_row (ws : Sheet) : Z :=
  match (map_to_list ws).*1.*1 with
  | [] => 1
  | r :: rs => foldr Z.max r rs
  end.

(** [ws.cell(row=r, column=c)]: rows and columns count from 1; the cell
    is created blank when it does not exist yet. *)
Definition cell (ws : Sheet) (r c : Z) : res Sheet :=
  if (r <? 1) || (c <? 1) then Raise ValueError
  else Ok (match ws !! (r, c) with
           | Some _ => ws
           | None => <[(r, c) := VNone]> ws
           end).

(** [ws.cell(row=r, column=c).value] *)
Definition read (ws : Sheet) (r c : Z) : res (value * Sheet) :=
  res_bind (cell ws r c) (λ ws', Ok (cell_value ws' r c, ws')).

(** [ws.cell(row=r, column=c).value = v]; the value is stored as given. *)
Definition write (ws : Sheet) (r c : Z) (v : value) : res Sheet :=
  res_bind (cell ws r c) (λ ws', Ok (<[(r, c) := v]> ws')).

(** Where column [c] is found after [insert_cols(idx, amount)]. *)
Definition shift_col (idx amount c : Z) : Z :=
  if idx <=? c then c + amount else c.

(** [ws.insert_cols(idx, amount)]: every cell of a column [>= idx] moves
    [amount] columns to the right, which leaves the columns
    [idx .. idx + amount - 1] without cells. *)
Definition insert_cols (idx amount : Z) (ws : Sheet) : Sheet :=
  kmap (M2 := gmap (Z * Z)) (λ k : Z * Z, (k.1, shift_col idx amount k.2)) ws.

(** [range(a, b)] *)
Definition range (a b : Z) : list Z := seqZ a (b - a).

(** The character occurs in the string. *)
Fixpoint has_char (c : ascii) (s : string) : bool :=
  match s with
  | EmptyString => false
  | String a r => Ascii.eqb a c || has_char c r
  end.

(** [s[s.rfind(c) + 1:]]: what follows the last [c], all of [s] when it
    has none. *)
Fixpoint after_last (c : ascii) (s : string) : string :=
  match s with
  | EmptyString => EmptyString
  | String a r =>
      if has_char c r then after_last c r
      else if Ascii.eqb a c then r
      else String a r
  end.

(** The string is made of dots only. *)
Fixpoint only_dots (s : string) : bool :=
  match s with
  | EmptyString => true
  | String a r => Ascii.eqb a "."%char && only_dots r
  end.

(** [os.path.splitext(p)[-1]] with [/] as the separator: the last
    component of the path from its last dot on, or nothing when that
    component has no dot or only dots before its last dot. *)
Definition splitext_ext (p : string) : string :=
  let name := after_last "/"%char p in
  match Re.before_last "."%char name with
  | Some stem =>
      if only_dots stem then EmptyString
      else String "."%char (after_last "."%char name)
  | None => EmptyString
  end.

(** [c.lower()] on the letters A to Z. *)
Definition lower_char (c : ascii) : ascii :=
  let n := Ascii.nat_of_ascii c in
  if (65 <=? n)%nat && (n <=? 90)%nat then Ascii.ascii_of_nat (n + 32) else c.

(** [s.lower()] *)
Fixpoint lower (s : string) : string :=
  match s with
  | EmptyString => EmptyString
  | String c r => String (lower_char c) (lower r)
  end.

(** [openpyxl.reader.excel.SUPPORTED_FORMATS] *)
Definition SUPPORTED_FORMATS : list string :=
  [".xlsx"; ".xlsm"; ".xltx"; ".xltm"].

(** The test of [_validate_archive(filename)]:
    [os.path.splitext(filename)[-1].lower() in SUPPORTED_FORMATS]. *)
Definition supported_format (filename : string) : bool :=
  existsb (String.eqb (lower (splitext_ext filename))) SUPPORTED_FORMATS.

End Xlsx.

Export Xlsx.

(** ** The outside world

    [requests] and [lxml] are not part of the script: the network and the
    HTML documents are abstract. A request may answer differently each
    time, so it runs in a state of the outside. The same state holds what
    the file system decides about a file that is to be written: its
    directory may be missing, the file may be read-only or locked. *)

Record response : Type := { status_code : Z; content : string }.

Class Env : Type := {
  (** state of the outside: the network, and the directories and
      permissions of the file system *)
  World : Type;
  (** [requests.get(url)] *)
  requests_get : string → World → res response * World;
  (** the exception of opening the file for writing, if it cannot be *)
  write_error : string → World → option exn;
  (** parsed HTML documents *)
  Doc : Type;
  (** [html.fromstring(content)] *)
  html_fromstring : string → res Doc;
  (** [doc.xpath(path)] for a path that ends in [text()] *)
  xpath : Doc → string → list string;
  (** [str(t.encode("utf-8"))], which depends on the interpreter *)
  str_encode : string → string;
}.

(** What a run does to the outside, in order. *)
Inductive event : Type :=
| ELoad (filename : string)
| EInsertCols (idx amount : Z)
| EGet (url : string)
| ESave (filename : string) (wb : Workbook).

Definition is_save (e : event) : bool :=
  match e with ESave _ _ => true | _ => false end.

Definition is_insert_cols (e : event) : bool :=
  match e with EInsertCols _ _ => true | _ => false end.

Definition is_get (e : event) : bool :=
  match e with EGet _ => true | _ => false end.

(** The saves of a trace, oldest first: where to, and what. *)
Definition saves (tr : list event) : list (string * Workbook) :=
  omap (λ e, match e with ESave fn wb => Some (fn, wb) | _ => None end) tr.

(** The column insertions of a trace. *)
Definition insertions (tr : list event) : list (Z * Z) :=
  omap (λ e, match e with EInsertCols i n => Some (i, n) | _ => None end) tr.

(** The files opened by a trace. *)
Definition loads (tr : list event) : list string :=
  omap (λ e, match e with ELoad fn => Some fn | _ => None end) tr.

(** ** The script *)

Section Script.

Context {env : Env}.

(** The outside, the workbooks on disk and the events so far. *)
Record state : Type := {
  net : World;
  disk : gmap string Workbook;
  trace : list event;
}.

(** Statements: they run in a state and return or raise. *)
Definition M (A : Type) : Type := state → res A * state.

Definition ret {A} (a : A) : M A := λ st, (Ok a, st).

Definition bind {A B} (m : M A) (k : A → M B) : M B :=
  λ st, match m st with
        | (Ok a, st') => k a st'
        | (Raise e, st') => (Raise e, st')
        end.

Definition lift {A} (r : res A) : M A := λ st, (r, st).

Definition log (e : event) : M unit :=
  λ st, (Ok (), {| net := net st; disk := disk st; trace := trace st ++ [e] |}).

End Script.

Notation "x <- c ;; k" := (bind c (λ x, k))
  (at level 100, c at next level, right associativity).
Notation "x <-? c ;; k" := (res_bind c (λ x, k))
  (at level 100, c at next level, right associativity).

Section Functions.

Context {env : Env}.

Definition VERSION : Z := 1.

(** [openpyxl.load_workbook(filename)]: the extension of the name is
    checked first, then the file is opened. *)
Definition load_workbook (filename : string) : M Workbook :=
  if supported_format filename then
    _ <- log (ELoad filename) ;;
    λ st, match disk st !! filename with
          | Some wb => (Ok wb, st)
          | None => (Raise FileNotFoundError, st)
          end
  else lift (Raise InvalidFileException).

(** [wb[title]] *)
Definition wb_sheet (wb : Workbook) (title : string) : res Sheet :=
  match wb !! title with
  | Some ws => Ok ws
  | None => Raise KeyError
  end.

(** [ws] is the object [wb["Sheet0"]]: the workbook holds the cells
    that the loop writes through [ws]. *)
Definition with_sheet0 (wb : Workbook) (ws : Sheet) : Workbook :=
  <["Sheet0" := ws]> wb.

(** [wb.save(filename)]: the name is not checked; the file is opened
    for writing, which raises when the file system refuses it, and
    nothing is written then. *)
Definition wb_save (wb : Workbook) (filename : string) : M unit :=
  λ st, match write_error filename (net st) with
        | Some e => (Raise e, st)
        | None =>
            (Ok (), {| net := net st;
                       disk := <[filename := wb]> (disk st);
                       trace := trace st ++ [ESave filename wb] |})
        end.

(** [requests.get(url)] *)
Definition http_get (url : string) : M response :=
  _ <- log (EGet url) ;;
  λ st, let '(r, w) := requests_get url (net st) in
        (r, {| net := w; disk := disk st; trace := trace st |}).

(** Lines 55-56: the name of the enhanced report. *)
Definition new_filename_of (filename : string) : res string :=
  let split_filename := split_dot filename in
  s0 <-? getitem split_filename 0 ;;
  s1 <-? getitem split_filename 1 ;;
  Ok (s0 +:+ "_v" +:+ pretty VERSION +:+ "." +:+ s1).

(** [if l:] on a list *)
Definition nonempty {A} (l : list A) : bool :=
  match l with [] => false | _ => true end.

(** [dict(series="Unavailable", acronym="", volume="", year="",
    package="", subseries="")] *)
Definition new_book_dict : gmap string value :=
  <["series" := VStr "Unavailable"]>
    (<["acronym" := VStr ""]>
       (<["volume" := VStr ""]>
          (<["year" := VStr ""]>
             (<["package" := VStr ""]>
                (<["subseries" := VStr ""]> ∅))))).

(** [RequestBookInfoPage(doi)] *)
Definition RequestBookInfoPage (doi : value) : M (option Doc * bool) :=
  let base_url := "http://link.springer.com/" in
  let landolt := false in
  d <- lift (as_str doi) ;;
  let book_request := base_url +:+ "book/" +:+ d +:+ "#about" in
  book_page <- http_get book_request ;;
  if status_code book_page =? 404 then
    let book_request := base_url +:+ "referencework/" +:+ d +:+ "#about" in
    book_page <- http_get book_request ;;
    if status_code book_page =? 404 then
      let book_request := "http://dx.doi.org/" +:+ d in
      book_page <- http_get book_request ;;
      let landolt := true in
      if status_code book_page =? 404 then
        ret (None, false)
      else
        h <- lift (html_fromstring (content book_page)) ;;
        ret (Some h, landolt)
    else
      h <- lift (html_fromstring (content book_page)) ;;
      ret (Some h, landolt)
  else
    h <- lift (html_fromstring (content book_page)) ;;
    ret (Some h, landolt).

(** [ParseBookPage(book_html)] *)
Definition ParseBookPage (book_html : option Doc) : res (gmap string value) :=
  let book_dict := new_book_dict in
  match book_html with
  | None => Ok book_dict
  | Some h =>
      let series_text := xpath h "//p[@data-test='test-series']/a/text()" in
      book_dict <-?
        (if nonempty series_text then
           t <-? getitem series_text 0 ;;
           Ok (<["series" := VStr (str_encode t)]> book_dict)
         else Ok book_dict) ;;
      let volume_text := xpath h "//p[@data-test='test-series']/span/text()" in
      book_dict <-?
        (if nonempty volume_text then
           t <-? getitem volume_text 0 ;;
           let a := Re.search_acronym (str_encode t) in
           let book_dict :=
             match a with
             | Some g => <["acronym" := VStr g]> book_dict
             | None => book_dict
             end in
           t <-? getitem volume_text 0 ;;
           let v := Re.search_volume (str_encode t) in
           Ok match v with
              | Some g => <["volume" := VStr g]> book_dict
              | None => book_dict
              end
         else Ok book_dict) ;;
      let year_text := xpath h "//span[@id='copyright-info']/text()" in
      book_dict <-?
        (if nonempty year_text then
           t <-? getitem year_text 0 ;;
           let y := Re.search_year (str_encode t) in
           match y with
           | Some g => n <-? Py.int g ;; Ok (<["year" := VInt n]> book_dict)
           | None => Ok book_dict
           end
         else Ok book_dict) ;;
      let package_text := xpath h "//a[@id='ebook-package']/text()" in
      book_dict <-?
        (if nonempty package_text then
           t <-? getitem package_text 0 ;;
           Ok (<["package" := VStr (str_encode t)]> book_dict)
         else Ok book_dict) ;;
      let subseries_text := xpath h "//p[@data-test='test-subseries']/a/text()" in
      book_dict <-?
        (if nonempty subseries_text then
           t <-? getitem subseries_text 0 ;;
           Ok (<["subseries" := VStr (str_encode t)]> book_dict)
         else Ok book_dict) ;;
      Ok book_dict
  end.

(** [ParseLandoltBookPage(book_html)] *)
Definition ParseLandoltBookPage (book_html : option Doc)
  : res (gmap string value) :=
  let book_dict := new_book_dict in
  match book_html with
  | None => Ok book_dict
  | Some h =>
      let series_text :=
        xpath h "//div[@class='publication-title']/span/text()" in
      book_dict <-?
        (if nonempty series_text then
           t <-? getitem series_text 0 ;;
           Ok (<["series" := VStr (str_encode t)]> book_dict)
         else Ok book_dict) ;;
      let volume_text :=
        xpath h "//div[@class='document__enumeration']/span/text()" in
      book_dict <-?
        (if nonempty volume_text then
           t <-? getitem volume_text 0 ;;
           let v := Re.search_landolt_volume (str_encode t) in
           let book_dict :=
             match v with
             | Some g => <["volume" := VStr g]> book_dict
             | None => book_dict
             end in
           t <-? getitem volume_text 0 ;;
           let y := Re.search_year (str_encode t) in
           match y with
           | Some g => n <-? Py.int g ;; Ok (<["year" := VInt n]> book_dict)
           | None => Ok book_dict
           end
         else Ok book_dict) ;;
      Ok book_dict
  end.

(** Lines 54-63: the names computed before the workbook is opened. *)
Record locals : Type := {
  new_filename : string;
  series_col : Z;
  acronym_col : Z;
  volume_col : Z;
  year_col : Z;
  package_col : Z;
  subseries_col : Z;
}.

Definition locals_of (filename issn_col : string) : res locals :=
  new_filename <-? new_filename_of filename ;;
  o <-? ord issn_col ;;
  let series_col := o - 63 in
  Ok {| new_filename := new_filename;
        series_col := series_col;
        acronym_col := series_col + 1;
        volume_col := series_col + 2;
        year_col := series_col + 3;
        package_col := series_col + 4;
        subseries_col := series_col + 5 |}.

(** Lines 78-82: the page of the book, parsed by the parser its
    classification selects. *)
Definition book_dict_of (doi : value) : M (gmap string value) :=
  p <- RequestBookInfoPage doi ;;
  let '(book_html, landolt) := p in
  lift (if landolt : bool then ParseLandoltBookPage book_html
        else ParseBookPage book_html).

(** Lines 84-90: the fields go to the cells of row [i]. *)
Definition write_fields (L : locals) (ws : Sheet) (i : Z)
    (book_dict : gmap string value) : res Sheet :=
  _ <-? dict_get book_dict "series" ;;
  v <-? dict_get book_dict "series" ;;
  ws <-? write ws i (series_col L) v ;;
  v <-? dict_get book_dict "acronym" ;;
  ws <-? write ws i (acronym_col L) v ;;
  v <-? dict_get book_dict "volume" ;;
  ws <-? write ws i (volume_col L) v ;;
  v <-? dict_get book_dict "year" ;;
  ws <-? write ws i (year_col L) v ;;
  v <-? dict_get book_dict "package" ;;
  ws <-? write ws i (package_col L) v ;;
  v <-? dict_get book_dict "subseries" ;;
  write ws i (subseries_col L) v.

(** Lines 74-90: what a turn of the loop does with row [i]. *)
Definition row_visit (doi_col issn_col : string) (L : locals)
    (i : Z) (ws : Sheet) (book_count : Z) : M (Sheet * Z) :=
  o <- lift (ord issn_col) ;;
  p <- lift (read ws i (o - 64)) ;;
  let '(issn, ws) := p in
  if truthy issn then
    let book_count := book_count + 1 in
    o <- lift (ord doi_col) ;;
    p <- lift (read ws i (o - 64)) ;;
    let '(doi, ws) := p in
    book_dict <- book_dict_of doi ;;
    ws <- lift (write_fields L ws i book_dict) ;;
    ret (ws, book_count)
  else ret (ws, book_count).

(** Lines 74-91: one turn of the loop, on row [i]. *)
Definition row_body (doi_col issn_col : string) (L : locals) (wb : Workbook)
    (i : Z) (ws : Sheet) (book_count : Z) : M (Sheet * Z) :=
  p <- row_visit doi_col issn_col L i ws book_count ;;
  let '(ws, book_count) := p in
  _ <- (if i mod 1000 =? 0 then wb_save (with_sheet0 wb ws) (new_filename L)
        else ret ()) ;;
  ret (ws, book_count).

(** [for i in rows: body] *)
Fixpoint for_rows (body : Z → Sheet → Z → M (Sheet * Z)) (rows : list Z)
    (ws : Sheet) (book_count : Z) : M (Sheet * Z) :=
  match rows with
  | [] => ret (ws, book_count)
  | i :: rows =>
      p <- body i ws book_count ;;
      let '(ws, book_count) := p in
      for_rows body rows ws book_count
  end.

(** Lines 64-70: the workbook that the run works on. *)
Definition open_report (filename : string) (L : locals) (rerun : bool)
  : M (Workbook * Sheet) :=
  if rerun then
    wb <- load_workbook (new_filename L) ;;
    ws <- lift (wb_sheet wb "Sheet0") ;;
    ret (wb, ws)
  else
    wb <- load_workbook filename ;;
    ws <- lift (wb_sheet wb "Sheet0") ;;
    _ <- log (EInsertCols (series_col L) 6) ;;
    ret (wb, insert_cols (series_col L) 6 ws).

(** Lines 73-94: the loop over the rows and the last save. *)
Definition enhance_rows (first_row : Z) (doi_col issn_col : string)
    (L : locals) (wb : Workbook) (ws : Sheet) (book_count : Z)
  : M (Sheet * Z) :=
  p <- for_rows (row_body doi_col issn_col L wb)
         (range first_row (max_row ws + 1)) ws book_count ;;
  let '(ws, book_count) := p in
  _ <- wb_save (with_sheet0 wb ws) (new_filename L) ;;
  ret (ws, book_count).

(** [RunReportEnhancement(filename, first_row, doi_col, issn_col, rerun)];
    the result is the sheet and [book_count] when the function returns. *)
Definition RunReportEnhancement (filename : string) (first_row : Z)
    (doi_col issn_col : string) (rerun : bool) : M (Sheet * Z) :=
  let book_count := 0 in
  L <- lift (locals_of filename issn_col) ;;
  p <- open_report filename L rerun ;;
  let '(wb, ws) := p in
  enhance_rows first_row doi_col issn_col L wb ws book_count.

End Functions.

(** ** Notions used to state the properties *)

(** The six fields of a book, in the order of the report's new columns. *)
Inductive field : Type :=
| Series | Acronym | Volume | Year | Package | Subseries.

(** The key of a field in [book_dict]. *)
Definition key (f : field) : string :=
  match f with
  | Series => "series"
  | Acronym => "acronym"
  | Volume => "volume"
  | Year => "year"
  | Package => "package"
  | Subseries => "subseries"
  end.

(** The rank of a field among the new columns. *)
Definition rank (f : field) : Z :=
  match f with
  | Series => 0
  | Acronym => 1
  | Volume => 2
  | Year => 3
  | Package => 4
  | Subseries => 5
  end.

(** The value of a field that was not found. *)
Definition field_default (f : field) : value :=
  match f with
  | Series => VStr "Unavailable"
  | _ => VStr ""
  end.

(** The two page layouts. *)
Inductive schema : Type := Standard | Landolt.

(** The element of the page a field is read from, if the layout has one. *)
Definition field_path (s : schema) (f : field) : option string :=
  match s, f with
  | Standard, Series => Some "//p[@data-test='test-series']/a/text()"
  | Standard, (Acronym | Volume) =>
      Some "//p[@data-test='test-series']/span/text()"
  | Standard, Year => Some "//span[@id='copyright-info']/text()"
  | Standard, Package => Some "//a[@id='ebook-package']/text()"
  | Standard, Subseries => Some "//p[@data-test='test-subseries']/a/text()"
  | Landolt, Series => Some "//div[@class='publication-title']/span/text()"
  | Landolt, (Volume | Year) =>
      Some "//div[@class='document__enumeration']/span/text()"
  | Landolt, _ => None
  end.

(** The pattern a field is cut out with, if any. *)
Definition field_pattern (s : schema) (f : field)
  : option (string → option string) :=
  match s, f with
  | Standard, Acronym => Some Re.search_acronym
  | Standard, Volume => Some Re.search_volume
  | Landolt, Volume => Some Re.search_landolt_volume
  | _, Year => Some Re.search_year
  | _, _ => None
  end.

(** The value a matched text gives to a field: the year is a number. *)
Definition field_value (f : field) (g : string) : value :=
  match f with
  | Year => match Py.int g with Ok n => VInt n | Raise _ => field_default f end
  | _ => VStr g
  end.

(** The cells of column [c] that hold something. *)
Definition filled (c : Z) (ws : Sheet) : nat :=
  length (List.filter (λ kv : Z * Z * value, (kv.1.2 =? c) && truthy kv.2)
            (map_to_list ws)).

(** The rows with a series in column [c] that each save of a trace holds. *)
Definition rows_saved (c : Z) (tr : list event) : list nat :=
  (λ fw : string * Workbook, filled c (default ∅ (fw.2 !! "Sheet0")))
    <$> saves tr.

(** A save after every block of [n] processed rows: for each multiple
    of [n] up to the number [count] of processed rows, a save holds
    exactly that many processed rows. *)
Definition saved_every (n : nat) (c : Z) (count : Z) (tr : list event) : Prop :=
  ∀ k : nat, (1 ≤ k)%nat → Z.of_nat (k * n) ≤ count →
             (k * n)%nat ∈ rows_saved c tr.

(** [insert_cols(idx, amount)] puts the new columns immediately before
    the column that was at [c]: that column comes right after them. *)
Definition inserted_before (idx amount c : Z) : Prop :=
  shift_col idx amount c = idx + amount.

(** [insert_cols(idx, amount)] puts the new columns immediately after
    the column at [c], which stays where it is. *)
Definition inserted_after (idx amount c : Z) : Prop :=
  shift_col idx amount c = c ∧ idx = c + 1.

(** The string has a dot. *)
Fixpoint has_dot (s : string) : bool :=
  match s with
  | EmptyString => false
  | String c r => Ascii.eqb c "."%char || has_dot r
  end.

Section Notions.

Context {env : Env}.

Definition parser (s : schema) : option Doc → res (gmap string value) :=
  match s with
  | Standard => ParseBookPage
  | Landolt => ParseLandoltBookPage
  end.

(** The texts of the element of a field. *)
Definition field_texts (s : schema) (f : field) (h : Doc) : list string :=
  match field_path s f with
  | Some p => xpath h p
  | None => []
  end.

(** A field on its own: the first text of its element, through its
    pattern, or the default when either is missing. *)
Definition field_alone (s : schema) (f : field) (texts : list string) : value :=
  match texts with
  | [] => field_default f
  | t :: _ =>
      match field_pattern s f with
      | None => VStr (str_encode t)
      | Some search =>
          match search (str_encode t) with
          | Some g => field_value f g
          | None => field_default f
          end
      end
  end.

(** The column of a field. *)
Definition field_col (L : locals) (f : field) : Z := series_col L + rank f.

(** The three addresses of a book, in the order they are tried. *)
Definition book_url (d : string) : string :=
  "http://link.springer.com/" +:+ "book/" +:+ d +:+ "#about".
Definition referencework_url (d : string) : string :=
  "http://link.springer.com/" +:+ "referencework/" +:+ d +:+ "#about".
Definition doi_url (d : string) : string := "http://dx.doi.org/" +:+ d.

(** The state after the events [evs], with the network in state [w]. *)
Definition after (st : state) (w : World) (evs : list event) : state :=
  {| net := w; disk := disk st; trace := trace st ++ evs |}.

(** The address answers 404 in the network state [w], which becomes
    the state returned. *)
Definition not_found (url : string) (w : World) : option World :=
  match requests_get url w with
  | (Ok r, w') => if status_code r =? 404 then Some w' else None
  | (Raise _, _) => None
  end.

(** The page of an answer with its classification, unless lxml rejects
    the content. *)
Definition parsed (r : response) (landolt : bool) : res (option Doc * bool) :=
  res_map (λ h, (Some h, landolt)) (html_fromstring (content r)).

(** The state after the workbook has been saved, when the save succeeds. *)
Definition saved_state (filename : string) (wb : Workbook) (st : state)
  : state :=
  {| net := net st;
     disk := <[filename := wb]> (disk st);
     trace := trace st ++ [ESave filename wb] |}.

(** The state after the turn of row [i] has saved the workbook, if it has. *)
Definition checkpoint (L : locals) (wb : Workbook) (i : Z) (ws : Sheet)
    (st : state) : state :=
  if i mod 1000 =? 0
  then saved_state (new_filename L) (with_sheet0 wb ws) st
  else st.

(** Line 91 after the turn of row [i] has left the sheet [ws] and the
    count [cnt]: the turn returns them, after a save at a multiple of
    1000, unless that save raises. *)
Definition turn_end (L : locals) (wb : Workbook) (i : Z) (ws : Sheet)
    (cnt : Z) (st : state) : res (Sheet * Z) * state :=
  if i mod 1000 =? 0 then
    match write_error (new_filename L) (net st) with
    | Some e => (Raise e, st)
    | None => (Ok (ws, cnt), saved_state (new_filename L) (with_sheet0 wb ws) st)
    end
  else (Ok (ws, cnt), st).

(** The events of the turn of row [i]: its requests [t.1], then the save
    of the sheet [t.2] it leaves if [i] is a multiple of 1000. *)
Definition turn_events (L : locals) (wb : Workbook) (i : Z)
    (t : list event * Sheet) : list event :=
  t.1 ++ (if i mod 1000 =? 0
          then [ESave (new_filename L) (with_sheet0 wb t.2)] else []).

(** The rows of a list at which the loop saves. *)
Definition checkpoint_rows (rows : list Z) : list Z :=
  List.filter (λ i, i mod 1000 =? 0) rows.

(** The sheet [s] holds every row up to [i] as the sheet [ws] does. *)
Definition complete_up_to (ws : Sheet) (i : Z) (s : Sheet) : Prop :=
  ∀ r c, r ≤ i → cell_value s r c = cell_value ws r c.

(** The turn of row [i] of a loop that started on [ws0] and ended on
    [ws_fin]: it only makes requests, and the sheet it leaves has the rows
    up to [i] as they end and the rows after [i] as they started. *)
Definition turn_of (ws0 ws_fin : Sheet) (i : Z) (t : list event * Sheet)
  : Prop :=
  Forall (λ e, is_get e = true) t.1
  ∧ complete_up_to ws_fin i t.2
  ∧ ∀ r c, i < r → cell_value t.2 r c = cell_value ws0 r c.

(** The sheet the loop starts from, given the sheet found in the file. *)
Definition opened_sheet (L : locals) (rerun : bool) (ws : Sheet) : Sheet :=
  if rerun then ws else insert_cols (series_col L) 6 ws.

(** The file a run opens. *)
Definition opened_file (filename : string) (L : locals) (rerun : bool)
  : string :=
  if rerun then new_filename L else filename.

(** The state the loop starts in. *)
Definition opened_state (filename : string) (L : locals) (rerun : bool)
    (st : state) : state :=
  after st (net st)
    (ELoad (opened_file filename L rerun)
       :: (if rerun then [] else [EInsertCols (series_col L) 6])).

(** The sheet and the count a run returns with. *)
Definition final_sheet (out : res (Sheet * Z) * state) : Sheet :=
  match out.1 with Ok (ws, _) => ws | Raise _ => ∅ end.
Definition final_count (out : res (Sheet * Z) * state) : Z :=
  match out.1 with Ok (_, n) => n | Raise _ => 0 end.

(** The columns of [L] are those the script derives from the ISSN
    column of code [o]. *)
Definition columns_from (o : Z) (L : locals) : Prop :=
  series_col L = o - 63
  ∧ acronym_col L = series_col L + 1
  ∧ volume_col L = series_col L + 2
  ∧ year_col L = series_col L + 3
  ∧ package_col L = series_col L + 4
  ∧ subseries_col L = series_col L + 5.

End Notions.

(** ** Notions for the properties of the parts *)

(** The addresses asked by a trace, oldest first. *)
Definition requests (tr : list event) : list string :=
  omap (λ e, match e with EGet url => Some url | _ => None end) tr.

(** Every character of the string passes the test. *)
Fixpoint all_chars (p : ascii → bool) (s : string) : bool :=
  match s with
  | EmptyString => true
  | String c r => p c && all_chars p r
  end.

(** The string up to its first dot. *)
Definition before_dot (s : string) : string :=
  Re.take_while (λ c, negb (Ascii.eqb c "."%char)) s.

(** Four digits and nothing else. *)
Definition four_digits (g : string) : Prop :=
  String.length g = 4%nat ∧ all_chars is_digit g = true.

(** The string is empty or starts with a character that fails the test. *)
Definition stops_at (p : ascii → bool) (s : string) : Prop :=
  match s with
  | EmptyString => True
  | String c _ => p c = false
  end.

(** A character of a line that is not [stop]. *)
Definition is_dot_but (stop : ascii) (c : ascii) : bool :=
  Re.is_dot c && negb (Ascii.eqb c stop).

(** The outcome is a return. *)
Definition returned {A S : Type} (out : res A * S) : bool :=
  match out.1 with Ok _ => true | Raise _ => false end.

(** ** A small world to run the script in

    Three books: one found at the book address, one at the reference work
    address, one only through dx.doi.org; every other address answers 404.
    A document is its own source text, and a path finds what the table
    below lists for it. *)

Module Demo.

Definition pages : list (string * string) :=
  [ ("http://link.springer.com/book/10.1007/b1#about", "book page");
    ("http://link.springer.com/referencework/10.1007/r2#about", "book page");
    ("http://dx.doi.org/10.1007/l3", "landolt page") ].

Definition get (url : string) (n : nat) : res response * nat :=
  match list_find (λ p, p.1 = url) pages with
  | Some (_, (_, body)) => (Ok {| status_code := 200; content := body |}, S n)
  | None => (Ok {| status_code := 404; content := "" |}, S n)
  end.

Definition texts : list (string * string * list string) :=
  [ ("book page", "//p[@data-test='test-series']/a/text()",
     ["Lecture Notes in Physics"]);
    ("book page", "//p[@data-test='test-series']/span/text()",
     ["(LNP, volume 951)"]);
    ("book page", "//span[@id='copyright-info']/text()",
     ["Copyright 2018"]);
    ("book page", "//a[@id='ebook-package']/text()",
     ["Physics and Astronomy"]);
    ("landolt page", "//div[@class='publication-title']/span/text()",
     ["Landolt-Bornstein - Group III"]);
    ("landolt page", "//div[@class='document__enumeration']/span/text()",
     ["Volume 41D 2000 edition"]) ].

Definition find_texts (doc path : string) : list string :=
  match list_find (λ p, p.1 = (doc, path)) texts with
  | Some (_, (_, l)) => l
  | None => []
  end.

Definition fromstring (s : string) : res string :=
  if String.eqb s "" then Raise ParserError else Ok s.

(** Only the one directory exists: a name with a slash cannot be
    written. *)
Definition cannot_write (filename : string) (_ : nat) : option exn :=
  if has_char "/"%char filename then Some FileNotFoundError else None.

Definition env : Env :=
  {| World := nat;
     requests_get := get;
     write_error := cannot_write;
     Doc := string;
     html_fromstring := fromstring;
     xpath := find_texts;
     str_encode := λ s, s |}.

(** A report of three books in rows 10 to 12 and a row without ISSN. *)
Definition sheet : Sheet :=
  list_to_map
    [ ((10, 4), VStr "10.1007/b1"); ((10, 7), VStr "0075-8450");
      ((10, 8), VInt 17);
      ((11, 4), VStr "10.1007/r2"); ((11, 7), VStr "1234-5678");
      ((12, 4), VStr "10.1007/none");
      ((13, 4), VStr "10.1007/l3"); ((13, 7), VStr "1615-1925") ].

Definition files : gmap string Workbook :=
  {[ "report.xlsx" := {[ "Sheet0" := sheet ]} ]}.

Definition start (d : gmap string Workbook) : state :=
  @Build_state env 0%nat d [].

(** A long report: rows 2 to 1002 all have an ISSN, and none of the
    books is found. *)
Definition long_sheet : Sheet :=
  list_to_map
    (flat_map (λ r, [((r, 4), VStr "10.1007/x"); ((r, 7), VStr "0075-8450")])
       (seqZ 2 1001)).

Definition long_files : gmap string Workbook :=
  {[ "long.xlsx" := {[ "Sheet0" := long_sheet ]} ]}.

(** The end of a report that was enhanced up to row 998. *)
Definition tail_sheet : Sheet :=
  list_to_map
    [ ((999, 4), VStr "10.1007/b1"); ((999, 7), VStr "0075-8450");
      ((1000, 4), VStr "10.1007/none"); ((1000, 7), VStr "1234-5678");
      ((1001, 4), VStr "10.1007/l3"); ((1001, 7), VStr "1615-1925") ].

Definition tail_files : gmap string Workbook :=
  {[ "tail_v1.xlsx" := {[ "Sheet0" := tail_sheet ]} ]}.

(** A first run on the report, a resumed run from row 999 on the end
    of a report, and a first run on the long report. *)
Definition fresh_run : res (Sheet * Z) * state :=
  RunReportEnhancement (env := env) "report.xlsx" 10 "D" "G" false
    (start files).

Definition tail_run : res (Sheet * Z) * state :=
  RunReportEnhancement (env := env) "tail.xlsx" 999 "D" "G" true
    (start tail_files).

Definition long_run : res (Sheet * Z) * state :=
  RunReportEnhancement (env := env) "long.xlsx" 1 "D" "G" false
    (start long_files).

(** The names the script computes for a report whose ISSN is in column G. *)
Definition names (new_filename : string) : locals :=
  {| new_filename := new_filename;
     series_col := 8; acronym_col := 9; volume_col := 10;
     year_col := 11; package_col := 12; subseries_col := 13 |}.

End Demo.

(** ** Properties of the primitives *)

Section PrimitiveFacts.

Lemma is_digit_val (c : ascii) : is_digit c = true → 0 ≤ digit_val c ≤ 9.
Proof.
  unfold is_digit, digit_val. intros H.
  apply andb_prop in H as [H1 H2].
  apply Nat.leb_le in H1, H2. lia.
Qed.

(** Four digits in a row always convert. *)
Lemma search_year_int (s g : string) :
  Re.search_year s = Some g → ∃ n, Py.int g = Ok n ∧ 0 ≤ n ≤ 9999.
Proof.
  induction s as [|a r IH]; [discriminate|].
  cbn [Re.search_year].
  destruct r as [|b [|c [|d r']]]; try discriminate.
  destruct (is_digit a && is_digit b && is_digit c && is_digit d) eqn:E.
  - intros [= <-].
    apply andb_prop in E as [E Hd]. apply andb_prop in E as [E Hc].
    apply andb_prop in E as [Ha Hb].
    unfold Py.int. cbn [int_digits]. rewrite Ha, Hb, Hc, Hd.
    eexists; split; [reflexivity|].
    apply is_digit_val in Ha, Hb, Hc, Hd. lia.
  - exact IH.
Qed.

Lemma field_value_year (s g : string) :
  Re.search_year s = Some g → ∃ n, Py.int g = Ok n ∧ field_value Year g = VInt n.
Proof.
  intros H. destruct (search_year_int _ _ H) as (n & Hn & _).
  exists n. split; [done|]. unfold field_value. by rewrite Hn.
Qed.

End PrimitiveFacts.

(** ** The parsers *)

(** Looks a literal key up in a dict built by insertions. *)
Ltac dict_lookup :=
  unfold new_book_dict;
  repeat (rewrite lookup_insert_eq || (rewrite lookup_insert_ne by discriminate));
  try reflexivity.

Section ParserFacts.

Context {env : Env}.

Lemma new_book_dict_fields (f : field) :
  new_book_dict !! key f = Some (field_default f).
Proof. destruct f; cbn [key field_default]; dict_lookup. Qed.

Lemma parser_None (s : schema) : parser s None = Ok new_book_dict.
Proof. by destruct s. Qed.

(** The standard parser always returns, and each key holds what its
    field gives on its own. *)
Lemma ParseBookPage_fields (h : Doc) :
  ∃ bd, ParseBookPage (Some h) = Ok bd
        ∧ ∀ f, bd !! key f
               = Some (field_alone Standard f (field_texts Standard f h)).
Proof.
  unfold ParseBookPage.
  destruct (xpath h "//p[@data-test='test-series']/a/text()")
    as [|t1 ?] eqn:E1;
  destruct (xpath h "//p[@data-test='test-series']/span/text()")
    as [|t2 ?] eqn:E2;
  destruct (xpath h "//span[@id='copyright-info']/text()")
    as [|t3 ?] eqn:E3;
  destruct (xpath h "//a[@id='ebook-package']/text()")
    as [|t4 ?] eqn:E4;
  destruct (xpath h "//p[@data-test='test-subseries']/a/text()")
    as [|t5 ?] eqn:E5;
  cbn [nonempty getitem lookup list_lookup res_bind];
  try destruct (Re.search_acronym (str_encode t2)) eqn:Ea;
  try destruct (Re.search_volume (str_encode t2)) eqn:Ev;
  try (destruct (Re.search_year (str_encode t3)) as [g|] eqn:Ey;
       [destruct (search_year_int _ _ Ey) as (n & Hn & _); rewrite Hn|]);
  cbn [res_bind];
  (eexists; split; [reflexivity|];
   intros []; unfold field_texts, field_alone, field_value;
   cbn [field_path field_pattern key field_default];
   rewrite ?E1, ?E2, ?E3, ?E4, ?E5, ?Ea, ?Ev, ?Ey, ?Hn; dict_lookup).
Qed.

(** The same for the Landolt-Bornstein parser. *)
Lemma ParseLandoltBookPage_fields (h : Doc) :
  ∃ bd, ParseLandoltBookPage (Some h) = Ok bd
        ∧ ∀ f, bd !! key f
               = Some (field_alone Landolt f (field_texts Landolt f h)).
Proof.
  unfold ParseLandoltBookPage.
  destruct (xpath h "//div[@class='publication-title']/span/text()")
    as [|t1 ?] eqn:E1;
  destruct (xpath h "//div[@class='document__enumeration']/span/text()")
    as [|t2 ?] eqn:E2;
  cbn [nonempty getitem lookup list_lookup res_bind];
  try destruct (Re.search_landolt_volume (str_encode t2)) eqn:Ev;
  try (destruct (Re.search_year (str_encode t2)) as [g|] eqn:Ey;
       [destruct (search_year_int _ _ Ey) as (n & Hn & _); rewrite Hn|]);
  cbn [res_bind];
  (eexists; split; [reflexivity|];
   intros []; unfold field_texts, field_alone, field_value;
   cbn [field_path field_pattern key field_default];
   rewrite ?E1, ?E2, ?Ev, ?Ey, ?Hn; dict_lookup).
Qed.

Lemma parser_fields (s : schema) (h : Doc) :
  ∃ bd, parser s (Some h) = Ok bd
        ∧ ∀ f, bd !! key f = Some (field_alone s f (field_texts s f h)).
Proof.
  destruct s; [apply ParseBookPage_fields | apply ParseLandoltBookPage_fields].
Qed.

(** Every parser returns a dict that has the six keys. *)
Lemma parser_total (s : schema) (book_html : option Doc) :
  ∃ bd, parser s book_html = Ok bd ∧ ∀ f, is_Some (bd !! key f).
Proof.
  destruct book_html as [h|].
  - destruct (parser_fields s h) as (bd & Hbd & Hf).
    exists bd. split; [done|]. intros f. rewrite Hf. by eexists.
  - exists new_book_dict. split; [apply parser_None|].
    intros f. rewrite new_book_dict_fields. by eexists.
Qed.

(** C8: on every document, however incomplete, both parsers return
    without raising, and each of the six fields is settled on its own:
    a field whose element is missing, or whose pattern (acronym in
    parentheses, volume after the word volume, four-digit year) does not
    match, keeps its default; a field whose element and pattern are
    found is extracted, whatever happened to the other fields. *)
Theorem C8_extraction_is_tolerant (s : schema) (h : Doc) :
  ∃ bd,
    parser s (Some h) = Ok bd
    ∧ (∀ f, field_texts s f h = [] → bd !! key f = Some (field_default f))
    ∧ (∀ f search t l,
          field_texts s f h = t :: l →
          field_pattern s f = Some search →
          search (str_encode t) = None →
          bd !! key f = Some (field_default f))
    ∧ (∀ f t l,
          field_texts s f h = t :: l →
          field_pattern s f = None →
          bd !! key f = Some (VStr (str_encode t)))
    ∧ (∀ f search t l g,
          field_texts s f h = t :: l →
          field_pattern s f = Some search →
          search (str_encode t) = Some g →
          bd !! key f = Some (field_value f g)
          ∧ (f = Year → ∃ n, Py.int g = Ok n ∧ field_value f g = VInt n))
    ∧ (∀ h' bd',
          parser s (Some h') = Ok bd' →
          ∀ f, field_texts s f h' = field_texts s f h →
               bd' !! key f = bd !! key f).
Proof.
  destruct (parser_fields s h) as (bd & Hbd & Hf).
  exists bd. split; [exact Hbd|].
  split; [|split; [|split; [|split]]].
  - intros f E. rewrite Hf, E. reflexivity.
  - intros f search t l E Hp Hs. rewrite Hf, E. cbn. by rewrite Hp, Hs.
  - intros f t l E Hp. rewrite Hf, E. cbn. by rewrite Hp.
  - intros f search t l g E Hp Hs. split.
    + rewrite Hf, E. cbn. by rewrite Hp, Hs.
    + intros ->. apply field_value_year with (s := str_encode t).
      destruct s; cbn in Hp; injection Hp as <-; exact Hs.
  - intros h' bd' Hbd' f E.
    destruct (parser_fields s h') as (bd2 & Hbd2 & Hf2).
    rewrite Hbd' in Hbd2. injection Hbd2 as <-.
    by rewrite Hf, Hf2, E.
Qed.

(** C10: the Landolt-Bornstein parser never fills the acronym, the
    package or the subseries: on every input it returns a dict in which
    these three keys hold the empty string. *)
Theorem C10_landolt_leaves_three_fields (book_html : option Doc) :
  ∃ bd,
    ParseLandoltBookPage book_html = Ok bd
    ∧ bd !! "acronym" = Some (VStr "")
    ∧ bd !! "package" = Some (VStr "")
    ∧ bd !! "subseries" = Some (VStr "").
Proof.
  destruct book_html as [h|].
  - destruct (ParseLandoltBookPage_fields h) as (bd & Hbd & Hf).
    exists bd. split; [exact Hbd|].
    split; [apply (Hf Acronym)|]. split; [apply (Hf Package)|apply (Hf Subseries)].
  - exists new_book_dict. split; [reflexivity|].
    split; [apply (new_book_dict_fields Acronym)|].
    split; [apply (new_book_dict_fields Package)
           |apply (new_book_dict_fields Subseries)].
Qed.

End ParserFacts.

(** ** Statements, requests and the three addresses *)

Section RequestFacts.
Context {env : Env}.

Lemma bind_Ok {A B} (m : M A) (k : A → M B) st a st' :
  m st = (Ok a, st') → bind m k st = k a st'.
Proof. unfold bind. by intros ->. Qed.

Lemma bind_Raise {A B} (m : M A) (k : A → M B) st e st' :
  m st = (Raise e, st') → bind m k st = (Raise e, st').
Proof. unfold bind. by intros ->. Qed.

Lemma bind_inv_Ok {A B} (m : M A) (k : A → M B) st b st' :
  bind m k st = (Ok b, st') →
  ∃ a st1, m st = (Ok a, st1) ∧ k a st1 = (Ok b, st').
Proof.
  unfold bind. destruct (m st) as [[a|e] st1]; [|discriminate].
  intros H. by exists a, st1.
Qed.

Lemma after_nil st : after st (net st) [] = st.
Proof. destruct st. unfold after; cbn. by rewrite app_nil_r. Qed.

Lemma after_after st w1 e1 w2 e2 :
  after (after st w1 e1) w2 e2 = after st w2 (e1 ++ e2).
Proof. unfold after; cbn. by rewrite app_assoc. Qed.

Lemma http_get_run url st r w :
  requests_get url (net st) = (r, w) →
  http_get url st = (r, after st w [EGet url]).
Proof.
  intros H. unfold http_get, bind, log; cbn. by rewrite H.
Qed.

Lemma not_found_inv url w w' :
  not_found url w = Some w' →
  ∃ r, requests_get url w = (Ok r, w') ∧ (status_code r =? 404) = true.
Proof.
  unfold not_found. destruct (requests_get url w) as [[r|e] w1]; [|done].
  destruct (status_code r =? 404) eqn:E; [|done].
  intros [= ->]. by exists r.
Qed.

Lemma parse_tail (r : response) (landolt : bool) st :
  (h <- lift (html_fromstring (content r)) ;; ret (Some h, landolt)) st
  = (parsed r landolt, st).
Proof.
  unfold bind, lift, ret, parsed, res_map, res_bind.
  by destruct (html_fromstring (content r)).
Qed.

Lemma RequestBookInfoPage_unfold (d : string) (st : state) :
  RequestBookInfoPage (VStr d) st =
  (book_page <- http_get (book_url d) ;;
   if status_code book_page =? 404 then
     book_page <- http_get (referencework_url d) ;;
     if status_code book_page =? 404 then
       book_page <- http_get (doi_url d) ;;
       if status_code book_page =? 404 then ret (None, false)
       else lift (parsed book_page true)
     else lift (parsed book_page false)
   else lift (parsed book_page false)) st.
Proof.
  unfold RequestBookInfoPage. cbn [as_str].
  unfold bind at 1. cbn [lift].
  unfold bind. 
  destruct (http_get _ st) as [[r1|?] st1]; [|done].
  fold (book_url d).
  destruct (status_code r1 =? 404); [|apply parse_tail].
  destruct (http_get _ st1) as [[r2|?] st2]; [|done].
  destruct (status_code r2 =? 404); [|apply parse_tail].
  destruct (http_get _ st2) as [[r3|?] st3]; [|done].
  destruct (status_code r3 =? 404); [done|apply parse_tail].
Qed.

(** A DOI cell that does not hold a string: [TypeError], before any request. *)
Lemma RequestBookInfoPage_not_str (doi : value) (st : state) :
  (∀ d, doi ≠ VStr d) →
  RequestBookInfoPage doi st = (Raise TypeError, st).
Proof.
  intros H. unfold RequestBookInfoPage, bind, lift.
  destruct doi as [|d|n]; [done| |done]. by destruct (H d).
Qed.

Lemma get_then {B} url (k : response → M B) st r w :
  requests_get url (net st) = (Ok r, w) →
  (book_page <- http_get url ;; k book_page) st = k r (after st w [EGet url]).
Proof. intros H. apply bind_Ok. by apply http_get_run. Qed.

Lemma get_raise {B} url (k : response → M B) st e w :
  requests_get url (net st) = (Raise e, w) →
  (book_page <- http_get url ;; k book_page) st = (Raise e, after st w [EGet url]).
Proof. intros H. apply bind_Raise. by apply http_get_run. Qed.

(** The book address answers something else than 404. *)
Lemma RequestBookInfoPage_book d st r1 w1 :
  requests_get (book_url d) (net st) = (Ok r1, w1) →
  status_code r1 ≠ 404 →
  RequestBookInfoPage (VStr d) st
  = (parsed r1 false, after st w1 [EGet (book_url d)]).
Proof.
  intros H1 S1. rewrite RequestBookInfoPage_unfold.
  rewrite (get_then _ _ _ _ _ H1).
  apply Z.eqb_neq in S1. by rewrite S1.
Qed.

Lemma RequestBookInfoPage_referencework d st w1 r2 w2 :
  not_found (book_url d) (net st) = Some w1 →
  requests_get (referencework_url d) w1 = (Ok r2, w2) →
  status_code r2 ≠ 404 →
  RequestBookInfoPage (VStr d) st
  = (parsed r2 false,
     after st w2 [EGet (book_url d); EGet (referencework_url d)]).
Proof.
  intros H1 H2 S2. rewrite RequestBookInfoPage_unfold.
  apply not_found_inv in H1 as (r1 & H1 & S1).
  rewrite (get_then _ _ _ _ _ H1), S1.
  rewrite (get_then _ _ (after _ _ _) _ _ H2).
  apply Z.eqb_neq in S2. rewrite S2. unfold lift. by rewrite after_after.
Qed.

Lemma RequestBookInfoPage_doi d st w1 w2 r3 w3 :
  not_found (book_url d) (net st) = Some w1 →
  not_found (referencework_url d) w1 = Some w2 →
  requests_get (doi_url d) w2 = (Ok r3, w3) →
  status_code r3 ≠ 404 →
  RequestBookInfoPage (VStr d) st
  = (parsed r3 true,
     after st w3 [EGet (book_url d); EGet (referencework_url d);
                  EGet (doi_url d)]).
Proof.
  intros H1 H2 H3 S3. rewrite RequestBookInfoPage_unfold.
  apply not_found_inv in H1 as (r1 & H1 & S1).
  apply not_found_inv in H2 as (r2 & H2 & S2).
  rewrite (get_then _ _ _ _ _ H1), S1.
  rewrite (get_then _ _ (after _ _ _) _ _ H2), S2.
  rewrite (get_then _ _ (after _ _ _) _ _ H3).
  apply Z.eqb_neq in S3. rewrite S3. unfold lift. by rewrite !after_after.
Qed.

Lemma RequestBookInfoPage_absent d st w1 w2 w3 :
  not_found (book_url d) (net st) = Some w1 →
  not_found (referencework_url d) w1 = Some w2 →
  not_found (doi_url d) w2 = Some w3 →
  RequestBookInfoPage (VStr d) st
  = (Ok (None, false),
     after st w3 [EGet (book_url d); EGet (referencework_url d);
                  EGet (doi_url d)]).
Proof.
  intros H1 H2 H3. rewrite RequestBookInfoPage_unfold.
  apply not_found_inv in H1 as (r1 & H1 & S1).
  apply not_found_inv in H2 as (r2 & H2 & S2).
  apply not_found_inv in H3 as (r3 & H3 & S3).
  rewrite (get_then _ _ _ _ _ H1), S1.
  rewrite (get_then _ _ (after _ _ _) _ _ H2), S2.
  rewrite (get_then _ _ (after _ _ _) _ _ H3), S3.
  unfold ret. by rewrite !after_after.
Qed.

(** Whatever happens, the requests made are the first addresses of the
    list, and nothing else is done to the outside. *)
Lemma RequestBookInfoPage_trace doi st :
  ∃ w evs, (RequestBookInfoPage doi st).2 = after st w evs
           ∧ Forall (λ e, is_get e = true) evs.
Proof.
  destruct doi as [|d|n];
    try (exists (net st), []; split; [symmetry; apply after_nil|constructor]).
  rewrite RequestBookInfoPage_unfold.
  destruct (requests_get (book_url d) (net st)) as [[r1|e1] w1] eqn:E1.
  2:{ rewrite (get_raise _ _ _ _ _ E1). eexists _, _. split; [done|].
      by repeat constructor. }
  rewrite (get_then _ _ _ _ _ E1).
  destruct (status_code r1 =? 404).
  2:{ eexists _, _. split; [done|]. by repeat constructor. }
  destruct (requests_get (referencework_url d) w1) as [[r2|e2] w2] eqn:E2.
  2:{ rewrite (get_raise _ _ (after _ _ _) _ _ E2). rewrite after_after.
      eexists _, _. split; [done|]. by repeat constructor. }
  rewrite (get_then _ _ (after _ _ _) _ _ E2).
  destruct (status_code r2 =? 404).
  2:{ unfold lift; cbn [snd]. rewrite after_after.
      eexists _, _. split; [done|]. by repeat constructor. }
  destruct (requests_get (doi_url d) w2) as [[r3|e3] w3] eqn:E3.
  2:{ rewrite (get_raise _ _ (after _ _ _) _ _ E3). rewrite !after_after.
      eexists _, _. split; [done|]. by repeat constructor. }
  rewrite (get_then _ _ (after _ _ _) _ _ E3).
  destruct (status_code r3 =? 404); unfold lift, ret; cbn [snd];
    rewrite !after_after; eexists _, _; (split; [done|]); by repeat constructor.
Qed.

Lemma not_found_None_inv url w r w' :
  not_found url w = None → requests_get url w = (Ok r, w') →
  (status_code r =? 404) = false.
Proof.
  unfold not_found. intros H E. rewrite E in H.
  by destruct (status_code r =? 404).
Qed.

Lemma book_dict_of_run doi st r st' :
  RequestBookInfoPage doi st = (r, st') →
  book_dict_of doi st
  = (res_bind r (λ p, if p.2 then ParseLandoltBookPage p.1
                      else ParseBookPage p.1), st').
Proof.
  intros H. unfold book_dict_of, bind. rewrite H.
  by destruct r as [[book_html landolt]|e].
Qed.

(** C3: the addresses of a book are asked in the fixed order book,
    reference work, dx.doi.org; the second is asked exactly when the
    first answered 404 and the third exactly when the second did too.
    When the first answers 404 and the second does not, two requests
    are made, the page comes back classified as standard and the row
    is parsed by [ParseBookPage]: dx.doi.org is not asked. *)
Theorem C3_fallback_order (d : string) (st : state) :
  (∃ (k : nat) w,
      (1 ≤ k ≤ 3)%nat
      ∧ (RequestBookInfoPage (VStr d) st).2
        = after st w (take k [EGet (book_url d);
                              EGet (referencework_url d);
                              EGet (doi_url d)])
      ∧ ((2 ≤ k)%nat ↔ is_Some (not_found (book_url d) (net st)))
      ∧ ((3 ≤ k)%nat ↔
         ∃ w1, not_found (book_url d) (net st) = Some w1
               ∧ is_Some (not_found (referencework_url d) w1)))
  ∧ (∀ w1 r2 w2,
        not_found (book_url d) (net st) = Some w1 →
        requests_get (referencework_url d) w1 = (Ok r2, w2) →
        status_code r2 ≠ 404 →
        let st' := after st w2 [EGet (book_url d);
                                EGet (referencework_url d)] in
        RequestBookInfoPage (VStr d) st = (parsed r2 false, st')
        ∧ book_dict_of (VStr d) st
          = (res_bind (html_fromstring (content r2))
               (λ h, ParseBookPage (Some h)), st')).
Proof.
  split.
  - rewrite RequestBookInfoPage_unfold.
    destruct (not_found (book_url d) (net st)) as [w1|] eqn:N1.
    + destruct (not_found_inv _ _ _ N1) as (r1 & E1 & S1).
      rewrite (get_then _ _ _ _ _ E1), S1.
      destruct (not_found (referencework_url d) w1) as [w2|] eqn:N2.
      * destruct (not_found_inv _ _ _ N2) as (r2 & E2 & S2).
        rewrite (get_then _ _ (after _ _ _) _ _ E2), S2.
        destruct (requests_get (doi_url d) w2) as [[r3|e3] w3] eqn:E3.
        -- rewrite (get_then _ _ (after _ _ _) _ _ E3).
           exists 3%nat, w3. split; [lia|]. split.
           { destruct (status_code r3 =? 404); unfold lift, ret; cbn [snd];
               by rewrite !after_after. }
           split; [by split; [eexists|lia]|].
           split; [intros _; exists w1; split; [done|by eexists]|lia].
        -- rewrite (get_raise _ _ (after _ _ _) _ _ E3).
           exists 3%nat, w3. split; [lia|]. split.
           { cbn [snd]. by rewrite !after_after. }
           split; [by split; [eexists|lia]|].
           split; [intros _; exists w1; split; [done|by eexists]|lia].
      * destruct (requests_get (referencework_url d) w1)
          as [[r2|e2] w2] eqn:E2.
        -- rewrite (get_then _ _ (after _ _ _) _ _ E2).
           rewrite (not_found_None_inv _ _ _ _ N2 E2).
           exists 2%nat, w2. split; [lia|]. split.
           { unfold lift; cbn [snd]. by rewrite after_after. }
           split; [by split; [eexists|lia]|].
           split; [lia|]. intros (w1' & [= <-] & [? Hs]). congruence.
        -- rewrite (get_raise _ _ (after _ _ _) _ _ E2).
           exists 2%nat, w2. split; [lia|]. split.
           { cbn [snd]. by rewrite after_after. }
           split; [by split; [eexists|lia]|].
           split; [lia|]. intros (w1' & [= <-] & [? Hs]). congruence.
    + destruct (requests_get (book_url d) (net st)) as [[r1|e1] w1] eqn:E1.
      * rewrite (get_then _ _ _ _ _ E1).
        rewrite (not_found_None_inv _ _ _ _ N1 E1).
        exists 1%nat, w1. split; [lia|]. split; [done|].
        split; [split; [lia|by intros [? ?]]|].
        split; [lia|]. by intros (? & ? & _).
      * rewrite (get_raise _ _ _ _ _ E1).
        exists 1%nat, w1. split; [lia|]. split; [done|].
        split; [split; [lia|by intros [? ?]]|].
        split; [lia|]. by intros (? & ? & _).
  - intros w1 r2 w2 N1 E2 S2 st'.
    pose proof (RequestBookInfoPage_referencework _ _ _ _ _ N1 E2 S2) as H.
    split; [exact H|].
    rewrite (book_dict_of_run _ _ _ _ H). unfold parsed, res_map.
    by destruct (html_fromstring (content r2)).
Qed.

End RequestFacts.

(** ** Cells and columns *)

Section SheetFacts.

Implicit Types ws : Sheet.

Lemma cell_value_insert ws r c v r' c' :
  cell_value (<[(r, c) := v]> ws) r' c'
  = if decide (r' = r ∧ c' = c) then v else cell_value ws r' c'.
Proof.
  unfold cell_value. case_decide as H.
  - destruct H as [-> ->]. by rewrite lookup_insert_eq.
  - rewrite lookup_insert_ne; [done|]. intros [= -> ->]. by apply H.
Qed.

Lemma cell_inv ws r c ws' :
  cell ws r c = Ok ws' →
  1 ≤ r ∧ 1 ≤ c ∧ ∀ r' c', cell_value ws' r' c' = cell_value ws r' c'.
Proof.
  unfold cell. destruct ((r <? 1) || (c <? 1)) eqn:E; [discriminate|].
  apply orb_false_elim in E as [Hr Hc].
  apply Z.ltb_ge in Hr, Hc. intros [= <-].
  split; [done|]. split; [done|]. intros r' c'.
  destruct (ws !! (r, c)) as [v|] eqn:Hl; [done|].
  rewrite cell_value_insert. case_decide as H; [|done].
  destruct H as [-> ->]. unfold cell_value. by rewrite Hl.
Qed.

Lemma cell_ok ws r c :
  1 ≤ r → 1 ≤ c → ∃ ws', cell ws r c = Ok ws'.
Proof.
  intros Hr Hc. unfold cell.
  apply Z.ltb_ge in Hr, Hc. rewrite Hr, Hc. by eexists.
Qed.

Lemma read_inv ws r c v ws' :
  read ws r c = Ok (v, ws') →
  1 ≤ r ∧ 1 ≤ c ∧ v = cell_value ws r c
  ∧ ∀ r' c', cell_value ws' r' c' = cell_value ws r' c'.
Proof.
  unfold read. destruct (cell ws r c) as [ws1|] eqn:E; [|discriminate].
  cbn. intros [= <- <-]. apply cell_inv in E as (Hr & Hc & Hs).
  by rewrite Hs.
Qed.

Lemma read_ok ws r c :
  1 ≤ r → 1 ≤ c → ∃ ws', read ws r c = Ok (cell_value ws r c, ws').
Proof.
  intros Hr Hc. destruct (cell_ok ws r c Hr Hc) as [ws' E].
  exists ws'. unfold read. rewrite E. cbn.
  apply cell_inv in E as (_ & _ & Hs). by rewrite Hs.
Qed.

Lemma write_inv ws r c v ws' :
  write ws r c v = Ok ws' →
  1 ≤ r ∧ 1 ≤ c
  ∧ ∀ r' c', cell_value ws' r' c'
             = if decide (r' = r ∧ c' = c) then v else cell_value ws r' c'.
Proof.
  unfold write. destruct (cell ws r c) as [ws1|] eqn:E; [|discriminate].
  cbn. intros [= <-]. apply cell_inv in E as (Hr & Hc & Hs).
  split; [done|]. split; [done|]. intros r' c'.
  rewrite cell_value_insert. by rewrite Hs.
Qed.

Lemma write_ok ws r c v :
  1 ≤ r → 1 ≤ c → ∃ ws', write ws r c v = Ok ws'.
Proof.
  intros Hr Hc. destruct (cell_ok ws r c Hr Hc) as [ws' E].
  unfold write. rewrite E. by eexists.
Qed.

(** Moving columns to the right never merges two cells. *)
Lemma shift_key_inj idx amount :
  0 ≤ amount → Inj (=) (=) (λ k : Z * Z, (k.1, shift_col idx amount k.2)).
Proof.
  intros Ha [r1 c1] [r2 c2]; cbn. unfold shift_col.
  intros [= -> H]. f_equal.
  destruct (idx <=? c1) eqn:E1, (idx <=? c2) eqn:E2;
    try apply Z.leb_le in E1; try apply Z.leb_le in E2;
    try apply Z.leb_gt in E1; try apply Z.leb_gt in E2; lia.
Qed.

Lemma insert_cols_shift idx amount ws r c :
  0 ≤ amount →
  cell_value (insert_cols idx amount ws) r (shift_col idx amount c)
  = cell_value ws r c.
Proof.
  intros Ha. unfold cell_value, insert_cols.
  pose proof (shift_key_inj idx amount Ha) as Hinj.
  by rewrite (lookup_kmap (λ k : Z * Z, (k.1, shift_col idx amount k.2)) ws (r, c)).
Qed.

Lemma insert_cols_left idx amount ws r c :
  0 ≤ amount → c < idx →
  cell_value (insert_cols idx amount ws) r c = cell_value ws r c.
Proof.
  intros Ha Hc. rewrite <- (insert_cols_shift idx amount ws r c Ha).
  unfold shift_col. apply Z.leb_gt in Hc. by rewrite Hc.
Qed.

Lemma insert_cols_right idx amount ws r c :
  0 ≤ amount → idx ≤ c →
  cell_value (insert_cols idx amount ws) r (c + amount) = cell_value ws r c.
Proof.
  intros Ha Hc. rewrite <- (insert_cols_shift idx amount ws r c Ha).
  unfold shift_col. apply Z.leb_le in Hc. by rewrite Hc.
Qed.

Lemma insert_cols_blank idx amount ws r c :
  0 ≤ amount → idx ≤ c < idx + amount →
  cell_value (insert_cols idx amount ws) r c = VNone.
Proof.
  intros Ha Hc. unfold cell_value, insert_cols.
  pose proof (shift_key_inj idx amount Ha) as Hinj.
  rewrite (proj2 (lookup_kmap_None
    (λ k : Z * Z, (k.1, shift_col idx amount k.2)) ws (r, c))); [done|].
  intros [r1 c1]; cbn. unfold shift_col. intros [= -> H].
  destruct (idx <=? c1) eqn:E; [apply Z.leb_le in E|apply Z.leb_gt in E]; lia.
Qed.

End SheetFacts.

(** ** One row *)

Section RowFacts.

Context {env : Env}.
Implicit Types ws : Sheet.

Lemma dict_get_Ok (bd : gmap string value) k v :
  dict_get bd k = Ok v ↔ bd !! k = Some v.
Proof.
  unfold dict_get. destruct (bd !! k); split; intros H; by inversion H.
Qed.

Lemma locals_of_inv filename issn_col L :
  locals_of filename issn_col = Ok L →
  ∃ o, ord issn_col = Ok o ∧ columns_from o L
       ∧ new_filename_of filename = Ok (new_filename L).
Proof.
  unfold locals_of.
  destruct (new_filename_of filename) as [nf|]; [|discriminate].
  destruct (ord issn_col) as [o|]; [|discriminate].
  cbn. intros [= <-]. exists o. by repeat split.
Qed.

(** The six writes put each field in its column and touch nothing else. *)
Lemma write_fields_inv L o ws i bd ws' :
  columns_from o L →
  write_fields L ws i bd = Ok ws' →
  1 ≤ i ∧ 1 ≤ series_col L
  ∧ (∀ f, bd !! key f = Some (cell_value ws' i (field_col L f)))
  ∧ (∀ r c, r ≠ i ∨ c < series_col L ∨ series_col L + 5 < c →
            cell_value ws' r c = cell_value ws r c).
Proof.
  intros HL. pose proof HL as (_ & Ea & Ev & Ey & Ep & Es).
  unfold write_fields. rewrite Ea, Ev, Ey, Ep, Es.
  destruct (dict_get bd "series") as [v1|] eqn:D1; [|discriminate]; cbn [res_bind].
  destruct (write ws i (series_col L) v1) as [ws1|] eqn:W1; [|discriminate];
    cbn [res_bind].
  destruct (dict_get bd "acronym") as [v2|] eqn:D2; [|discriminate]; cbn [res_bind].
  destruct (write ws1 i _ v2) as [ws2|] eqn:W2; [|discriminate]; cbn [res_bind].
  destruct (dict_get bd "volume") as [v3|] eqn:D3; [|discriminate]; cbn [res_bind].
  destruct (write ws2 i _ v3) as [ws3|] eqn:W3; [|discriminate]; cbn [res_bind].
  destruct (dict_get bd "year") as [v4|] eqn:D4; [|discriminate]; cbn [res_bind].
  destruct (write ws3 i _ v4) as [ws4|] eqn:W4; [|discriminate]; cbn [res_bind].
  destruct (dict_get bd "package") as [v5|] eqn:D5; [|discriminate]; cbn [res_bind].
  destruct (write ws4 i _ v5) as [ws5|] eqn:W5; [|discriminate]; cbn [res_bind].
  destruct (dict_get bd "subseries") as [v6|] eqn:D6; [|discriminate];
    cbn [res_bind].
  intros W6.
  apply dict_get_Ok in D1, D2, D3, D4, D5, D6.
  apply write_inv in W1 as (Hi & Hc & H1), W2 as (_ & _ & H2),
    W3 as (_ & _ & H3), W4 as (_ & _ & H4), W5 as (_ & _ & H5),
    W6 as (_ & _ & H6).
  split; [done|]. split; [done|]. split.
  - intros f. unfold field_col.
    rewrite H6, H5, H4, H3, H2, H1.
    destruct f; cbn [key rank]; repeat case_decide; try lia; done.
  - intros r c Hrc. rewrite H6, H5, H4, H3, H2, H1.
    repeat case_decide; try lia; done.
Qed.

Lemma write_fields_ok L o ws i bd :
  columns_from o L → 1 ≤ i → 1 ≤ series_col L →
  (∀ f, is_Some (bd !! key f)) →
  ∃ ws', write_fields L ws i bd = Ok ws'.
Proof.
  intros (_ & Ea & Ev & Ey & Ep & Es) Hi Hc Hbd.
  unfold write_fields. rewrite Ea, Ev, Ey, Ep, Es.
  destruct (Hbd Series) as [v1 D1], (Hbd Acronym) as [v2 D2],
    (Hbd Volume) as [v3 D3], (Hbd Year) as [v4 D4],
    (Hbd Package) as [v5 D5], (Hbd Subseries) as [v6 D6].
  apply dict_get_Ok in D1, D2, D3, D4, D5, D6. cbn [key] in *.
  rewrite D1; cbn [res_bind].
  destruct (write_ok ws i (series_col L) v1) as [ws1 ->]; [lia..|]; cbn [res_bind].
  rewrite D2; cbn [res_bind].
  destruct (write_ok ws1 i (series_col L + 1) v2) as [ws2 ->]; [lia..|];
    cbn [res_bind].
  rewrite D3; cbn [res_bind].
  destruct (write_ok ws2 i (series_col L + 2) v3) as [ws3 ->]; [lia..|];
    cbn [res_bind].
  rewrite D4; cbn [res_bind].
  destruct (write_ok ws3 i (series_col L + 3) v4) as [ws4 ->]; [lia..|];
    cbn [res_bind].
  rewrite D5; cbn [res_bind].
  destruct (write_ok ws4 i (series_col L + 4) v5) as [ws5 ->]; [lia..|];
    cbn [res_bind].
  rewrite D6; cbn [res_bind].
  apply write_ok; lia.
Qed.

Lemma bind_lift {A B} (r : res A) (k : A → M B) st :
  bind (lift r) k st
  = match r with Ok a => k a st | Raise e => (Raise e, st) end.
Proof. unfold bind, lift. by destruct r. Qed.

Lemma wb_save_run wb filename st :
  wb_save wb filename st
  = match write_error filename (net st) with
    | Some e => (Raise e, st)
    | None => (Ok (), saved_state filename wb st)
    end.
Proof. reflexivity. Qed.

Lemma save_step L wb i ws (cnt : Z) st :
  (_ <- (if i mod 1000 =? 0
         then wb_save (with_sheet0 wb ws) (new_filename L) else ret ()) ;;
   ret (ws, cnt)) st
  = turn_end L wb i ws cnt st.
Proof.
  unfold bind, turn_end, saved_state, wb_save, ret.
  destruct (i mod 1000 =? 0); [|done].
  by destruct (write_error (new_filename L) (net st)).
Qed.

(** Line 91 returns what the turn has made, in the state of the checkpoint. *)
Lemma turn_end_Ok L wb i ws cnt st ws' cnt' st' :
  turn_end L wb i ws cnt st = (Ok (ws', cnt'), st') →
  ws' = ws ∧ cnt' = cnt ∧ st' = checkpoint L wb i ws st.
Proof.
  unfold turn_end, checkpoint. destruct (i mod 1000 =? 0).
  - destruct (write_error (new_filename L) (net st)); [discriminate|].
    by intros [= <- <- <-].
  - by intros [= <- <- <-].
Qed.

(** Line 91 raises only at a multiple of 1000, when the file system
    refuses the file, and nothing has happened then. *)
Lemma turn_end_Raise L wb i ws cnt st e st' :
  turn_end L wb i ws cnt st = (Raise e, st') →
  st' = st ∧ i mod 1000 = 0 ∧ write_error (new_filename L) (net st) = Some e.
Proof.
  unfold turn_end. destruct (i mod 1000 =? 0) eqn:E; [|discriminate].
  apply Z.eqb_eq in E.
  destruct (write_error (new_filename L) (net st)); [|discriminate].
  by intros [= <- <-].
Qed.

Lemma turn_end_cases L wb i ws cnt st :
  turn_end L wb i ws cnt st = (Ok (ws, cnt), checkpoint L wb i ws st)
  ∨ ∃ e, i mod 1000 = 0 ∧ write_error (new_filename L) (net st) = Some e
         ∧ turn_end L wb i ws cnt st = (Raise e, st).
Proof.
  unfold turn_end, checkpoint. destruct (i mod 1000 =? 0) eqn:E; [|by left].
  apply Z.eqb_eq in E.
  destruct (write_error (new_filename L) (net st)) as [e|]; [|by left].
  right. by exists e.
Qed.

Lemma turn_end_returns L wb i ws cnt st :
  (i mod 1000 =? 0) = false ∨ write_error (new_filename L) (net st) = None →
  turn_end L wb i ws cnt st = (Ok (ws, cnt), checkpoint L wb i ws st).
Proof.
  unfold turn_end, checkpoint. intros [->| ->]; [done|].
  by destruct (i mod 1000 =? 0).
Qed.

(** A turn is what it does with its row, then line 91. *)
Lemma row_body_unfold doi_col issn_col L wb i ws cnt st :
  row_body doi_col issn_col L wb i ws cnt st
  = match row_visit doi_col issn_col L i ws cnt st with
    | (Ok (ws', cnt'), st1) => turn_end L wb i ws' cnt' st1
    | (Raise e, st1) => (Raise e, st1)
    end.
Proof.
  unfold row_body. unfold bind at 1.
  destruct (row_visit doi_col issn_col L i ws cnt st) as [[[ws' cnt']|e] st1];
    [|done].
  apply save_step.
Qed.

(** Lines 74-90 on a row, when they return: either the row has no ISSN
    and nothing happens to the cells, the count or the outside, or the
    fields of its book are in its six cells and no other cell has
    changed. *)
Lemma row_visit_inv doi_col issn_col L i ws cnt st o ws' cnt' st' :
  ord issn_col = Ok o → columns_from o L →
  row_visit doi_col issn_col L i ws cnt st = (Ok (ws', cnt'), st') →
  1 ≤ i ∧ 1 ≤ o - 64
  ∧ ((truthy (cell_value ws i (o - 64)) = false
      ∧ cnt' = cnt
      ∧ (∀ r c, cell_value ws' r c = cell_value ws r c)
      ∧ st' = st)
     ∨ (truthy (cell_value ws i (o - 64)) = true
        ∧ cnt' = cnt + 1
        ∧ ∃ od bd,
            ord doi_col = Ok od
            ∧ book_dict_of (cell_value ws i (od - 64)) st = (Ok bd, st')
            ∧ (∀ f, bd !! key f = Some (cell_value ws' i (field_col L f)))
            ∧ (∀ r c, r ≠ i ∨ c < series_col L ∨ series_col L + 5 < c →
                      cell_value ws' r c = cell_value ws r c))).
Proof.
  intros Ho HL H. unfold row_visit in H.
  rewrite bind_lift, Ho, bind_lift in H.
  destruct (read ws i (o - 64)) as [[issn ws1]|] eqn:R1; [|discriminate].
  apply read_inv in R1 as (Hi & Hc & -> & Hs1).
  cbn beta iota in H.
  split; [done|]. split; [done|].
  destruct (truthy (cell_value ws i (o - 64))) eqn:T.
  - right. split; [done|].
    rewrite bind_lift in H.
    destruct (ord doi_col) as [od|] eqn:Hod; [|discriminate].
    rewrite bind_lift in H.
    destruct (read ws1 i (od - 64)) as [[doi ws3]|] eqn:R2; [|discriminate].
    apply read_inv in R2 as (_ & Hcd & -> & Hs3).
    cbn beta iota in H.
    apply bind_inv_Ok in H as (bd & st1 & Hbd & Hw).
    rewrite bind_lift in Hw.
    destruct (write_fields L ws3 i bd) as [ws4|] eqn:W; [|discriminate].
    unfold ret in Hw. injection Hw as <- <- <-.
    apply write_fields_inv with (o := o) in W as (_ & _ & Hf & Hframe);
      [|done].
    split; [done|]. exists od, bd.
    rewrite Hs1 in Hbd.
    split; [done|]. split; [done|]. split; [done|].
    intros r c Hrc. by rewrite Hframe, Hs3, Hs1.
  - left. unfold ret in H. injection H as <- <- <-. done.
Qed.

(** Lines 74-90 on a row without ISSN always return, and nothing has
    happened. *)
Lemma row_visit_skip doi_col issn_col L i ws cnt st o :
  ord issn_col = Ok o → 1 ≤ i → 1 ≤ o - 64 →
  truthy (cell_value ws i (o - 64)) = false →
  ∃ ws', row_visit doi_col issn_col L i ws cnt st = (Ok (ws', cnt), st)
         ∧ ∀ r c, cell_value ws' r c = cell_value ws r c.
Proof.
  intros Ho Hi Hc T. unfold row_visit.
  rewrite bind_lift, Ho, bind_lift.
  destruct (read_ok ws i (o - 64) Hi Hc) as [ws1 R1]. rewrite R1.
  apply read_inv in R1 as (_ & _ & _ & Hs1).
  cbn beta iota. rewrite T.
  by exists ws1.
Qed.

(** Lines 74-90 on a row with ISSN return when its book is found out
    without an exception. *)
Lemma row_visit_book doi_col issn_col L i ws cnt st o od bd st1 :
  ord issn_col = Ok o → columns_from o L → ord doi_col = Ok od →
  1 ≤ i → 1 ≤ o - 64 → 1 ≤ od - 64 →
  truthy (cell_value ws i (o - 64)) = true →
  book_dict_of (cell_value ws i (od - 64)) st = (Ok bd, st1) →
  (∀ f, is_Some (bd !! key f)) →
  ∃ ws', row_visit doi_col issn_col L i ws cnt st = (Ok (ws', cnt + 1), st1).
Proof.
  intros Ho HL Hod Hi Hc Hcd T Hbd Hkeys. unfold row_visit.
  rewrite bind_lift, Ho, bind_lift.
  destruct (read_ok ws i (o - 64) Hi Hc) as [ws1 R1]. rewrite R1.
  apply read_inv in R1 as (_ & _ & _ & Hs1).
  cbn beta iota. rewrite T.
  rewrite bind_lift, Hod, bind_lift.
  destruct (read_ok ws1 i (od - 64) Hi Hcd) as [ws2 R2]. rewrite R2.
  cbn beta iota. rewrite Hs1.
  unfold bind at 1. rewrite Hbd. rewrite bind_lift.
  destruct (write_fields_ok L o ws2 i bd HL Hi) as [ws3 W];
    [destruct HL as (-> & _); lia|done|].
  rewrite W. unfold ret at 1. by exists ws3.
Qed.

(** A turn of the loop that returns: either the row has no ISSN and
    nothing happens to the cells, the count or the network, or the
    fields of its book are in its six cells and no other cell has
    changed. *)
Lemma row_body_inv doi_col issn_col L wb i ws cnt st o ws' cnt' st' :
  ord issn_col = Ok o → columns_from o L →
  row_body doi_col issn_col L wb i ws cnt st = (Ok (ws', cnt'), st') →
  1 ≤ i ∧ 1 ≤ o - 64
  ∧ ((truthy (cell_value ws i (o - 64)) = false
      ∧ cnt' = cnt
      ∧ (∀ r c, cell_value ws' r c = cell_value ws r c)
      ∧ st' = checkpoint L wb i ws' st)
     ∨ (truthy (cell_value ws i (o - 64)) = true
        ∧ cnt' = cnt + 1
        ∧ ∃ od bd st1,
            ord doi_col = Ok od
            ∧ book_dict_of (cell_value ws i (od - 64)) st = (Ok bd, st1)
            ∧ (∀ f, bd !! key f = Some (cell_value ws' i (field_col L f)))
            ∧ (∀ r c, r ≠ i ∨ c < series_col L ∨ series_col L + 5 < c →
                      cell_value ws' r c = cell_value ws r c)
            ∧ st' = checkpoint L wb i ws' st1)).
Proof.
  intros Ho HL H. rewrite row_body_unfold in H.
  destruct (row_visit doi_col issn_col L i ws cnt st)
    as [[[ws2 cnt2]|e] st2] eqn:Hv; [|discriminate].
  apply turn_end_Ok in H as (-> & -> & ->).
  apply (row_visit_inv _ _ _ _ _ _ _ _ _ _ _ Ho HL) in Hv
    as (Hi & Hc & [(T & -> & Hs & ->)|(T & -> & od & bd & Hod & Hbd & Hf & Hfr)]).
  - split; [done|]. split; [done|]. by left.
  - split; [done|]. split; [done|]. right.
    split; [done|]. split; [done|]. by exists od, bd, st2.
Qed.

(** The turn of a row without ISSN is line 91 alone. *)
Lemma row_body_skip doi_col issn_col L wb i ws cnt st o :
  ord issn_col = Ok o → 1 ≤ i → 1 ≤ o - 64 →
  truthy (cell_value ws i (o - 64)) = false →
  ∃ ws', row_body doi_col issn_col L wb i ws cnt st
         = turn_end L wb i ws' cnt st
         ∧ ∀ r c, cell_value ws' r c = cell_value ws r c.
Proof.
  intros Ho Hi Hc T.
  destruct (row_visit_skip doi_col issn_col L i ws cnt st o Ho Hi Hc T)
    as (ws' & Hv & Hs).
  exists ws'. split; [|done]. by rewrite row_body_unfold, Hv.
Qed.

(** The turn of a row with ISSN gets to line 91 when its book is found
    out without an exception. *)
Lemma row_body_book doi_col issn_col L wb i ws cnt st o od bd st1 :
  ord issn_col = Ok o → columns_from o L → ord doi_col = Ok od →
  1 ≤ i → 1 ≤ o - 64 → 1 ≤ od - 64 →
  truthy (cell_value ws i (o - 64)) = true →
  book_dict_of (cell_value ws i (od - 64)) st = (Ok bd, st1) →
  (∀ f, is_Some (bd !! key f)) →
  ∃ ws', row_visit doi_col issn_col L i ws cnt st = (Ok (ws', cnt + 1), st1)
         ∧ row_body doi_col issn_col L wb i ws cnt st
           = turn_end L wb i ws' (cnt + 1) st1.
Proof.
  intros Ho HL Hod Hi Hc Hcd T Hbd Hkeys.
  destruct (row_visit_book doi_col issn_col L i ws cnt st o od bd st1
              Ho HL Hod Hi Hc Hcd T Hbd Hkeys) as (ws' & Hv).
  exists ws'. split; [done|]. by rewrite row_body_unfold, Hv.
Qed.

End RowFacts.

(** ** The loop over the rows *)

Section LoopFacts.

Context {env : Env}.
Implicit Types ws : Sheet.

Lemma saves_app tr1 tr2 : saves (tr1 ++ tr2) = saves tr1 ++ saves tr2.
Proof. apply omap_app. Qed.

Lemma insertions_app tr1 tr2 :
  insertions (tr1 ++ tr2) = insertions tr1 ++ insertions tr2.
Proof. apply omap_app. Qed.

Lemma loads_app tr1 tr2 : loads (tr1 ++ tr2) = loads tr1 ++ loads tr2.
Proof. apply omap_app. Qed.

Lemma gets_only evs :
  Forall (λ e, is_get e = true) evs →
  saves evs = [] ∧ insertions evs = [] ∧ loads evs = [].
Proof.
  induction 1 as [|e evs He _ (IH1 & IH2 & IH3)]; [done|].
  destruct e; try discriminate He.
  split; [exact IH1|]. split; [exact IH2|exact IH3].
Qed.

(** Finding out about a book only makes requests. *)
Lemma book_dict_of_trace doi st :
  ∃ w evs, (book_dict_of doi st).2 = after st w evs
           ∧ Forall (λ e, is_get e = true) evs.
Proof.
  destruct (RequestBookInfoPage doi st) as [r st1] eqn:E.
  rewrite (book_dict_of_run _ _ _ _ E).
  destruct (RequestBookInfoPage_trace doi st) as (w & evs & H & Hg).
  rewrite E in H. by exists w, evs.
Qed.

Lemma checkpoint_trace L wb i ws st :
  trace (checkpoint L wb i ws st)
  = trace st ++ (if i mod 1000 =? 0
                 then [ESave (new_filename L) (with_sheet0 wb ws)] else []).
Proof.
  unfold checkpoint. destruct (i mod 1000 =? 0); [done|].
  by rewrite app_nil_r.
Qed.

(** What a turn of the loop leaves in the trace: its requests, and its
    save when the row number is a multiple of 1000. *)
Lemma row_body_trace doi_col issn_col L wb i ws cnt st o ws' cnt' st' :
  ord issn_col = Ok o → columns_from o L →
  row_body doi_col issn_col L wb i ws cnt st = (Ok (ws', cnt'), st') →
  saves (trace st')
  = saves (trace st)
    ++ (if i mod 1000 =? 0 then [(new_filename L, with_sheet0 wb ws')] else [])
  ∧ insertions (trace st') = insertions (trace st)
  ∧ loads (trace st') = loads (trace st).
Proof.
  intros Ho HL H.
  apply (row_body_inv _ _ _ _ _ _ _ _ _ _ _ _ Ho HL) in H
    as (_ & _ & [(_ & _ & _ & ->)|(_ & _ & od & bd & st1 & _ & Hbd & _ & _ & ->)]).
  - rewrite checkpoint_trace, saves_app, insertions_app, loads_app.
    destruct (i mod 1000 =? 0); cbn; by rewrite ?app_nil_r.
  - destruct (book_dict_of_trace (cell_value ws i (od - 64)) st)
      as (w & evs & Hst & Hg).
    rewrite Hbd in Hst. cbn in Hst. subst st1.
    apply gets_only in Hg as (G1 & G2 & G3).
    rewrite checkpoint_trace. cbn [after trace].
    rewrite !saves_app, !insertions_app, !loads_app, G1, G2, G3.
    destruct (i mod 1000 =? 0); cbn; by rewrite ?app_nil_r.
Qed.

(** The events of a turn that returns: requests, then its save if any. *)
Lemma row_body_turn doi_col issn_col L wb i ws cnt st o ws' cnt' st' :
  ord issn_col = Ok o → columns_from o L →
  row_body doi_col issn_col L wb i ws cnt st = (Ok (ws', cnt'), st') →
  ∃ gets, trace st' = trace st ++ turn_events L wb i (gets, ws')
          ∧ Forall (λ e, is_get e = true) gets.
Proof.
  intros Ho HL H.
  apply (row_body_inv _ _ _ _ _ _ _ _ _ _ _ _ Ho HL) in H
    as (_ & _ & [(_ & _ & _ & ->)|(_ & _ & od & bd & st1 & _ & Hbd & _ & _ & ->)]).
  - exists []. split; [|constructor]. apply checkpoint_trace.
  - destruct (book_dict_of_trace (cell_value ws i (od - 64)) st)
      as (w & evs & Hst & Hg).
    rewrite Hbd in Hst. cbn in Hst. subst st1.
    exists evs. split; [|done].
    rewrite checkpoint_trace. unfold turn_events. cbn [after trace fst snd].
    by rewrite <- app_assoc.
Qed.

(** A turn of the loop changes cells of its own row only, in the six
    new columns only, and only when the row has an ISSN. *)
Lemma row_body_frame doi_col issn_col L wb i ws cnt st o ws' cnt' st' :
  ord issn_col = Ok o → columns_from o L →
  row_body doi_col issn_col L wb i ws cnt st = (Ok (ws', cnt'), st') →
  ∀ r c, r ≠ i ∨ truthy (cell_value ws r (o - 64)) = false
         ∨ c < series_col L ∨ series_col L + 5 < c →
         cell_value ws' r c = cell_value ws r c.
Proof.
  intros Ho HL H r c Hrc.
  apply (row_body_inv _ _ _ _ _ _ _ _ _ _ _ _ Ho HL) in H
    as (_ & _ & [(_ & _ & Hs & _)|(T & _ & od & bd & st1 & _ & _ & _ & Hf & _)]).
  - apply Hs.
  - apply Hf. destruct (decide (r = i)) as [->|]; [|by left].
    right. destruct Hrc as [?|[?|?]]; [done|congruence|done].
Qed.

Lemma for_rows_cons_inv body i rows ws cnt st ws' cnt' st' :
  for_rows body (i :: rows) ws cnt st = (Ok (ws', cnt'), st') →
  ∃ ws1 cnt1 st1,
    body i ws cnt st = (Ok (ws1, cnt1), st1)
    ∧ for_rows body rows ws1 cnt1 st1 = (Ok (ws', cnt'), st').
Proof.
  cbn [for_rows]. intros H.
  apply bind_inv_Ok in H as ([ws1 cnt1] & st1 & H1 & H2).
  by exists ws1, cnt1, st1.
Qed.

Section Loop.

Variables (doi_col issn_col : string) (L : locals) (wb : Workbook) (o : Z).
Hypothesis Ho : ord issn_col = Ok o.
Hypothesis HL : columns_from o L.

Let body := row_body doi_col issn_col L wb.

(** The loop changes the six new cells of the rows it visits that
    have an ISSN, and nothing else. *)
Lemma for_rows_frame rows ws cnt st ws' cnt' st' :
  for_rows body rows ws cnt st = (Ok (ws', cnt'), st') →
  ∀ r c, r ∉ rows ∨ truthy (cell_value ws r (o - 64)) = false
         ∨ c < series_col L ∨ series_col L + 5 < c →
         cell_value ws' r c = cell_value ws r c.
Proof.
  revert ws cnt st.
  induction rows as [|i rows IH]; intros ws cnt st H r c Hrc.
  - unfold for_rows, ret in H. by injection H as <- <- <-.
  - apply for_rows_cons_inv in H as (ws1 & cnt1 & st1 & H1 & H2).
    pose proof (row_body_frame _ _ _ _ _ _ _ _ _ _ _ _ Ho HL H1) as Hf.
    rewrite (IH _ _ _ H2).
    + apply Hf. destruct Hrc as [Hr|[?|[?|?]]]; [|tauto..].
      left. intros ->. apply Hr. by left.
    + destruct Hrc as [Hr|[T|[?|?]]]; [|right; left|tauto..].
      * left. intros Hin. apply Hr. by right.
      * rewrite Hf; [done|]. right; right; left.
        destruct HL as (-> & _). lia.
Qed.

(** At the end of the loop every visited row that has an ISSN holds
    the fields of its book. *)
Lemma for_rows_fields rows ws cnt st ws' cnt' st' :
  NoDup rows →
  for_rows body rows ws cnt st = (Ok (ws', cnt'), st') →
  ∀ i, i ∈ rows → truthy (cell_value ws i (o - 64)) = true →
       ∃ od bd sta stb,
         ord doi_col = Ok od
         ∧ book_dict_of (cell_value ws i (od - 64)) sta = (Ok bd, stb)
         ∧ ∀ f, bd !! key f = Some (cell_value ws' i (field_col L f)).
Proof.
  revert ws cnt st.
  induction rows as [|j rows IH]; intros ws cnt st Hnd H i Hi T.
  - by apply elem_of_nil in Hi.
  - apply NoDup_cons in Hnd as [Hj Hnd].
    apply for_rows_cons_inv in H as (ws1 & cnt1 & st1 & H1 & H2).
    pose proof (row_body_frame _ _ _ _ _ _ _ _ _ _ _ _ Ho HL H1) as Hf.
    pose proof (for_rows_frame _ _ _ _ _ _ _ H2) as Hf2.
    destruct (decide (i = j)) as [->|Hij].
    + apply (row_body_inv _ _ _ _ _ _ _ _ _ _ _ _ Ho HL) in H1
        as (_ & _ & [(T' & _)|(_ & _ & od & bd & sta & Hod & Hbd & Hv & _)]);
        [congruence|].
      exists od, bd, st, sta. split; [done|]. split; [done|].
      intros f. rewrite Hv. f_equal. symmetry. apply Hf2. by left.
    + apply elem_of_cons in Hi as [?|Hi]; [done|].
      destruct (IH _ _ _ Hnd H2 i Hi) as (od & bd & sta & stb & Hod & Hbd & Hv).
      { rewrite Hf; [done|by left]. }
      exists od, bd, sta, stb. split; [done|]. split; [|done].
      rewrite <- Hbd. f_equal. symmetry. apply Hf. by left.
Qed.

(** The count grows by one for each visited row that has an ISSN. *)
Lemma for_rows_count rows ws cnt st ws' cnt' st' :
  for_rows body rows ws cnt st = (Ok (ws', cnt'), st') →
  cnt' = cnt + Z.of_nat (length (List.filter
             (λ i, truthy (cell_value ws i (o - 64))) rows)).
Proof.
  revert ws cnt st.
  induction rows as [|i rows IH]; intros ws cnt st H.
  - unfold for_rows, ret in H. injection H as <- <- <-. cbn. lia.
  - apply for_rows_cons_inv in H as (ws1 & cnt1 & st1 & H1 & H2).
    pose proof (row_body_frame _ _ _ _ _ _ _ _ _ _ _ _ Ho HL H1) as Hf.
    rewrite (IH _ _ _ H2).
    assert (List.filter (λ i, truthy (cell_value ws1 i (o - 64))) rows
            = List.filter (λ i, truthy (cell_value ws i (o - 64))) rows)
      as ->.
    { apply List.filter_ext. intros r. rewrite Hf; [done|].
      right; right; left. destruct HL as (-> & _). lia. }
    apply (row_body_inv _ _ _ _ _ _ _ _ _ _ _ _ Ho HL) in H1
      as (_ & _ & [(T & -> & _)|(T & -> & _)]);
      cbn [List.filter]; rewrite T; cbn [length]; lia.
Qed.

(** The saves of the loop: one for each visited row whose number is
    a multiple of 1000, in order, to the new file, each with every
    row up to its own as the loop leaves it. *)
Lemma for_rows_checkpoints (k : nat) a ws cnt st ws' cnt' st' :
  for_rows body (seqZ a (Z.of_nat k)) ws cnt st = (Ok (ws', cnt'), st') →
  ∃ snaps : list Sheet,
    saves (trace st')
    = saves (trace st)
      ++ ((λ s, (new_filename L, with_sheet0 wb s)) <$> snaps)
    ∧ Forall2 (complete_up_to ws')
        (checkpoint_rows (seqZ a (Z.of_nat k))) snaps.
Proof.
  revert a ws cnt st.
  induction k as [|k IH]; intros a ws cnt st H.
  - unfold for_rows, ret in H. cbn in H. injection H as <- <- <-.
    exists []. split; [by rewrite app_nil_r|constructor].
  - rewrite seqZ_cons in H |- * by lia.
    replace (Z.pred (Z.of_nat (S k))) with (Z.of_nat k) in * by lia.
    apply for_rows_cons_inv in H as (ws1 & cnt1 & st1 & H1 & H2).
    destruct (IH _ _ _ _ H2) as (snaps & Hs & Hc).
    apply (row_body_trace _ _ _ _ _ _ _ _ _ _ _ _ Ho HL) in H1
      as (Hs1 & _).
    unfold checkpoint_rows in *. cbn [List.filter].
    destruct (a mod 1000 =? 0).
    + exists (ws1 :: snaps). split.
      * rewrite Hs, Hs1, <- app_assoc. done.
      * constructor; [|done].
        intros r c Hr. symmetry.
        apply (for_rows_frame _ _ _ _ _ _ _ H2).
        left. rewrite elem_of_seqZ. lia.
    + exists snaps. split; [|done].
      by rewrite Hs, Hs1, app_nil_r.
Qed.

(** The trace of the loop, turn by turn: the requests of each visited
    row, followed at once by its save when the row number is a multiple
    of 1000. The sheet a turn leaves has the rows up to its own as the
    loop ends with them and the rows after it as the sheet [w0] has
    them, when the loop starts on a sheet that agrees with [w0] from its
    first row on. *)
Lemma for_rows_turns (k : nat) a w0 ws cnt st ws' cnt' st' :
  (∀ r c, a ≤ r → cell_value ws r c = cell_value w0 r c) →
  for_rows body (seqZ a (Z.of_nat k)) ws cnt st = (Ok (ws', cnt'), st') →
  ∃ turns : list (list event * Sheet),
    trace st'
    = trace st
      ++ concat (zip_with (turn_events L wb) (seqZ a (Z.of_nat k)) turns)
    ∧ Forall2 (turn_of w0 ws') (seqZ a (Z.of_nat k)) turns.
Proof.
  revert a ws cnt st.
  induction k as [|k IH]; intros a ws cnt st H0 H.
  - unfold for_rows, ret in H. cbn in H. injection H as <- <- <-.
    exists []. split; [by rewrite app_nil_r|constructor].
  - rewrite seqZ_cons in H |- * by lia.
    replace (Z.pred (Z.of_nat (S k))) with (Z.of_nat k) in * by lia.
    apply for_rows_cons_inv in H as (ws1 & cnt1 & st1 & H1 & H2).
    pose proof (row_body_frame _ _ _ _ _ _ _ _ _ _ _ _ Ho HL H1) as Hf.
    destruct (IH (Z.succ a) ws1 cnt1 st1) as (turns & Ht & Hall); [|done|].
    { intros r c Hr. rewrite Hf; [|left; lia]. apply H0. lia. }
    destruct (row_body_turn _ _ _ _ _ _ _ _ _ _ _ _ Ho HL H1)
      as (gets & Hg & Hgets).
    exists ((gets, ws1) :: turns). split.
    + cbn [zip_with concat]. by rewrite Ht, Hg, <- app_assoc.
    + constructor; [|done]. split; [done|]. split.
      * intros r c Hr. symmetry.
        apply (for_rows_frame _ _ _ _ _ _ _ H2).
        left. rewrite elem_of_seqZ. lia.
      * intros r c Hr. cbn [snd]. rewrite Hf; [|left; lia]. apply H0. lia.
Qed.

End Loop.

End LoopFacts.

(** ** The whole run *)

Section RunFacts.

Context {env : Env}.
Implicit Types ws : Sheet.

Lemma load_workbook_run filename st :
  load_workbook filename st
  = if supported_format filename
    then (match disk st !! filename with
          | Some wb => Ok wb
          | None => Raise FileNotFoundError
          end, after st (net st) [ELoad filename])
    else (Raise InvalidFileException, st).
Proof.
  unfold load_workbook. destruct (supported_format filename); [|done].
  unfold bind, log, after. cbn [disk net trace].
  by destruct (disk st !! filename).
Qed.

(** The outcome of opening the report, whatever is on the disk. *)
Lemma open_report_unfold filename L rerun st :
  open_report filename L rerun st
  = if supported_format (opened_file filename L rerun) then
      match disk st !! opened_file filename L rerun with
      | Some wb =>
          match wb !! "Sheet0" with
          | Some ws => (Ok (wb, opened_sheet L rerun ws),
                        opened_state filename L rerun st)
          | None => (Raise KeyError,
                     after st (net st) [ELoad (opened_file filename L rerun)])
          end
      | None => (Raise FileNotFoundError,
                 after st (net st) [ELoad (opened_file filename L rerun)])
      end
    else (Raise InvalidFileException, st).
Proof.
  unfold open_report, opened_sheet, opened_state, opened_file.
  destruct rerun; unfold bind at 1; rewrite load_workbook_run.
  - destruct (supported_format (new_filename L)); [|done].
    destruct (disk st !! new_filename L) as [wb|]; [|done].
    rewrite bind_lift. unfold wb_sheet.
    by destruct (wb !! "Sheet0").
  - destruct (supported_format filename); [|done].
    destruct (disk st !! filename) as [wb|]; [|done].
    rewrite bind_lift. unfold wb_sheet.
    destruct (wb !! "Sheet0"); [|done].
    unfold bind, log, ret, after. cbn [disk net trace].
    by rewrite <- app_assoc.
Qed.

(** The state the loop starts in: the file has been opened and, on a
    first run, the columns inserted. *)
Lemma open_report_run filename L rerun st wb ws :
  supported_format (opened_file filename L rerun) = true →
  disk st !! opened_file filename L rerun = Some wb →
  wb !! "Sheet0" = Some ws →
  open_report filename L rerun st
  = (Ok (wb, opened_sheet L rerun ws), opened_state filename L rerun st).
Proof. intros Hx Hd Hs. by rewrite open_report_unfold, Hx, Hd, Hs. Qed.

Lemma open_report_inv filename L rerun st wb ws0 st1 :
  open_report filename L rerun st = (Ok (wb, ws0), st1) →
  ∃ ws, disk st !! opened_file filename L rerun = Some wb
        ∧ wb !! "Sheet0" = Some ws
        ∧ supported_format (opened_file filename L rerun) = true
        ∧ ws0 = opened_sheet L rerun ws
        ∧ st1 = opened_state filename L rerun st.
Proof.
  rewrite open_report_unfold.
  destruct (supported_format (opened_file filename L rerun)); [|done].
  destruct (disk st !! opened_file filename L rerun) as [wb'|]; [|done].
  destruct (wb' !! "Sheet0") as [ws|] eqn:Hs; [|done].
  intros [= <- <- <-]. by exists ws.
Qed.

(** A run whose report is not of a supported format stops at once. *)
Lemma run_invalid filename first_row doi_col issn_col rerun st L :
  locals_of filename issn_col = Ok L →
  supported_format (opened_file filename L rerun) = false →
  RunReportEnhancement filename first_row doi_col issn_col rerun st
  = (Raise InvalidFileException, st).
Proof.
  intros HL Hx. unfold RunReportEnhancement.
  rewrite bind_lift, HL. unfold bind at 1.
  by rewrite open_report_unfold, Hx.
Qed.

Lemma run_open filename first_row doi_col issn_col rerun st L wb ws :
  locals_of filename issn_col = Ok L →
  supported_format (opened_file filename L rerun) = true →
  disk st !! opened_file filename L rerun = Some wb →
  wb !! "Sheet0" = Some ws →
  RunReportEnhancement filename first_row doi_col issn_col rerun st
  = enhance_rows first_row doi_col issn_col L wb (opened_sheet L rerun ws) 0
      (opened_state filename L rerun st).
Proof.
  intros HL Hx Hd Hs. unfold RunReportEnhancement.
  rewrite bind_lift, HL. unfold bind at 1.
  by rewrite (open_report_run _ _ _ _ _ _ Hx Hd Hs).
Qed.

Lemma run_inv filename first_row doi_col issn_col rerun st ws' cnt' st' :
  RunReportEnhancement filename first_row doi_col issn_col rerun st
  = (Ok (ws', cnt'), st') →
  ∃ L o wb ws,
    locals_of filename issn_col = Ok L
    ∧ ord issn_col = Ok o ∧ columns_from o L
    ∧ disk st !! opened_file filename L rerun = Some wb
    ∧ wb !! "Sheet0" = Some ws
    ∧ supported_format (opened_file filename L rerun) = true
    ∧ enhance_rows first_row doi_col issn_col L wb (opened_sheet L rerun ws) 0
        (opened_state filename L rerun st)
      = (Ok (ws', cnt'), st').
Proof.
  intros H. unfold RunReportEnhancement in H. rewrite bind_lift in H.
  destruct (locals_of filename issn_col) as [L|] eqn:HL; [|discriminate].
  apply bind_inv_Ok in H as ([wb ws0] & st1 & Hopen & H).
  apply open_report_inv in Hopen as (ws & Hd & Hs & Hx & -> & ->).
  destruct (locals_of_inv _ _ _ HL) as (o & Ho & Hc & _).
  by exists L, o, wb, ws.
Qed.

Lemma enhance_rows_inv first_row doi_col issn_col L wb ws cnt st ws' cnt' st' :
  enhance_rows first_row doi_col issn_col L wb ws cnt st
  = (Ok (ws', cnt'), st') →
  ∃ st2,
    for_rows (row_body doi_col issn_col L wb)
      (range first_row (max_row ws + 1)) ws cnt st = (Ok (ws', cnt'), st2)
    ∧ st' = saved_state (new_filename L) (with_sheet0 wb ws') st2.
Proof.
  unfold enhance_rows. intros H.
  apply bind_inv_Ok in H as ([ws2 cnt2] & st2 & H1 & H2).
  unfold bind in H2. rewrite wb_save_run in H2.
  destruct (write_error (new_filename L) (net st2)); [discriminate|].
  unfold ret in H2. injection H2 as <- <- <-.
  by exists st2.
Qed.

(** The loop followed by the last save, whatever the outcome. *)
Lemma enhance_rows_unfold first_row doi_col issn_col L wb ws cnt st :
  enhance_rows first_row doi_col issn_col L wb ws cnt st
  = match for_rows (row_body doi_col issn_col L wb)
            (range first_row (max_row ws + 1)) ws cnt st with
    | (Ok (ws', cnt'), st2) =>
        match write_error (new_filename L) (net st2) with
        | Some e => (Raise e, st2)
        | None => (Ok (ws', cnt'),
                   saved_state (new_filename L) (with_sheet0 wb ws') st2)
        end
    | (Raise e, st2) => (Raise e, st2)
    end.
Proof.
  unfold enhance_rows. unfold bind at 1.
  destruct (for_rows _ _ ws cnt st) as [[[ws' cnt']|e] st2]; [|done].
  unfold bind. rewrite wb_save_run.
  by destruct (write_error (new_filename L) (net st2)).
Qed.

Lemma range_seqZ a b : range a b = seqZ a (Z.of_nat (Z.to_nat (b - a))).
Proof. unfold range, seqZ. by rewrite Nat2Z.id. Qed.

Lemma elem_of_range a b i : i ∈ range a b ↔ a ≤ i < b.
Proof. unfold range. rewrite elem_of_seqZ. lia. Qed.

(** Whatever its outcome, a turn of the loop opens no file and
    inserts no column. *)
Lemma row_body_events doi_col issn_col L wb i ws cnt st :
  ∃ evs, trace (row_body doi_col issn_col L wb i ws cnt st).2
         = trace st ++ evs
         ∧ insertions evs = [] ∧ loads evs = [].
Proof.
  assert (∀ ws' cnt' st1 evs,
    trace st1 = trace st ++ evs → insertions evs = [] → loads evs = [] →
    ∃ evs', trace (turn_end L wb i ws' cnt' st1).2 = trace st ++ evs'
            ∧ insertions evs' = [] ∧ loads evs' = []) as Hck.
  { intros ws' cnt' st1 evs H H1 H2.
    destruct (turn_end_cases L wb i ws' cnt' st1) as [->|(e & _ & _ & ->)];
      cbn [snd]; [|by exists evs].
    rewrite checkpoint_trace, H, <- app_assoc.
    eexists. split; [done|]. rewrite insertions_app, loads_app, H1, H2.
    by destruct (i mod 1000 =? 0). }
  rewrite row_body_unfold. unfold row_visit. rewrite bind_lift.
  destruct (ord issn_col) as [o|]; [|exists []; by rewrite app_nil_r].
  rewrite bind_lift.
  destruct (read ws i (o - 64)) as [[issn ws1]|];
    [|exists []; by rewrite app_nil_r].
  cbn beta iota.
  destruct (truthy issn).
  - rewrite bind_lift.
    destruct (ord doi_col) as [od|]; [|exists []; by rewrite app_nil_r].
    rewrite bind_lift.
    destruct (read ws1 i (od - 64)) as [[doi ws2]|];
      [|exists []; by rewrite app_nil_r].
    cbn beta iota. unfold bind at 1.
    destruct (book_dict_of_trace doi st) as (w & evs & Hst & Hg).
    apply gets_only in Hg as (_ & G2 & G3).
    destruct (book_dict_of doi st) as [[bd|e] st1]; cbn [snd] in Hst; subst st1.
    + rewrite bind_lift.
      destruct (write_fields L ws2 i bd) as [ws3|].
      * unfold ret at 1. by apply (Hck ws3 _ _ evs).
      * by exists evs.
    + by exists evs.
  - unfold ret at 1. apply (Hck ws1 _ _ []); [|done..]. by rewrite app_nil_r.
Qed.

Lemma for_rows_events doi_col issn_col L wb rows ws cnt st :
  ∃ evs,
    trace (for_rows (row_body doi_col issn_col L wb) rows ws cnt st).2
    = trace st ++ evs
    ∧ insertions evs = [] ∧ loads evs = [].
Proof.
  revert ws cnt st. induction rows as [|i rows IH]; intros ws cnt st.
  { exists []. by rewrite app_nil_r. }
  cbn [for_rows]. unfold bind.
  destruct (row_body_events doi_col issn_col L wb i ws cnt st)
    as (evs1 & H & H1 & H2).
  destruct (row_body doi_col issn_col L wb i ws cnt st)
    as [[[ws1 cnt1]|e] st1]; cbn [snd] in H; [|by exists evs1].
  destruct (IH ws1 cnt1 st1) as (evs2 & H' & H1' & H2').
  exists (evs1 ++ evs2). rewrite H', H, <- app_assoc.
  split; [done|]. by rewrite insertions_app, loads_app, H1, H2, H1', H2'.
Qed.

(** Neither does the loop followed by the last save. *)
Lemma enhance_rows_events first_row doi_col issn_col L wb ws cnt st :
  ∃ evs,
    trace (enhance_rows first_row doi_col issn_col L wb ws cnt st).2
    = trace st ++ evs
    ∧ insertions evs = [] ∧ loads evs = [].
Proof.
  unfold enhance_rows, bind.
  destruct (for_rows_events doi_col issn_col L wb
              (range first_row (max_row ws + 1)) ws cnt st)
    as (evs & H & H1 & H2).
  destruct (for_rows _ _ ws cnt st) as [[[ws1 cnt1]|e] st1];
    cbn [snd] in H; [|by exists evs].
  rewrite wb_save_run.
  destruct (write_error (new_filename L) (net st1)); [by exists evs|].
  unfold saved_state, ret. cbn [snd trace]. rewrite H, <- app_assoc.
  eexists. split; [done|]. by rewrite insertions_app, loads_app, H1, H2.
Qed.

(** The files opened and the columns inserted by a run that finds its
    report, whether it returns or raises later. *)
Lemma run_events filename first_row doi_col issn_col (rerun : bool) st L wb ws :
  locals_of filename issn_col = Ok L →
  supported_format (opened_file filename L rerun) = true →
  disk st !! opened_file filename L rerun = Some wb →
  wb !! "Sheet0" = Some ws →
  loads (trace (RunReportEnhancement
                  filename first_row doi_col issn_col rerun st).2)
  = loads (trace st) ++ [if rerun then new_filename L else filename]
  ∧ insertions (trace (RunReportEnhancement
                         filename first_row doi_col issn_col rerun st).2)
    = insertions (trace st) ++ (if rerun then [] else [(series_col L, 6)]).
Proof.
  intros HL Hx Hd Hs.
  rewrite (run_open _ first_row doi_col _ _ _ _ _ _ HL Hx Hd Hs).
  destruct (enhance_rows_events first_row doi_col issn_col L wb
              (opened_sheet L rerun ws) 0 (opened_state filename L rerun st))
    as (evs & -> & H1 & H2).
  unfold opened_state, opened_file, after. cbn [trace].
  rewrite !loads_app, !insertions_app, H1, H2, !app_nil_r.
  by destruct rerun.
Qed.

(** C6: in resume mode the run opens the enhanced report of the
    earlier run, whose name comes from the same rule, and goes on from
    its sheet as it is: the trace of the whole run has no column
    insertion. In fresh mode the run opens the source report and
    inserts the six columns once, before the loop. This holds for a
    report that openpyxl opens, that is, a file of a supported format
    that exists and has a sheet named Sheet0, and whether the run
    returns or raises later, in the loop or in a save. *)
Theorem C6_resume_reuses_saved_report
    filename first_row doi_col issn_col (rerun : bool) st L wb ws :
  locals_of filename issn_col = Ok L →
  supported_format (opened_file filename L rerun) = true →
  disk st !! opened_file filename L rerun = Some wb →
  wb !! "Sheet0" = Some ws →
  new_filename_of filename = Ok (new_filename L)
  ∧ opened_file filename L rerun
    = (if rerun then new_filename L else filename)
  ∧ RunReportEnhancement filename first_row doi_col issn_col rerun st
    = enhance_rows first_row doi_col issn_col L wb
        (if rerun then ws else insert_cols (series_col L) 6 ws) 0
        (opened_state filename L rerun st)
  ∧ loads (trace (RunReportEnhancement
                    filename first_row doi_col issn_col rerun st).2)
    = loads (trace st) ++ [if rerun then new_filename L else filename]
  ∧ insertions (trace (RunReportEnhancement
                         filename first_row doi_col issn_col rerun st).2)
    = insertions (trace st) ++ (if rerun then [] else [(series_col L, 6)]).
Proof.
  intros HL Hx Hd Hs.
  destruct (locals_of_inv _ _ _ HL) as (o & Ho & Hc & Hnf).
  split; [done|]. split; [done|]. split.
  - by rewrite (run_open _ first_row doi_col _ _ _ _ _ _ HL Hx Hd Hs).
  - exact (run_events filename first_row doi_col issn_col rerun
             st L wb ws HL Hx Hd Hs).
Qed.

End RunFacts.

(** ** Columns, skipped rows and saves of a run *)

Section RunProperties.

Context {env : Env}.
Implicit Types ws : Sheet.

Lemma opened_state_saves filename L rerun st :
  saves (trace (opened_state filename L rerun st)) = saves (trace st).
Proof.
  unfold opened_state, after. cbn [trace]. rewrite saves_app.
  destruct rerun; cbn; by rewrite app_nil_r.
Qed.

Lemma field_col_bounds L f :
  series_col L ≤ field_col L f < series_col L + 6.
Proof. unfold field_col. destruct f; cbn; lia. Qed.

(** C2, as the script does it: the workbook is saved to the new file
    after every visited row whose number is a multiple of 1000, whether
    the row was processed or skipped, and once more after the last row.
    Each of these saves holds every row up to its own as the run leaves
    it, and the last save holds the whole sheet; it is what the new
    file holds in the end. The saves are made at these rows and nowhere
    else: after the report is opened, the trace of the run is, row after
    row in the order of the visit, the requests of the row followed at
    once by the save of that row if its number is a multiple of 1000,
    and then the last save. The sheet a turn leaves, which is what its
    save holds, has the rows after its own as they were when the loop
    started. *)
Theorem C2_saves_at_row_multiples
    filename first_row doi_col issn_col rerun st ws_fin cnt st' :
  RunReportEnhancement filename first_row doi_col issn_col rerun st
  = (Ok (ws_fin, cnt), st') →
  ∃ L wb ws snaps turns,
    locals_of filename issn_col = Ok L
    ∧ disk st !! opened_file filename L rerun = Some wb
    ∧ wb !! "Sheet0" = Some ws
    ∧ saves (trace st')
      = saves (trace st)
        ++ ((λ s, (new_filename L, with_sheet0 wb s)) <$> (snaps ++ [ws_fin]))
    ∧ Forall2 (complete_up_to ws_fin)
        (checkpoint_rows
           (range first_row (max_row (opened_sheet L rerun ws) + 1)))
        snaps
    ∧ disk st' !! new_filename L = Some (with_sheet0 wb ws_fin)
    ∧ trace st'
      = trace (opened_state filename L rerun st)
        ++ concat (zip_with (turn_events L wb)
                     (range first_row (max_row (opened_sheet L rerun ws) + 1))
                     turns)
        ++ [ESave (new_filename L) (with_sheet0 wb ws_fin)]
    ∧ Forall2 (turn_of (opened_sheet L rerun ws) ws_fin)
        (range first_row (max_row (opened_sheet L rerun ws) + 1)) turns.
Proof.
  intros H.
  apply run_inv in H as (L & o & wb & ws & HL & Ho & Hc & Hd & Hs & Hx & H).
  apply enhance_rows_inv in H as (st2 & H & ->).
  rewrite range_seqZ in H.
  destruct (for_rows_checkpoints _ _ _ _ _ Ho Hc _ _ _ _ _ _ _ _ H)
    as (snaps & Hsv & Hck).
  destruct (for_rows_turns _ _ _ _ _ Ho Hc _ _ (opened_sheet L rerun ws)
              _ _ _ _ _ _ (λ _ _ _, eq_refl) H)
    as (turns & Htr & Hturns).
  rewrite <- range_seqZ in Hck, Htr, Hturns.
  exists L, wb, ws, snaps, turns. repeat (split; [done|]). split.
  { unfold saved_state. cbn [trace].
    rewrite saves_app, Hsv, opened_state_saves, fmap_app, app_assoc. done. }
  split; [done|]. split.
  { unfold saved_state. cbn [disk]. apply lookup_insert_eq. }
  split; [|done].
  unfold saved_state. cbn [trace]. by rewrite Htr, <- app_assoc.
Qed.

(** C4: a row whose ISSN cell is empty is skipped. What the loop does
    with the row (lines 74 to 90) returns with the same count in the
    same state, so without a request, and leaves every cell with the
    value it had. The turn of the row then returns with the same count
    and the same network state, and adds no request to the trace (only
    the save, if the row number is a multiple of 1000); the one other
    outcome is that this save raises, at a multiple of 1000 whose file
    the file system refuses, and then the state is as it was. At the end
    of a run the six new cells of such a row are as they were when the
    loop started, blank on a fresh run, and the count is the number of
    visited rows that have an ISSN. *)
Theorem C4_rows_without_issn_are_skipped :
  (∀ doi_col issn_col L wb i ws cnt st o,
      ord issn_col = Ok o → 1 ≤ i → 1 ≤ o - 64 →
      truthy (cell_value ws i (o - 64)) = false →
      ∃ ws',
        row_visit doi_col issn_col L i ws cnt st = (Ok (ws', cnt), st)
        ∧ (∀ r c, cell_value ws' r c = cell_value ws r c)
        ∧ ((∃ st',
              row_body doi_col issn_col L wb i ws cnt st = (Ok (ws', cnt), st')
              ∧ net st' = net st
              ∧ trace st'
                = trace st
                  ++ (if i mod 1000 =? 0
                      then [ESave (new_filename L) (with_sheet0 wb ws')]
                      else []))
           ∨ (∃ e,
                 i mod 1000 = 0
                 ∧ write_error (new_filename L) (net st) = Some e
                 ∧ row_body doi_col issn_col L wb i ws cnt st = (Raise e, st))))
  ∧ (∀ filename first_row doi_col issn_col rerun st ws_fin cnt st',
        RunReportEnhancement filename first_row doi_col issn_col rerun st
        = (Ok (ws_fin, cnt), st') →
        ∃ L o wb ws,
          locals_of filename issn_col = Ok L
          ∧ ord issn_col = Ok o
          ∧ disk st !! opened_file filename L rerun = Some wb
          ∧ wb !! "Sheet0" = Some ws
          ∧ (∀ i f,
                truthy (cell_value (opened_sheet L rerun ws) i (o - 64))
                = false →
                cell_value ws_fin i (field_col L f)
                = cell_value (opened_sheet L rerun ws) i (field_col L f)
                ∧ (rerun = false →
                   cell_value ws_fin i (field_col L f) = VNone))
          ∧ cnt = Z.of_nat (length (List.filter
                    (λ i, truthy (cell_value (opened_sheet L rerun ws)
                                    i (o - 64)))
                    (range first_row
                       (max_row (opened_sheet L rerun ws) + 1))))).
Proof.
  split.
  - intros doi_col issn_col L wb i ws cnt st o Ho Hi Hc T.
    destruct (row_visit_skip doi_col issn_col L i ws cnt st o Ho Hi Hc T)
      as (ws' & Hv & Hs).
    exists ws'. split; [done|]. split; [done|].
    rewrite row_body_unfold, Hv.
    destruct (turn_end_cases L wb i ws' cnt st) as [->|(e & Hm & He & ->)].
    + left. exists (checkpoint L wb i ws' st). split; [done|]. split.
      * unfold checkpoint. by destruct (i mod 1000 =? 0).
      * apply checkpoint_trace.
    + right. by exists e.
  - intros filename first_row doi_col issn_col rerun st ws_fin cnt st' H.
    apply run_inv in H as (L & o & wb & ws & HL & Ho & Hc & Hd & Hs & Hx & H).
    apply enhance_rows_inv in H as (st2 & H & ->).
    exists L, o, wb, ws. repeat (split; [done|]). split.
    + intros i f T.
      pose proof (for_rows_frame _ _ _ _ _ Ho Hc _ _ _ _ _ _ _ H
                    i (field_col L f) (or_intror (or_introl T))) as Hf.
      split; [done|]. intros ->. rewrite Hf. unfold opened_sheet.
      apply insert_cols_blank; [lia|apply field_col_bounds].
    + rewrite (for_rows_count _ _ _ _ _ Ho Hc _ _ _ _ _ _ _ H). lia.
Qed.

(** C1, as the script does it: on a fresh run the columns of the six
    fields are computed from the letter of the ISSN column, one after
    the other, and six columns are inserted there, once: immediately
    after the ISSN column, which stays where it is with everything on
    its left, while what was on its right moves six columns further.
    At the end every visited row that has an ISSN holds the six fields
    of its book in these columns, in the order series, acronym, volume,
    year, package, subseries. *)
Theorem C1_six_columns_after_issn
    filename first_row doi_col issn_col st ws_fin cnt st' :
  RunReportEnhancement filename first_row doi_col issn_col false st
  = (Ok (ws_fin, cnt), st') →
  ∃ L o wb ws,
    locals_of filename issn_col = Ok L
    ∧ ord issn_col = Ok o
    ∧ columns_from o L
    ∧ inserted_after (series_col L) 6 (o - 64)
    ∧ disk st !! filename = Some wb
    ∧ wb !! "Sheet0" = Some ws
    ∧ insertions (trace st') = insertions (trace st) ++ [(series_col L, 6)]
    ∧ (∀ r c, c ≤ o - 64 →
              cell_value (insert_cols (series_col L) 6 ws) r c
              = cell_value ws r c)
    ∧ (∀ r f, cell_value (insert_cols (series_col L) 6 ws) r (field_col L f)
              = VNone)
    ∧ (∀ r c, o - 64 < c →
              cell_value (insert_cols (series_col L) 6 ws) r (c + 6)
              = cell_value ws r c)
    ∧ (∀ i, first_row ≤ i ≤ max_row (insert_cols (series_col L) 6 ws) →
            truthy (cell_value ws i (o - 64)) = true →
            ∃ od bd sta stb,
              ord doi_col = Ok od
              ∧ book_dict_of
                  (cell_value (insert_cols (series_col L) 6 ws) i (od - 64))
                  sta
                = (Ok bd, stb)
              ∧ ∀ f, bd !! key f
                     = Some (cell_value ws_fin i (o - 63 + rank f))).
Proof.
  intros H. pose proof H as Hrun.
  apply run_inv in H as (L & o & wb & ws & HL & Ho & Hc & Hd & Hs & Hx & H).
  exists L, o, wb, ws. pose proof Hc as (Hsc & _).
  split; [done|]. split; [done|]. split; [done|]. split.
  { unfold inserted_after, shift_col. rewrite Hsc.
    destruct (o - 63 <=? o - 64) eqn:E; [apply Z.leb_le in E|]; lia. }
  split; [done|]. split; [done|]. split.
  { destruct (run_events filename first_row doi_col issn_col false
                st L wb ws HL Hx Hd Hs) as (_ & Hi).
    by rewrite Hrun in Hi. }
  split. { intros r c Hle. apply insert_cols_left; lia. }
  split. { intros r f. apply insert_cols_blank; [lia|apply field_col_bounds]. }
  split. { intros r c Hlt. apply insert_cols_right; lia. }
  intros i Hi T.
  apply enhance_rows_inv in H as (st2 & H & ->).
  unfold opened_sheet in H.
  destruct (for_rows_fields _ _ _ _ _ Ho Hc _ _ _ _ _ _ _
              (NoDup_seqZ _ _) H i) as (od & bd & sta & stb & Hod & Hbd & Hv).
  - apply elem_of_range. lia.
  - rewrite insert_cols_left; [done|lia|lia].
  - exists od, bd, sta, stb. split; [done|]. split; [done|].
    intros f. rewrite Hv. unfold field_col. by rewrite Hsc.
Qed.

End RunProperties.

(** ** A book that is nowhere *)

Section AbsentBook.

Context {env : Env}.
Implicit Types ws : Sheet.

Lemma book_dict_of_absent d st w1 w2 w3 :
  not_found (book_url d) (net st) = Some w1 →
  not_found (referencework_url d) w1 = Some w2 →
  not_found (doi_url d) w2 = Some w3 →
  book_dict_of (VStr d) st
  = (Ok new_book_dict,
     after st w3 [EGet (book_url d); EGet (referencework_url d);
                  EGet (doi_url d)]).
Proof.
  intros H1 H2 H3.
  by rewrite (book_dict_of_run _ _ _ _
                (RequestBookInfoPage_absent _ _ _ _ _ H1 H2 H3)).
Qed.

(** C5, with the sentinel as the script spells it: when the three
    addresses of a book answer 404 no exception is raised, no page is
    returned, and the fields of the row are the defaults: the series is
    "Unavailable", with a capital U, and the acronym, the volume, the
    year, the package and the subseries are empty. What the loop does
    with the row (lines 74 to 90) returns and writes these six values in
    the cells of the row; the turn of the row then returns with them,
    unless the row number is a multiple of 1000 and the save of line 91
    raises because the file system refuses the file. *)
Theorem C5_all_absent_gives_defaults d st w1 w2 w3 :
  not_found (book_url d) (net st) = Some w1 →
  not_found (referencework_url d) w1 = Some w2 →
  not_found (doi_url d) w2 = Some w3 →
  RequestBookInfoPage (VStr d) st
  = (Ok (None, false),
     after st w3 [EGet (book_url d); EGet (referencework_url d);
                  EGet (doi_url d)])
  ∧ (∃ bd,
        book_dict_of (VStr d) st
        = (Ok bd, after st w3 [EGet (book_url d); EGet (referencework_url d);
                               EGet (doi_url d)])
        ∧ bd !! "series" = Some (VStr "Unavailable")
        ∧ bd !! "acronym" = Some (VStr "")
        ∧ bd !! "volume" = Some (VStr "")
        ∧ bd !! "year" = Some (VStr "")
        ∧ bd !! "package" = Some (VStr "")
        ∧ bd !! "subseries" = Some (VStr ""))
  ∧ (∀ doi_col issn_col L wb i ws cnt o od,
        ord issn_col = Ok o → columns_from o L → ord doi_col = Ok od →
        1 ≤ i → 1 ≤ o - 64 → 1 ≤ od - 64 →
        truthy (cell_value ws i (o - 64)) = true →
        cell_value ws i (od - 64) = VStr d →
        ∃ ws',
          row_visit doi_col issn_col L i ws cnt st
          = (Ok (ws', cnt + 1),
             after st w3 [EGet (book_url d); EGet (referencework_url d);
                          EGet (doi_url d)])
          ∧ (∀ f, cell_value ws' i (field_col L f) = field_default f)
          ∧ ((∃ st',
                row_body doi_col issn_col L wb i ws cnt st
                = (Ok (ws', cnt + 1), st'))
             ∨ (∃ e,
                   i mod 1000 = 0
                   ∧ write_error (new_filename L) w3 = Some e
                   ∧ row_body doi_col issn_col L wb i ws cnt st
                     = (Raise e,
                        after st w3 [EGet (book_url d);
                                     EGet (referencework_url d);
                                     EGet (doi_url d)])))).
Proof.
  intros H1 H2 H3.
  pose proof (book_dict_of_absent _ _ _ _ _ H1 H2 H3) as Hbd.
  split; [exact (RequestBookInfoPage_absent _ _ _ _ _ H1 H2 H3)|]. split.
  - exists new_book_dict. split; [done|].
    split; [apply (new_book_dict_fields Series)|].
    split; [apply (new_book_dict_fields Acronym)|].
    split; [apply (new_book_dict_fields Volume)|].
    split; [apply (new_book_dict_fields Year)|].
    split; [apply (new_book_dict_fields Package)
           |apply (new_book_dict_fields Subseries)].
  - intros doi_col issn_col L wb i ws cnt o od Ho HL Hod Hi Hc Hcd T Hdoi.
    rewrite <- Hdoi in Hbd.
    destruct (row_body_book doi_col issn_col L wb i ws cnt st o od _ _
                Ho HL Hod Hi Hc Hcd T Hbd) as (ws' & Hvisit & Hrow).
    { intros f. rewrite new_book_dict_fields. by eexists. }
    exists ws'. split; [exact Hvisit|]. split.
    + intros f.
      apply (row_visit_inv _ _ _ _ _ _ _ _ _ _ _ Ho HL) in Hvisit
        as (_ & _ & [(T' & _)|(_ & _ & od' & bd & Hod' & Hbd' & Hv & _)]);
        [congruence|].
      rewrite Hod in Hod'. injection Hod' as <-.
      rewrite Hbd in Hbd'. injection Hbd' as <-.
      specialize (Hv f). rewrite new_book_dict_fields in Hv. congruence.
    + rewrite Hrow.
      destruct (turn_end_cases L wb i ws' (cnt + 1)
                  (after st w3 [EGet (book_url d); EGet (referencework_url d);
                                EGet (doi_url d)]))
        as [->|(e & Hm & He & ->)].
      * left. by eexists.
      * right. by exists e.
Qed.

(** C9: without a page the two parsers return the same dict, the one
    with all the defaults. When the three addresses answer 404 the
    page is absent and the classification is the standard one, although
    dx.doi.org was asked; the fields of the row are what either parser
    gives on the absent page. *)
Theorem C9_parsers_agree_without_page :
  ParseBookPage None = ParseLandoltBookPage None
  ∧ ParseBookPage None = Ok new_book_dict
  ∧ (∀ d st w1 w2 w3,
        not_found (book_url d) (net st) = Some w1 →
        not_found (referencework_url d) w1 = Some w2 →
        not_found (doi_url d) w2 = Some w3 →
        (RequestBookInfoPage (VStr d) st).1 = Ok (None, false)
        ∧ trace (RequestBookInfoPage (VStr d) st).2
          = trace st ++ [EGet (book_url d); EGet (referencework_url d);
                         EGet (doi_url d)]
        ∧ ∀ s, (book_dict_of (VStr d) st).1 = parser s None).
Proof.
  split; [done|]. split; [done|].
  intros d st w1 w2 w3 H1 H2 H3.
  rewrite (RequestBookInfoPage_absent _ _ _ _ _ H1 H2 H3).
  rewrite (book_dict_of_absent _ _ _ _ _ H1 H2 H3).
  split; [done|]. split; [done|]. intros s. by rewrite parser_None.
Qed.

End AbsentBook.

(** ** The name of the enhanced report *)

Section Filename.

Lemma split_dot_no_dot s : has_dot s = false → split_dot s = [s].
Proof.
  induction s as [|c r IH]; [done|]. cbn [has_dot split_dot].
  intros H. apply orb_false_elim in H as [Hc Hr].
  by rewrite Hc, (IH Hr).
Qed.

Lemma split_dot_app s t :
  has_dot s = false → split_dot (s +:+ "." +:+ t) = s :: split_dot t.
Proof.
  induction s as [|c r IH]; [done|]. cbn [has_dot].
  intros H. apply orb_false_elim in H as [Hc Hr].
  simpl. by rewrite Hc, (IH Hr).
Qed.

(** With one dot, between a stem and an extension, the version goes
    before the extension. *)
Lemma new_filename_of_one_dot stem ext :
  has_dot stem = false → has_dot ext = false →
  new_filename_of (stem +:+ "." +:+ ext) = Ok (stem +:+ "_v1." +:+ ext).
Proof.
  intros Hs He. unfold new_filename_of.
  by rewrite (split_dot_app _ _ Hs), (split_dot_no_dot _ He).
Qed.

Lemma split_dot_differs f s0 s1 t x :
  split_dot f = s0 :: s1 :: t → s0 +:+ String "_" x ≠ f.
Proof.
  revert s0. induction f as [|c r IH]; intros s0; [discriminate|].
  cbn [split_dot]. destruct (Ascii.eqb c ".") eqn:Hc.
  - apply Ascii.eqb_eq in Hc as ->. intros [= <- _]. discriminate.
  - destruct (split_dot r) as [|h t'] eqn:Hr; [discriminate|].
    intros [= <- ->]. simpl. intros [= E].
    by apply (IH h).
Qed.

(** The name of the enhanced report is never the name of the report. *)
Lemma new_filename_differs filename nf :
  new_filename_of filename = Ok nf → nf ≠ filename.
Proof.
  unfold new_filename_of.
  destruct (split_dot filename) as [|s0 [|s1 t]] eqn:E; try discriminate.
  cbn. intros [= <-]. by apply (split_dot_differs _ _ _ _ _ E).
Qed.

(** C7: a file name with more than one dot, such as a relative path or
    a dated name, loses what follows its second dot and gets the
    version before what follows its first dot, not before its
    extension; a name without a dot raises [IndexError]. *)
Theorem C7_version_not_before_extension :
  new_filename_of "./report.xlsx" = Ok "_v1./report"
  ∧ new_filename_of "../2018/report.xlsx" = Ok "_v1."
  ∧ new_filename_of "report.2018.xlsx" = Ok "report_v1.2018"
  ∧ new_filename_of "report" = Raise IndexError
  ∧ new_filename_of "report.xlsx" = Ok "report_v1.xlsx".
Proof. repeat split; reflexivity. Qed.

End Filename.

(** ** The properties at work in the small world *)

(** The book found at the reference work address: two requests, and the
    standard parser. *)
Lemma C3_fallback_order_witness :
  not_found (env := Demo.env)
    (book_url "10.1007/r2") (net (Demo.start Demo.files)) = Some 1%nat
  ∧ RequestBookInfoPage (env := Demo.env) (VStr "10.1007/r2")
      (Demo.start Demo.files)
    = (Ok (Some "book page", false),
       after (env := Demo.env) (Demo.start Demo.files) 2%nat
         [EGet "http://link.springer.com/book/10.1007/r2#about";
          EGet "http://link.springer.com/referencework/10.1007/r2#about"]).
Proof.
  split; [reflexivity|].
  apply (proj2 (C3_fallback_order (env := Demo.env) "10.1007/r2"
                  (Demo.start Demo.files))
           1%nat {| status_code := 200; content := "book page" |} 2%nat);
    [reflexivity|reflexivity|simpl; lia].
Defined.

(** The book page of the small world has no subseries and a volume. *)
Lemma C8_extraction_is_tolerant_witness :
  ∃ bd, ParseBookPage (env := Demo.env) (Some "book page") = Ok bd
        ∧ bd !! "subseries" = Some (VStr "")
        ∧ bd !! "volume" = Some (VStr "951").
Proof.
  destruct (C8_extraction_is_tolerant (env := Demo.env) Standard "book page")
    as (bd & H & Habsent & _ & _ & Hfound & _).
  exists bd. split; [exact H|]. split.
  - exact (Habsent Subseries eq_refl).
  - exact (proj1 (Hfound Volume Re.search_volume "(LNP, volume 951)" [] "951"
                    eq_refl eq_refl eq_refl)).
Defined.

(** The resumed run opens the enhanced report and inserts nothing. *)
Lemma C6_resume_reuses_saved_report_witness :
  loads (trace Demo.tail_run.2) = ["tail_v1.xlsx"]
  ∧ insertions (trace Demo.tail_run.2) = [].
Proof.
  destruct (C6_resume_reuses_saved_report (env := Demo.env)
              "tail.xlsx" 999 "D" "G" true (Demo.start Demo.tail_files)
              (Demo.names "tail_v1.xlsx")
              {[ "Sheet0" := Demo.tail_sheet ]} Demo.tail_sheet)
    as (_ & _ & _ & Hl & Hi);
    [reflexivity|reflexivity|reflexivity|reflexivity|].
  split; [exact Hl|exact Hi].
Defined.

(** The resumed run from row 999 saves after row 1000 and at the end. *)
Lemma C2_saves_at_row_multiples_witness :
  ∃ L wb ws snaps turns,
    locals_of "tail.xlsx" "G" = Ok L
    ∧ disk (Demo.start Demo.tail_files) !! opened_file "tail.xlsx" L true
      = Some wb
    ∧ wb !! "Sheet0" = Some ws
    ∧ saves (trace Demo.tail_run.2)
      = saves (trace (Demo.start Demo.tail_files))
        ++ ((λ s, (new_filename L, with_sheet0 wb s))
              <$> (snaps ++ [final_sheet Demo.tail_run]))
    ∧ Forall2 (complete_up_to (final_sheet Demo.tail_run))
        (checkpoint_rows (range 999 (max_row (opened_sheet L true ws) + 1)))
        snaps
    ∧ disk Demo.tail_run.2 !! new_filename L
      = Some (with_sheet0 wb (final_sheet Demo.tail_run))
    ∧ trace Demo.tail_run.2
      = trace (opened_state "tail.xlsx" L true (Demo.start Demo.tail_files))
        ++ concat (zip_with (turn_events L wb)
                     (range 999 (max_row (opened_sheet L true ws) + 1)) turns)
        ++ [ESave (new_filename L) (with_sheet0 wb (final_sheet Demo.tail_run))]
    ∧ Forall2 (turn_of (opened_sheet L true ws) (final_sheet Demo.tail_run))
        (range 999 (max_row (opened_sheet L true ws) + 1)) turns.
Proof.
  apply (C2_saves_at_row_multiples (env := Demo.env)
           "tail.xlsx" 999 "D" "G" true (Demo.start Demo.tail_files)
           (final_sheet Demo.tail_run) (final_count Demo.tail_run)
           Demo.tail_run.2).
  vm_compute. reflexivity.
Defined.

(** Row 12 of the report has no ISSN, and is no multiple of 1000. *)
Lemma C4_rows_without_issn_are_skipped_witness :
  ∃ ws',
    row_visit (env := Demo.env) "D" "G" (Demo.names "report_v1.xlsx")
      12 Demo.sheet 0 (Demo.start Demo.files)
    = (Ok (ws', 0), Demo.start Demo.files)
    ∧ (∀ r c, cell_value ws' r c = cell_value Demo.sheet r c)
    ∧ ∃ st',
        row_body (env := Demo.env) "D" "G" (Demo.names "report_v1.xlsx")
          {[ "Sheet0" := Demo.sheet ]} 12 Demo.sheet 0
          (Demo.start Demo.files)
        = (Ok (ws', 0), st')
        ∧ net st' = net (Demo.start Demo.files)
        ∧ trace st' = trace (Demo.start Demo.files) ++ [].
Proof.
  destruct (proj1 (C4_rows_without_issn_are_skipped (env := Demo.env))
              "D" "G" (Demo.names "report_v1.xlsx")
              {[ "Sheet0" := Demo.sheet ]}
              12 Demo.sheet 0 (Demo.start Demo.files) 71)
    as (ws' & Hv & Hs & [H|(e & Hm & _)]);
    [reflexivity|lia|lia|reflexivity| |discriminate Hm].
  exists ws'. split; [exact Hv|]. split; [exact Hs|exact H].
Defined.

(** The first run on the report. *)
Lemma C1_six_columns_after_issn_witness :
  ∃ L o wb ws,
    locals_of "report.xlsx" "G" = Ok L
    ∧ ord "G" = Ok o
    ∧ columns_from o L
    ∧ inserted_after (series_col L) 6 (o - 64)
    ∧ disk (Demo.start Demo.files) !! "report.xlsx" = Some wb
    ∧ wb !! "Sheet0" = Some ws
    ∧ insertions (trace Demo.fresh_run.2)
      = insertions (trace (Demo.start Demo.files)) ++ [(series_col L, 6)]
    ∧ (∀ r c, c ≤ o - 64 →
              cell_value (insert_cols (series_col L) 6 ws) r c
              = cell_value ws r c)
    ∧ (∀ r f, cell_value (insert_cols (series_col L) 6 ws) r (field_col L f)
              = VNone)
    ∧ (∀ r c, o - 64 < c →
              cell_value (insert_cols (series_col L) 6 ws) r (c + 6)
              = cell_value ws r c)
    ∧ (∀ i, 10 ≤ i ≤ max_row (insert_cols (series_col L) 6 ws) →
            truthy (cell_value ws i (o - 64)) = true →
            ∃ od bd sta stb,
              ord "D" = Ok od
              ∧ book_dict_of (env := Demo.env)
                  (cell_value (insert_cols (series_col L) 6 ws) i (od - 64))
                  sta
                = (Ok bd, stb)
              ∧ ∀ f, bd !! key f
                     = Some (cell_value (final_sheet Demo.fresh_run) i
                               (o - 63 + rank f))).
Proof.
  apply (C1_six_columns_after_issn (env := Demo.env)
           "report.xlsx" 10 "D" "G" (Demo.start Demo.files)
           (final_sheet Demo.fresh_run) (final_count Demo.fresh_run)
           Demo.fresh_run.2).
  vm_compute. reflexivity.
Defined.

(** A book that is nowhere. *)
Lemma C5_all_absent_gives_defaults_witness :
  ∃ bd st',
    book_dict_of (env := Demo.env) (VStr "10.1007/none") (Demo.start Demo.files)
    = (Ok bd, st')
    ∧ bd !! "series" = Some (VStr "Unavailable")
    ∧ bd !! "year" = Some (VStr "").
Proof.
  destruct (C5_all_absent_gives_defaults (env := Demo.env) "10.1007/none"
              (Demo.start Demo.files) 1%nat 2%nat 3%nat)
    as (_ & (bd & Hbd & Hs & _ & _ & Hy & _) & _);
    [reflexivity|reflexivity|reflexivity|].
  exists bd. eexists. split; [exact Hbd|]. split; [exact Hs|exact Hy].
Defined.

Lemma C9_parsers_agree_without_page_witness :
  (RequestBookInfoPage (env := Demo.env) (VStr "10.1007/none")
     (Demo.start Demo.files)).1 = Ok (None, false)
  ∧ ∀ s, (book_dict_of (env := Demo.env) (VStr "10.1007/none")
            (Demo.start Demo.files)).1 = parser (env := Demo.env) s None.
Proof.
  destruct (C9_parsers_agree_without_page (env := Demo.env)) as (_ & _ & H).
  destruct (H "10.1007/none" (Demo.start Demo.files) 1%nat 2%nat 3%nat)
    as (H1 & _ & H2); [reflexivity|reflexivity|reflexivity|].
  split; [exact H1|exact H2].
Defined.

(** ** Where the script does otherwise *)

(** C1 as stated fails: with the ISSN in column G the six columns go
    to H..M, after the ISSN column and not before it. After the first run
    on the report the ISSN of row 10 is still in column 7, the series is
    in column 8 and what was in column 8 is in column 14. *)
Lemma C1_columns_are_not_before_issn :
  ∃ L, locals_of "report.xlsx" "G" = Ok L
       ∧ ord "G" = Ok 71
       ∧ ¬ inserted_before (series_col L) 6 (71 - 64)
       ∧ insertions (trace Demo.fresh_run.2) = [(8, 6)]
       ∧ cell_value Demo.sheet 10 7 = VStr "0075-8450"
       ∧ cell_value Demo.sheet 10 8 = VInt 17
       ∧ cell_value (final_sheet Demo.fresh_run) 10 7 = VStr "0075-8450"
       ∧ cell_value (final_sheet Demo.fresh_run) 10 8
         = VStr "Lecture Notes in Physics"
       ∧ cell_value (final_sheet Demo.fresh_run) 10 14 = VInt 17.
Proof.
  exists (Demo.names "report_v1.xlsx").
  split; [reflexivity|]. split; [reflexivity|]. split.
  - unfold inserted_before. vm_compute. discriminate.
  - repeat split; vm_compute; reflexivity.
Qed.

(** C2 as stated fails: on the long report 1001 rows are processed, the
    thousandth of them is row 1001, and no save is made after it: the
    two saves of the run hold 999 and 1001 processed rows. *)
Lemma C2_no_save_after_1000_processed_rows :
  final_count Demo.long_run = 1001
  ∧ rows_saved 8 (trace Demo.long_run.2) = [999%nat; 1001%nat]
  ∧ ¬ saved_every 1000 8 (final_count Demo.long_run) (trace Demo.long_run.2).
Proof.
  assert (final_count Demo.long_run = 1001) as Hc by (vm_compute; reflexivity).
  assert (rows_saved 8 (trace Demo.long_run.2) = [999%nat; 1001%nat]) as Hs
    by (vm_compute; reflexivity).
  split; [exact Hc|]. split; [exact Hs|].
  intros H. specialize (H 1%nat (le_n 1)). rewrite Hc, Hs in H.
  specialize (H ltac:(lia)).
  rewrite !elem_of_cons, elem_of_nil in H. lia.
Qed.

(** C5 as stated fails on the letter case of the sentinel. *)
Lemma C5_sentinel_is_capitalised :
  not_found (env := Demo.env) (book_url "10.1007/none") 0%nat = Some 1%nat
  ∧ not_found (env := Demo.env) (referencework_url "10.1007/none") 1%nat
    = Some 2%nat
  ∧ not_found (env := Demo.env) (doi_url "10.1007/none") 2%nat = Some 3%nat
  ∧ ∃ bd st',
      book_dict_of (env := Demo.env) (VStr "10.1007/none")
        (Demo.start Demo.files) = (Ok bd, st')
      ∧ bd !! "series" = Some (VStr "Unavailable")
      ∧ bd !! "series" ≠ Some (VStr "unavailable").
Proof.
  repeat (split; [reflexivity|]).
  eexists. eexists. split; [reflexivity|].
  split; [vm_compute; reflexivity|]. vm_compute. discriminate.
Qed.

(** ** The patterns *)

Section PatternFacts.

Lemma append_String a (x y : string) : String a x +:+ y = String a (x +:+ y).
Proof. reflexivity. Qed.

Lemma append_nil_r (x : string) : x +:+ "" = x.
Proof. induction x as [|a x IH]; [done|]. by rewrite append_String, IH. Qed.

Lemma append_assoc (x y z : string) : (x +:+ y) +:+ z = x +:+ (y +:+ z).
Proof. induction x as [|a x IH]; [done|]. by rewrite !append_String, IH. Qed.

Lemma all_chars_append p (x y : string) :
  all_chars p (x +:+ y) = all_chars p x && all_chars p y.
Proof.
  induction x as [|a x IH]; [done|].
  rewrite append_String. cbn [all_chars]. by rewrite IH, andb_assoc.
Qed.

(** The longest prefix that passes a test, and what is left. *)
Lemma take_while_split p (s : string) :
  ∃ rest, s = Re.take_while p s +:+ rest
          ∧ all_chars p (Re.take_while p s) = true
          ∧ stops_at p rest.
Proof.
  induction s as [|c r (rest & E & Ha & Hs)].
  - by exists "".
  - cbn [Re.take_while]. destruct (p c) eqn:Hc.
    + exists rest. rewrite append_String, <- E. cbn [all_chars].
      by rewrite Hc, Ha.
    + by exists (String c r).
Qed.

Lemma strip_prefix_Some (lit s rest : string) :
  Re.strip_prefix lit s = Some rest → s = lit +:+ rest.
Proof.
  revert s. induction lit as [|a lit IH]; intros s; cbn [Re.strip_prefix].
  - by intros [= ->].
  - destruct s as [|b s]; [done|].
    destruct (Ascii.eqb a b) eqn:E; [|done].
    apply Ascii.eqb_eq in E as ->. intros H. by rewrite (IH _ H).
Qed.

Lemma strip_prefix_append (lit rest : string) :
  Re.strip_prefix lit (lit +:+ rest) = Some rest.
Proof.
  induction lit as [|a lit IH]; [done|].
  rewrite append_String. cbn [Re.strip_prefix]. by rewrite Ascii.eqb_refl.
Qed.

Lemma before_last_Some stop (l p : string) :
  Re.before_last stop l = Some p →
  ∃ q, l = p +:+ String stop q
       ∧ all_chars (λ c, negb (Ascii.eqb c stop)) q = true.
Proof.
  revert p. induction l as [|c r IH]; intros p; cbn [Re.before_last]; [done|].
  destruct (Re.before_last stop r) as [p'|] eqn:E.
  - intros [= <-]. destruct (IH _ eq_refl) as (q & -> & Hq).
    exists q. split; [reflexivity|exact Hq].
  - destruct (Ascii.eqb c stop) eqn:Hc; [|done].
    intros [= <-]. apply Ascii.eqb_eq in Hc as ->.
    exists r. split; [done|].
    clear IH. induction r as [|a r IH]; [done|].
    cbn [Re.before_last] in E.
    destruct (Re.before_last stop r); [done|].
    destruct (Ascii.eqb a stop) eqn:Ha; [done|].
    cbn [all_chars]. by rewrite Ha, IH.
Qed.

Lemma before_last_found stop (p q : string) :
  Re.before_last stop (p +:+ String stop q) ≠ None.
Proof.
  induction p as [|a p IH].
  - change ("" +:+ String stop q) with (String stop q). cbn [Re.before_last].
    destruct (Re.before_last stop q); [done|]. by rewrite Ascii.eqb_refl.
  - rewrite append_String. cbn [Re.before_last].
    by destruct (Re.before_last stop (p +:+ String stop q)).
Qed.

(** [(.+)stop] at the start of a string: what is matched is not empty,
    stays on the line and ends at the last [stop] of the line. *)
Lemma dot_plus_until_Some stop (s g : string) :
  Re.dot_plus_until stop s = Some g →
  ∃ q rest,
    s = g +:+ String stop (q +:+ rest)
    ∧ g ≠ ""
    ∧ all_chars Re.is_dot g = true
    ∧ all_chars (is_dot_but stop) q = true
    ∧ stops_at Re.is_dot rest.
Proof.
  unfold Re.dot_plus_until.
  destruct (take_while_split Re.is_dot s) as (rest & E & Ha & Hs).
  destruct (Re.take_while Re.is_dot s) as [|c r]; [done|].
  destruct (Re.before_last stop r) as [p|] eqn:Hb; [|done].
  intros [= <-]. apply before_last_Some in Hb as (q & -> & Hq).
  exists q, rest.
  cbn [all_chars] in Ha. rewrite all_chars_append in Ha. cbn [all_chars] in Ha.
  apply andb_prop in Ha as [Hc Ha]. apply andb_prop in Ha as [Hp Ha].
  apply andb_prop in Ha as [Hstop Hq'].
  split. { rewrite E, !append_String, append_assoc. done. }
  split; [done|]. split. { cbn [all_chars]. by rewrite Hc, Hp. }
  split; [|done].
  clear -Hq Hq'. induction q as [|a q IH]; [done|].
  cbn [all_chars] in *. apply andb_prop in Hq as [H1 H2].
  apply andb_prop in Hq' as [H3 H4]. unfold is_dot_but at 1.
  by rewrite H1, H3, IH.
Qed.

Lemma take_while_append p (x y : string) :
  all_chars p x = true →
  Re.take_while p (x +:+ y) = x +:+ Re.take_while p y.
Proof.
  induction x as [|a x IH]; [done|]. cbn [all_chars]. intros H.
  apply andb_prop in H as [Ha Hx].
  rewrite !append_String. cbn [Re.take_while]. by rewrite Ha, IH.
Qed.

Lemma dot_plus_until_found stop (g post : string) :
  Re.is_dot stop = true → g ≠ "" → all_chars Re.is_dot g = true →
  Re.dot_plus_until stop (g +:+ String stop post) ≠ None.
Proof.
  intros Hstop Hg Ha. unfold Re.dot_plus_until.
  rewrite (take_while_append _ _ _ Ha). cbn [Re.take_while]. rewrite Hstop.
  destruct g as [|c r]; [done|]. rewrite append_String.
  pose proof (before_last_found stop r (Re.take_while Re.is_dot post)) as H.
  by destruct (Re.before_last stop _).
Qed.

Lemma search_lit_dot_plus_Some lit stop (s g : string) :
  Re.search_lit_dot_plus lit stop s = Some g →
  ∃ pre q rest,
    s = pre +:+ lit +:+ g +:+ String stop (q +:+ rest)
    ∧ g ≠ ""
    ∧ all_chars Re.is_dot g = true
    ∧ all_chars (is_dot_but stop) q = true
    ∧ stops_at Re.is_dot rest.
Proof.
  assert (∀ s, (match Re.strip_prefix lit s with
                | Some rest => Re.dot_plus_until stop rest
                | None => None
                end) = Some g →
               ∃ pre q rest,
                 s = pre +:+ lit +:+ g +:+ String stop (q +:+ rest)
                 ∧ g ≠ "" ∧ all_chars Re.is_dot g = true
                 ∧ all_chars (is_dot_but stop) q = true
                 ∧ stops_at Re.is_dot rest) as Hhere.
  { intros s0 H. destruct (Re.strip_prefix lit s0) as [r|] eqn:E; [|done].
    apply strip_prefix_Some in E as ->.
    apply dot_plus_until_Some in H as (q & rest & -> & H).
    by exists "", q, rest. }
  induction s as [|c r IH].
  - cbn [Re.search_lit_dot_plus]. intros H. apply Hhere.
    destruct (Re.strip_prefix lit "") as [rest|]; [|done].
    by destruct (Re.dot_plus_until stop rest).
  - cbn [Re.search_lit_dot_plus]. intros H.
    destruct (Re.strip_prefix lit (String c r)) as [rest|] eqn:E.
    + destruct (Re.dot_plus_until stop rest) as [g'|] eqn:E2.
      * injection H as <-. apply (Hhere (String c r)). by rewrite E.
      * destruct (IH H) as (pre & q & rest' & -> & H').
        by exists (String c pre), q, rest'.
    + destruct (IH H) as (pre & q & rest' & -> & H').
      by exists (String c pre), q, rest'.
Qed.

Lemma search_lit_dot_plus_found lit stop (pre g post : string) :
  Re.is_dot stop = true → g ≠ "" → all_chars Re.is_dot g = true →
  Re.search_lit_dot_plus lit stop (pre +:+ lit +:+ g +:+ String stop post)
  ≠ None.
Proof.
  intros Hstop Hg Ha.
  assert (∀ s, Re.strip_prefix lit s = Some (g +:+ String stop post) →
               Re.search_lit_dot_plus lit stop s ≠ None) as Hhere.
  { intros s E. pose proof (dot_plus_until_found stop g post Hstop Hg Ha) as H.
    destruct s; cbn [Re.search_lit_dot_plus]; rewrite E;
      by destruct (Re.dot_plus_until stop _). }
  induction pre as [|c pre IH].
  - apply (Hhere (lit +:+ g +:+ String stop post)). apply strip_prefix_append.
  - rewrite append_String. cbn [Re.search_lit_dot_plus].
    destruct (Re.strip_prefix lit _) as [rest|]; [|done].
    by destruct (Re.dot_plus_until stop rest).
Qed.

(** X1: what the two volume patterns cut out. When
    [re.search(r"volume (.+)\)", s)] (or [r"Volume (.+) "]) matches, the
    group stands in [s] right after the word and before a closing
    parenthesis (a space), is not empty, has no newline, and is greedy:
    the rest of the line has no other closing parenthesis (space). And
    the search does match whenever [s] has the word, then at least one
    character of the same line, then the closing character. *)
Theorem X1_volume_patterns :
  (∀ s g, Re.search_volume s = Some g →
      ∃ pre q rest,
        s = pre +:+ "volume " +:+ g +:+ String ")" (q +:+ rest)
        ∧ g ≠ "" ∧ all_chars Re.is_dot g = true
        ∧ all_chars (is_dot_but ")") q = true ∧ stops_at Re.is_dot rest)
  ∧ (∀ s g, Re.search_landolt_volume s = Some g →
      ∃ pre q rest,
        s = pre +:+ "Volume " +:+ g +:+ String " " (q +:+ rest)
        ∧ g ≠ "" ∧ all_chars Re.is_dot g = true
        ∧ all_chars (is_dot_but " ") q = true ∧ stops_at Re.is_dot rest)
  ∧ (∀ pre g post, g ≠ "" → all_chars Re.is_dot g = true →
      Re.search_volume (pre +:+ "volume " +:+ g +:+ String ")" post) ≠ None)
  ∧ (∀ pre g post, g ≠ "" → all_chars Re.is_dot g = true →
      Re.search_landolt_volume (pre +:+ "Volume " +:+ g +:+ String " " post)
      ≠ None).
Proof.
  split; [intros s g; apply search_lit_dot_plus_Some|].
  split; [intros s g; apply search_lit_dot_plus_Some|].
  split; intros pre g post; by apply search_lit_dot_plus_found.
Qed.

Lemma search_acronym_Some (s g : string) :
  Re.search_acronym s = Some g →
  ∃ pre post,
    s = pre +:+ String "(" (g +:+ post)
    ∧ g ≠ "" ∧ all_chars Re.is_alpha_plus g = true
    ∧ stops_at Re.is_alpha_plus post.
Proof.
  induction s as [|c r IH]; [done|].
  cbn [Re.search_acronym].
  destruct (Ascii.eqb c "(") eqn:Hc.
  - apply Ascii.eqb_eq in Hc as ->.
    destruct (take_while_split Re.is_alpha_plus r) as (rest & E & Ha & Hs).
    destruct (Re.take_while Re.is_alpha_plus r) as [|a t] eqn:Ht.
    + intros H. destruct (IH H) as (pre & post & -> & H').
      by exists (String "(" pre), post.
    + intros [= <-]. exists "", rest. by rewrite <- E.
  - intros H. destruct (IH H) as (pre & post & -> & H').
    by exists (String c pre), post.
Qed.

(** X2: what the acronym pattern cuts out. When
    [re.search(r"\(([A-Za-z\+]+)", s)] matches, the group stands in [s]
    right after an opening parenthesis, is not empty, is made of letters
    and plus signs only and is as long as it can be. And the search does
    match whenever [s] has an opening parenthesis followed by a letter
    or a plus sign. *)
Theorem X2_acronym_pattern :
  (∀ s g, Re.search_acronym s = Some g →
      ∃ pre post,
        s = pre +:+ String "(" (g +:+ post)
        ∧ g ≠ "" ∧ all_chars Re.is_alpha_plus g = true
        ∧ stops_at Re.is_alpha_plus post)
  ∧ (∀ pre c post, Re.is_alpha_plus c = true →
      Re.search_acronym (pre +:+ String "(" (String c post)) ≠ None).
Proof.
  split; [exact search_acronym_Some|].
  intros pre c post Hc. induction pre as [|a pre IH].
  - change ("" +:+ ?x) with x. cbn [Re.search_acronym Re.take_while].
    rewrite Ascii.eqb_refl. by rewrite Hc.
  - rewrite append_String. cbn [Re.search_acronym].
    destruct (Ascii.eqb a "("); [|done].
    by destruct (Re.take_while Re.is_alpha_plus _).
Qed.

(** X3: what the year pattern cuts out. When [re.search(r"\d\d\d\d", s)]
    matches, the group is four digits that stand in [s], and no four
    digits in a row start earlier in [s]; the number [int] makes of it
    is between 0 and 9999. And the search does match whenever [s] has
    four digits in a row. *)
Theorem X3_year_pattern :
  (∀ s g, Re.search_year s = Some g →
      (∃ pre post,
          s = pre +:+ g +:+ post
          ∧ four_digits g
          ∧ ∀ pre' g' post',
              s = pre' +:+ g' +:+ post' → four_digits g' →
              (String.length pre ≤ String.length pre')%nat)
      ∧ ∃ n, Py.int g = Ok n ∧ 0 ≤ n ≤ 9999)
  ∧ (∀ pre g post, four_digits g →
      Re.search_year (pre +:+ g +:+ post) ≠ None).
Proof.
  assert (∀ g (post : string), four_digits g →
            ∃ a b c d, g = String a (String b (String c (String d "")))
              ∧ (is_digit a && is_digit b && is_digit c && is_digit d) = true)
    as Hfour.
  { intros g post [Hl Ha].
    destruct g as [|a [|b [|c [|d [|e g]]]]]; try discriminate Hl.
    exists a, b, c, d. split; [done|]. cbn [all_chars] in Ha.
    by rewrite andb_true_r, !andb_assoc in Ha. }
  split.
  - intros s g H. split; [|by apply search_year_int with (s := s)].
    revert H. induction s as [|a r IH]; [done|].
    cbn [Re.search_year].
    destruct r as [|b [|c [|d r']]]; try done.
    destruct (is_digit a && is_digit b && is_digit c && is_digit d) eqn:E.
    + intros [= <-]. exists "", r'. split; [done|]. split.
      * split; [done|]. cbn [all_chars]. by rewrite andb_true_r, !andb_assoc.
      * intros; cbn; lia.
    + intros H. destruct (IH H) as (pre & post & Hs & Hg & Hleft).
      exists (String a pre), post. split; [by rewrite append_String, <- Hs|].
      split; [done|]. intros pre' g' post' Hs' Hg'.
      destruct pre' as [|a' pre'].
      * exfalso. destruct (Hfour g' post' Hg') as (x & y & z & w & -> & Hd).
        change ("" +:+ ?x) with x in Hs'. rewrite !append_String in Hs'.
        injection Hs' as -> -> -> -> _. congruence.
      * rewrite append_String in Hs'. injection Hs' as _ Hs'.
        specialize (Hleft pre' g' post' Hs' Hg'). cbn. lia.
  - intros pre g post Hg.
    destruct (Hfour g post Hg) as (a & b & c & d & -> & Hd).
    induction pre as [|x pre IH].
    + change ("" +:+ ?x) with x. rewrite !append_String.
      cbn [Re.search_year]. by rewrite Hd.
    + rewrite append_String. cbn [Re.search_year].
      destruct (pre +:+ _) as [|b' [|c' [|d' r']]] eqn:E; try done.
      by destruct (is_digit x && is_digit b' && is_digit c' && is_digit d').
Qed.

End PatternFacts.

(** ** The shape of the fields *)

Section FieldShapes.

Context {env : Env}.

Lemma field_alone_str s f texts :
  f ≠ Year → ∃ g, field_alone s f texts = VStr g.
Proof.
  intros Hf. unfold field_alone.
  destruct texts as [|t l]; [destruct f; by eexists|].
  destruct s, f; try done; cbn [field_pattern field_value field_default];
    try (by eexists);
    match goal with |- context [match ?x with _ => _ end] =>
      destruct x; by eexists end.
Qed.

Lemma field_alone_year s texts :
  field_alone s Year texts = VStr ""
  ∨ ∃ n, 0 ≤ n ≤ 9999 ∧ field_alone s Year texts = VInt n.
Proof.
  unfold field_alone. destruct texts as [|t l]; [by left|].
  assert (field_pattern s Year = Some Re.search_year) as -> by by destruct s.
  destruct (Re.search_year (str_encode t)) as [g|] eqn:E; [|by left].
  right. destruct (search_year_int _ _ E) as (n & Hn & Hr).
  exists n. split; [done|]. unfold field_value. by rewrite Hn.
Qed.

Lemma field_alone_acronym s (h : Doc) :
  ∃ g, field_alone s Acronym (field_texts s Acronym h) = VStr g
       ∧ all_chars Re.is_alpha_plus g = true.
Proof.
  unfold field_alone, field_texts.
  destruct s; cbn [field_path field_pattern field_value field_default];
    [|by exists ""].
  destruct (xpath h _) as [|t l]; [by exists ""|].
  destruct (Re.search_acronym (str_encode t)) as [g|] eqn:E; [|by exists ""].
  exists g. split; [done|].
  by apply search_acronym_Some in E as (? & ? & _ & _ & ? & _).
Qed.

Lemma field_alone_volume s (h : Doc) :
  ∃ g, field_alone s Volume (field_texts s Volume h) = VStr g
       ∧ all_chars Re.is_dot g = true.
Proof.
  unfold field_alone, field_texts.
  destruct s; cbn [field_path field_pattern field_value field_default];
    (destruct (xpath h _) as [|t l]; [by exists ""|]).
  - destruct (Re.search_volume (str_encode t)) as [g|] eqn:E; [|by exists ""].
    exists g. split; [done|].
    by apply search_lit_dot_plus_Some in E as (? & ? & ? & _ & _ & ? & _).
  - destruct (Re.search_landolt_volume (str_encode t)) as [g|] eqn:E;
      [|by exists ""].
    exists g. split; [done|].
    by apply search_lit_dot_plus_Some in E as (? & ? & ? & _ & _ & ? & _).
Qed.

(** X4: the shape of the dict both parsers return, on a page or without
    one. Every field but the year is a string; the year is the empty
    string or a number between 0 and 9999; the acronym is made of
    letters and plus signs only; the volume has no newline. *)
Theorem X4_field_shapes (s : schema) (book_html : option Doc) :
  ∃ bd,
    parser s book_html = Ok bd
    ∧ (∀ f, f ≠ Year → ∃ g, bd !! key f = Some (VStr g))
    ∧ (bd !! "year" = Some (VStr "")
       ∨ ∃ n, 0 ≤ n ≤ 9999 ∧ bd !! "year" = Some (VInt n))
    ∧ (∃ g, bd !! "acronym" = Some (VStr g)
            ∧ all_chars Re.is_alpha_plus g = true)
    ∧ (∃ g, bd !! "volume" = Some (VStr g) ∧ all_chars Re.is_dot g = true).
Proof.
  destruct book_html as [h|].
  - destruct (parser_fields s h) as (bd & Hbd & Hf).
    exists bd. split; [done|]. split; [|split; [|split]].
    + intros f Hy. destruct (field_alone_str s f (field_texts s f h) Hy) as [g Hg].
      exists g. by rewrite Hf, Hg.
    + change "year" with (key Year). rewrite Hf.
      destruct (field_alone_year s (field_texts s Year h)) as [->|(n & Hn & ->)];
        [by left|right; by exists n].
    + destruct (field_alone_acronym s h) as (g & Hg & Ha).
      exists g. split; [|done]. change "acronym" with (key Acronym).
      by rewrite Hf, Hg.
    + destruct (field_alone_volume s h) as (g & Hg & Ha).
      exists g. split; [|done]. change "volume" with (key Volume).
      by rewrite Hf, Hg.
  - exists new_book_dict. split; [apply parser_None|].
    split; [|split; [|split]].
    + intros f Hy. rewrite new_book_dict_fields. destruct f; by eexists.
    + left. apply (new_book_dict_fields Year).
    + exists "". split; [apply (new_book_dict_fields Acronym)|done].
    + exists "". split; [apply (new_book_dict_fields Volume)|done].
Qed.

End FieldShapes.

(** ** The name of the enhanced report, for every name *)

Section FilenameFacts.

Lemma before_dot_no_dot (s : string) : has_dot s = false → before_dot s = s.
Proof.
  unfold before_dot. induction s as [|c r IH]; [done|].
  cbn [has_dot Re.take_while]. intros H. apply orb_false_elim in H as [Hc Hr].
  by rewrite Hc, (IH Hr).
Qed.

Lemma has_dot_before_dot (s : string) : has_dot (before_dot s) = false.
Proof.
  unfold before_dot. induction s as [|c r IH]; [done|].
  cbn [Re.take_while]. destruct (Ascii.eqb c ".") eqn:Hc; [done|].
  cbn [negb has_dot]. by rewrite Hc, IH.
Qed.

(** The pieces of a name: the first one is the name up to its first dot. *)
Lemma split_dot_head (s : string) :
  ∃ t, split_dot s = before_dot s :: t.
Proof.
  unfold before_dot. induction s as [|c r (t & IH)]; [by exists []|].
  cbn [split_dot Re.take_while]. destruct (Ascii.eqb c ".") eqn:Hc.
  - by eexists.
  - cbn [negb]. rewrite IH. by eexists.
Qed.

Lemma split_dot_first_dot (s : string) :
  has_dot s = true →
  ∃ rest, s = before_dot s +:+ "." +:+ rest
          ∧ split_dot s = before_dot s :: split_dot rest.
Proof.
  unfold before_dot. induction s as [|c r IH]; [done|].
  cbn [has_dot split_dot Re.take_while]. destruct (Ascii.eqb c ".") eqn:Hc.
  - intros _. apply Ascii.eqb_eq in Hc as ->. by exists r.
  - cbn [orb negb]. intros H. destruct (IH H) as (rest & E & ->).
    exists rest. split; [|done].
    change (String c r = String c (Re.take_while
      (λ c, negb (Ascii.eqb c ".")) r +:+ "." +:+ rest)).
    by rewrite <- E.
Qed.

Lemma new_filename_of_dot (filename : string) :
  has_dot filename = true →
  ∃ rest,
    filename = before_dot filename +:+ "." +:+ rest
    ∧ new_filename_of filename
      = Ok (before_dot filename +:+ "_v1." +:+ before_dot rest).
Proof.
  intros Hd. destruct (split_dot_first_dot _ Hd) as (rest & E & Hs).
  destruct (split_dot_head rest) as (t & Ht).
  exists rest. split; [done|]. unfold new_filename_of. by rewrite Hs, Ht.
Qed.

(** X5: the name of the enhanced report, for every name of the report.
    A name without a dot raises [IndexError]. A name with a dot gives
    what stands before its first dot, then [_v1.], then what stands
    between its first dot and its second dot (or the end): what follows
    a second dot is lost. In every case where a name comes out, it has
    one dot and is not the name of the report. *)
Theorem X5_new_filename_of_every_name (filename : string) :
  (has_dot filename = false ∧ new_filename_of filename = Raise IndexError)
  ∨ (has_dot filename = true
     ∧ ∃ rest,
         filename = before_dot filename +:+ "." +:+ rest
         ∧ new_filename_of filename
           = Ok (before_dot filename +:+ "_v1." +:+ before_dot rest)
         ∧ has_dot (before_dot filename) = false
         ∧ has_dot (before_dot rest) = false
         ∧ before_dot filename +:+ "_v1." +:+ before_dot rest ≠ filename).
Proof.
  destruct (has_dot filename) eqn:Hd.
  - right. split; [done|].
    destruct (new_filename_of_dot _ Hd) as (rest & E & Hn).
    exists rest. split; [done|]. split; [done|].
    split; [apply has_dot_before_dot|]. split; [apply has_dot_before_dot|].
    by apply new_filename_differs.
  - left. split; [done|]. unfold new_filename_of.
    by rewrite (split_dot_no_dot _ Hd).
Qed.

End FilenameFacts.

(** ** Where the page of a book comes from *)

Section Classification.

Context {env : Env}.

(** X6: how to read what [RequestBookInfoPage] returns. When it returns
    for a DOI, either the page is that of the book address or of the
    reference work address and the flag is off; or the page is that of
    dx.doi.org, asked after two 404, and the flag is on; or there is no
    page, the flag is off and the three addresses answered 404. So the
    flag is on exactly when the page came from dx.doi.org. *)
Theorem X6_page_and_flag (d : string) (st : state) p (b : bool) st' :
  RequestBookInfoPage (VStr d) st = (Ok (p, b), st') →
  (∃ r w h,
      b = false ∧ p = Some h
      ∧ status_code r ≠ 404 ∧ html_fromstring (content r) = Ok h
      ∧ ((requests_get (book_url d) (net st) = (Ok r, w)
          ∧ st' = after st w [EGet (book_url d)])
         ∨ (∃ w1, not_found (book_url d) (net st) = Some w1
                  ∧ requests_get (referencework_url d) w1 = (Ok r, w)
                  ∧ st' = after st w [EGet (book_url d);
                                      EGet (referencework_url d)])))
  ∨ (∃ w1 w2 r w h,
        b = true ∧ p = Some h
        ∧ not_found (book_url d) (net st) = Some w1
        ∧ not_found (referencework_url d) w1 = Some w2
        ∧ requests_get (doi_url d) w2 = (Ok r, w)
        ∧ status_code r ≠ 404 ∧ html_fromstring (content r) = Ok h
        ∧ st' = after st w [EGet (book_url d); EGet (referencework_url d);
                            EGet (doi_url d)])
  ∨ (∃ w1 w2 w3,
        b = false ∧ p = None
        ∧ not_found (book_url d) (net st) = Some w1
        ∧ not_found (referencework_url d) w1 = Some w2
        ∧ not_found (doi_url d) w2 = Some w3
        ∧ st' = after st w3 [EGet (book_url d); EGet (referencework_url d);
                             EGet (doi_url d)]).
Proof.
  assert (∀ r l h b' (s1 s2 : state),
            (parsed r l, s1) = (Ok (h, b'), s2) →
            ∃ h', html_fromstring (content r) = Ok h'
                  ∧ h = Some h' ∧ b' = l ∧ s2 = s1) as Hparsed.
  { intros r l h b' s1 s2. unfold parsed, res_map, res_bind.
    destruct (html_fromstring (content r)) as [h'|]; [|done].
    intros [= <- <- <-]. by exists h'. }
  destruct (not_found (book_url d) (net st)) as [w1|] eqn:N1.
  - destruct (not_found (referencework_url d) w1) as [w2|] eqn:N2.
    + destruct (not_found (doi_url d) w2) as [w3|] eqn:N3.
      * rewrite (RequestBookInfoPage_absent _ _ _ _ _ N1 N2 N3).
        intros [= <- <- <-]. right; right. by exists w1, w2, w3.
      * destruct (requests_get (doi_url d) w2) as [[r3|e3] w3] eqn:E3.
        -- pose proof (not_found_None_inv _ _ _ _ N3 E3) as S3.
           apply Z.eqb_neq in S3.
           rewrite (RequestBookInfoPage_doi _ _ _ _ _ _ N1 N2 E3 S3).
           intros H. apply Hparsed in H as (h & Hh & -> & -> & ->).
           right; left. by exists w1, w2, r3, w3, h.
        -- rewrite RequestBookInfoPage_unfold.
           apply not_found_inv in N1 as (r1 & E1 & S1).
           apply not_found_inv in N2 as (r2 & E2 & S2).
           rewrite (get_then _ _ _ _ _ E1), S1.
           rewrite (get_then _ _ (after _ _ _) _ _ E2), S2.
           by rewrite (get_raise _ _ (after _ _ _) _ _ E3).
    + destruct (requests_get (referencework_url d) w1) as [[r2|e2] w2] eqn:E2.
      * pose proof (not_found_None_inv _ _ _ _ N2 E2) as S2.
        apply Z.eqb_neq in S2.
        rewrite (RequestBookInfoPage_referencework _ _ _ _ _ N1 E2 S2).
        intros H. apply Hparsed in H as (h & Hh & -> & -> & ->).
        left. exists r2, w2, h. repeat (split; [done|]). right. by exists w1.
      * rewrite RequestBookInfoPage_unfold.
        apply not_found_inv in N1 as (r1 & E1 & S1).
        rewrite (get_then _ _ _ _ _ E1), S1.
        by rewrite (get_raise _ _ (after _ _ _) _ _ E2).
  - destruct (requests_get (book_url d) (net st)) as [[r1|e1] w1] eqn:E1.
    + pose proof (not_found_None_inv _ _ _ _ N1 E1) as S1.
      apply Z.eqb_neq in S1.
      rewrite (RequestBookInfoPage_book _ _ _ _ E1 S1).
      intros H. apply Hparsed in H as (h & Hh & -> & -> & ->).
      left. exists r1, w1, h. repeat (split; [done|]). by left.
    + rewrite RequestBookInfoPage_unfold.
      by rewrite (get_raise _ _ _ _ _ E1).
Qed.

End Classification.

(** ** Rows and runs that raise *)

Section Outcomes.

Context {env : Env}.
Implicit Types ws : Sheet.

(** What lines 74-90 do to the outside, whatever their outcome: they
    make requests and nothing else. *)
Lemma row_visit_outcome doi_col issn_col L i ws cnt st :
  ∃ w evs,
    Forall (λ e, is_get e = true) evs
    ∧ (row_visit doi_col issn_col L i ws cnt st).2 = after st w evs.
Proof.
  assert (∃ w evs, Forall (λ e, is_get e = true) evs
                   ∧ st = after st w evs) as Hnil.
  { exists (net st), []. split; [constructor|]. symmetry. apply after_nil. }
  unfold row_visit. rewrite bind_lift.
  destruct (ord issn_col) as [o|]; [|exact Hnil].
  rewrite bind_lift.
  destruct (read ws i (o - 64)) as [[issn ws1]|]; [|exact Hnil].
  cbn beta iota. destruct (truthy issn); [|exact Hnil].
  rewrite bind_lift. destruct (ord doi_col) as [od|]; [|exact Hnil].
  rewrite bind_lift.
  destruct (read ws1 i (od - 64)) as [[doi ws2]|]; [|exact Hnil].
  cbn beta iota. unfold bind at 1.
  destruct (book_dict_of_trace doi st) as (w & evs & Hst & Hg).
  destruct (book_dict_of doi st) as [[bd|e] st1]; cbn [snd] in Hst; subst st1;
    [|by exists w, evs].
  rewrite bind_lift. destruct (write_fields L ws2 i bd) as [ws3|];
    by exists w, evs.
Qed.

(** The state after a turn of the loop, whatever its outcome: requests
    were made, and then the workbook was saved only if the turn returned
    and the row number is a multiple of 1000. *)
Lemma row_body_outcome doi_col issn_col L wb i ws cnt st :
  ∃ w evs,
    Forall (λ e, is_get e = true) evs
    ∧ match (row_body doi_col issn_col L wb i ws cnt st).1 with
      | Ok (ws', _) =>
          (row_body doi_col issn_col L wb i ws cnt st).2
          = checkpoint L wb i ws' (after st w evs)
      | Raise _ =>
          (row_body doi_col issn_col L wb i ws cnt st).2 = after st w evs
      end.
Proof.
  rewrite row_body_unfold.
  destruct (row_visit_outcome doi_col issn_col L i ws cnt st)
    as (w & evs & Hg & Hst).
  exists w, evs. split; [done|].
  destruct (row_visit doi_col issn_col L i ws cnt st)
    as [[[ws' cnt']|e] st1]; cbn [snd] in Hst; subst st1; [|done].
  by destruct (turn_end_cases L wb i ws' cnt' (after st w evs))
    as [->|(e & _ & _ & ->)].
Qed.

Lemma checkpoint_disk L wb i ws st fn :
  fn ≠ new_filename L →
  disk (checkpoint L wb i ws st) !! fn = disk st !! fn.
Proof.
  intros H. unfold checkpoint, saved_state.
  destruct (i mod 1000 =? 0); [|done]. cbn [disk]. by rewrite lookup_insert_ne.
Qed.

(** X7: a row that raises leaves nothing behind. Whatever the exception
    (an empty DOI cell, a network error, a page that lxml rejects, a
    column out of the sheet, or the save of line 91 itself when the file
    system refuses to open the file), the turn of the row has made
    requests and nothing else: it has saved nothing and the files are as
    they were. The save of a row comes after its writes, so a saved
    workbook never holds a half-written row. An exception of the save is
    the one exception that comes after the writes: it is raised at a
    multiple of 1000 only, and any other exception is raised by lines
    74 to 90, before the save is tried. *)
Theorem X7_failed_row_saves_nothing
    doi_col issn_col L wb i ws cnt st e st' :
  row_body doi_col issn_col L wb i ws cnt st = (Raise e, st') →
  disk st' = disk st
  ∧ saves (trace st') = saves (trace st)
  ∧ insertions (trace st') = insertions (trace st)
  ∧ loads (trace st') = loads (trace st)
  ∧ (∃ w evs, st' = after st w evs ∧ Forall (λ e, is_get e = true) evs)
  ∧ (row_visit doi_col issn_col L i ws cnt st = (Raise e, st')
     ∨ ∃ ws' cnt',
         row_visit doi_col issn_col L i ws cnt st = (Ok (ws', cnt'), st')
         ∧ i mod 1000 = 0
         ∧ write_error (new_filename L) (net st') = Some e).
Proof.
  intros H.
  destruct (row_body_outcome doi_col issn_col L wb i ws cnt st)
    as (w & evs & Hg & Hst).
  rewrite H in Hst. cbn [fst snd] in Hst.
  assert (row_visit doi_col issn_col L i ws cnt st = (Raise e, st')
          ∨ ∃ ws' cnt',
              row_visit doi_col issn_col L i ws cnt st = (Ok (ws', cnt'), st')
              ∧ i mod 1000 = 0
              ∧ write_error (new_filename L) (net st') = Some e) as Hwhere.
  { rewrite row_body_unfold in H.
    destruct (row_visit doi_col issn_col L i ws cnt st)
      as [[[ws' cnt']|e1] st1]; [|left; by injection H as <- <-].
    apply turn_end_Raise in H as (-> & Hm & He).
    right. by exists ws', cnt'. }
  subst st'.
  pose proof Hg as Hg'.
  apply gets_only in Hg as (G1 & G2 & G3). cbn [after disk trace].
  rewrite saves_app, insertions_app, loads_app, G1, G2, G3, !app_nil_r.
  repeat (split; [done|]). split; [by exists w, evs|done].
Qed.

(** Every file but the enhanced report is left alone by a turn of the
    loop, by the loop and by the loop with its last save. *)
Lemma row_body_disk doi_col issn_col L wb i ws cnt st fn :
  fn ≠ new_filename L →
  disk (row_body doi_col issn_col L wb i ws cnt st).2 !! fn = disk st !! fn.
Proof.
  intros Hfn.
  destruct (row_body_outcome doi_col issn_col L wb i ws cnt st)
    as (w & evs & _ & Hst).
  destruct (row_body doi_col issn_col L wb i ws cnt st) as [[[ws' cnt']|e] st'];
    cbn [fst snd] in *; subst st'; [by rewrite checkpoint_disk|done].
Qed.

Lemma for_rows_disk doi_col issn_col L wb rows ws cnt st fn :
  fn ≠ new_filename L →
  disk (for_rows (row_body doi_col issn_col L wb) rows ws cnt st).2 !! fn
  = disk st !! fn.
Proof.
  intros Hfn. revert ws cnt st.
  induction rows as [|i rows IH]; intros ws cnt st; [done|].
  cbn [for_rows]. unfold bind.
  pose proof (row_body_disk doi_col issn_col L wb i ws cnt st fn Hfn) as H.
  destruct (row_body doi_col issn_col L wb i ws cnt st)
    as [[[ws1 cnt1]|e] st1]; cbn [snd] in H; [|done].
  by rewrite IH.
Qed.

Lemma enhance_rows_disk first_row doi_col issn_col L wb ws cnt st fn :
  fn ≠ new_filename L →
  disk (enhance_rows first_row doi_col issn_col L wb ws cnt st).2 !! fn
  = disk st !! fn.
Proof.
  intros Hfn. unfold enhance_rows, bind.
  pose proof (for_rows_disk doi_col issn_col L wb
                (range first_row (max_row ws + 1)) ws cnt st fn Hfn) as H.
  destruct (for_rows _ _ ws cnt st) as [[[ws1 cnt1]|e] st1];
    cbn [snd] in H; [|done].
  rewrite wb_save_run.
  destruct (write_error (new_filename L) (net st1)); [done|].
  unfold saved_state, ret. cbn [snd disk]. by rewrite lookup_insert_ne.
Qed.

(** X8: a run writes one file at most, the enhanced report. Whether it
    returns or raises, and whatever the mode, the report it was given is
    on the disk as it was, and so is every file whose name is not the
    name derived from the name of the report. *)
Theorem X8_only_the_enhanced_report_is_written
    filename first_row doi_col issn_col rerun st :
  disk (RunReportEnhancement
          filename first_row doi_col issn_col rerun st).2 !! filename
  = disk st !! filename
  ∧ ∀ fn, new_filename_of filename ≠ Ok fn →
          disk (RunReportEnhancement
                  filename first_row doi_col issn_col rerun st).2 !! fn
          = disk st !! fn.
Proof.
  assert (∀ fn, new_filename_of filename ≠ Ok fn →
            disk (RunReportEnhancement
                    filename first_row doi_col issn_col rerun st).2 !! fn
            = disk st !! fn) as H.
  { intros fn Hfn. unfold RunReportEnhancement. rewrite bind_lift.
    destruct (locals_of filename issn_col) as [L|] eqn:HL; [|done].
    destruct (locals_of_inv _ _ _ HL) as (o & _ & _ & Hnf).
    unfold bind. rewrite open_report_unfold.
    destruct (supported_format (opened_file filename L rerun)); [|done].
    destruct (disk st !! opened_file filename L rerun) as [wb|]; [|done].
    destruct (wb !! "Sheet0") as [ws|]; [|done].
    rewrite enhance_rows_disk; [done|]. intros ->. by apply Hfn. }
  split; [|exact H]. apply H. intros Hnf.
  by apply new_filename_differs in Hnf.
Qed.

(** X9: what stops a run before its loop, in this order: a name of the
    report without a dot ([IndexError]), a column of the ISSN that is
    not one character ([TypeError]), a file to open whose name does not
    end in one of the extensions that openpyxl supports
    ([InvalidFileException]), no file to open ([FileNotFoundError]), no
    sheet called Sheet0 ([KeyError]). In the first three cases nothing at
    all has happened; in the last two the file has been looked for and
    nothing else: no column is inserted, no request is made, nothing is
    saved. *)
Theorem X9_what_stops_a_run_before_the_loop
    filename first_row doi_col issn_col rerun st :
  (has_dot filename = false →
     RunReportEnhancement filename first_row doi_col issn_col rerun st
     = (Raise IndexError, st))
  ∧ (has_dot filename = true → (∀ c, issn_col ≠ String c "") →
     RunReportEnhancement filename first_row doi_col issn_col rerun st
     = (Raise TypeError, st))
  ∧ (∀ L, locals_of filename issn_col = Ok L →
       supported_format (opened_file filename L rerun) = false →
       RunReportEnhancement filename first_row doi_col issn_col rerun st
       = (Raise InvalidFileException, st))
  ∧ (∀ L, locals_of filename issn_col = Ok L →
       supported_format (opened_file filename L rerun) = true →
       disk st !! opened_file filename L rerun = None →
       RunReportEnhancement filename first_row doi_col issn_col rerun st
       = (Raise FileNotFoundError,
          after st (net st) [ELoad (opened_file filename L rerun)]))
  ∧ (∀ L wb, locals_of filename issn_col = Ok L →
       supported_format (opened_file filename L rerun) = true →
       disk st !! opened_file filename L rerun = Some wb →
       wb !! "Sheet0" = None →
       RunReportEnhancement filename first_row doi_col issn_col rerun st
       = (Raise KeyError,
          after st (net st) [ELoad (opened_file filename L rerun)])).
Proof.
  split; [|split; [|split; [|split]]].
  - intros Hd. unfold RunReportEnhancement, locals_of, new_filename_of.
    rewrite bind_lift. by rewrite (split_dot_no_dot _ Hd).
  - intros Hd Hc. unfold RunReportEnhancement, locals_of. rewrite bind_lift.
    destruct (new_filename_of filename) as [nf|e] eqn:Hnf.
    + cbn [res_bind]. unfold ord.
      destruct issn_col as [|c [|c' r]]; try done. by destruct (Hc c).
    + destruct (new_filename_of_dot _ Hd) as (rest & _ & Hn). congruence.
  - intros L HL Hx. by apply run_invalid with (L := L).
  - intros L HL Hx Hd. unfold RunReportEnhancement. rewrite bind_lift, HL.
    unfold bind. by rewrite open_report_unfold, Hx, Hd.
  - intros L wb HL Hx Hd Hs. unfold RunReportEnhancement.
    rewrite bind_lift, HL.
    unfold bind. by rewrite open_report_unfold, Hx, Hd, Hs.
Qed.

End Outcomes.

(** ** What a run that returns has done to the sheet and to the network *)

Section ReturningRuns.

Context {env : Env}.
Implicit Types ws : Sheet.

Lemma foldr_max_ge (rs : list Z) (r x : Z) :
  x = r ∨ x ∈ rs → x ≤ foldr Z.max r rs.
Proof.
  induction rs as [|a rs IH]; cbn [foldr].
  - intros [->|H]; [lia|by apply elem_of_nil in H].
  - intros [->|H]; [specialize (IH (or_introl eq_refl)); lia|].
    apply elem_of_cons in H as [->|H]; [lia|].
    specialize (IH (or_intror H)). lia.
Qed.

(** No cell is below the last row. *)
Lemma max_row_ge ws r c v : ws !! (r, c) = Some v → r ≤ max_row ws.
Proof.
  intros H. apply elem_of_map_to_list in H.
  assert (r ∈ (map_to_list ws).*1.*1) as Hr.
  { apply list_elem_of_fmap. exists (r, c). split; [done|].
    apply list_elem_of_fmap. by exists (r, c, v). }
  unfold max_row. destruct ((map_to_list ws).*1.*1) as [|r0 rs].
  - by apply elem_of_nil in Hr.
  - apply foldr_max_ge. apply elem_of_cons in Hr. tauto.
Qed.

Lemma truthy_cell_row ws r c :
  truthy (cell_value ws r c) = true → r ≤ max_row ws.
Proof.
  unfold cell_value. destruct (ws !! (r, c)) as [v|] eqn:E; [|done].
  intros _. by apply max_row_ge in E.
Qed.

Lemma raised_run {A : Type} (out : res A * state) e :
  out.1 = Raise e → out = (Raise e, out.2).
Proof. destruct out as [r st]. cbn. by intros ->. Qed.

Lemma returned_run (out : res (Sheet * Z) * state) :
  returned out = true → out = (Ok (final_sheet out, final_count out), out.2).
Proof.
  unfold returned, final_sheet, final_count.
  by destruct out as [[[ws n]|e] st].
Qed.

(** X10: what a run that returns has left alone. Every cell of a row
    before the first row, of a row whose ISSN cell is empty, or of a
    column outside the six new ones holds at the end what it held when
    the loop started: a resumed run does not touch the rows done before,
    and no run touches the DOI, the ISSN or the rest of the report. *)
Theorem X10_cells_left_alone
    filename first_row doi_col issn_col rerun st ws_fin cnt st' :
  RunReportEnhancement filename first_row doi_col issn_col rerun st
  = (Ok (ws_fin, cnt), st') →
  ∃ L o wb ws,
    locals_of filename issn_col = Ok L
    ∧ ord issn_col = Ok o
    ∧ disk st !! opened_file filename L rerun = Some wb
    ∧ wb !! "Sheet0" = Some ws
    ∧ ∀ r c,
        r < first_row
        ∨ truthy (cell_value (opened_sheet L rerun ws) r (o - 64)) = false
        ∨ c < series_col L ∨ series_col L + 5 < c →
        cell_value ws_fin r c = cell_value (opened_sheet L rerun ws) r c.
Proof.
  intros H.
  apply run_inv in H as (L & o & wb & ws & HL & Ho & Hc & Hd & Hs & Hx & H).
  apply enhance_rows_inv in H as (st2 & H & ->).
  exists L, o, wb, ws. repeat (split; [done|]).
  intros r c Hrc. apply (for_rows_frame _ _ _ _ _ Ho Hc _ _ _ _ _ _ _ H).
  destruct Hrc as [Hr|Hrc]; [|by right].
  left. rewrite elem_of_range. lia.
Qed.

(** X11: no row is missed. At the end of a run that returns, in either
    mode, every row from the first row on whose ISSN cell is not empty
    holds the six fields of its book, found out from its DOI cell: the
    bound of the loop, the last row of the sheet, is not below any cell. *)
Theorem X11_every_row_with_issn_is_enhanced
    filename first_row doi_col issn_col rerun st ws_fin cnt st' :
  RunReportEnhancement filename first_row doi_col issn_col rerun st
  = (Ok (ws_fin, cnt), st') →
  ∃ L o wb ws,
    locals_of filename issn_col = Ok L
    ∧ ord issn_col = Ok o
    ∧ disk st !! opened_file filename L rerun = Some wb
    ∧ wb !! "Sheet0" = Some ws
    ∧ ∀ i, first_row ≤ i →
           truthy (cell_value (opened_sheet L rerun ws) i (o - 64)) = true →
           ∃ od bd sta stb,
             ord doi_col = Ok od
             ∧ book_dict_of
                 (cell_value (opened_sheet L rerun ws) i (od - 64)) sta
               = (Ok bd, stb)
             ∧ ∀ f, bd !! key f = Some (cell_value ws_fin i (field_col L f)).
Proof.
  intros H.
  apply run_inv in H as (L & o & wb & ws & HL & Ho & Hc & Hd & Hs & Hx & H).
  apply enhance_rows_inv in H as (st2 & H & ->).
  exists L, o, wb, ws. repeat (split; [done|]).
  intros i Hi T.
  apply (for_rows_fields _ _ _ _ _ Ho Hc _ _ _ _ _ _ _ (NoDup_seqZ _ _) H);
    [|done].
  apply elem_of_range. apply truthy_cell_row in T. lia.
Qed.

(** X12: a run that starts past the last row of a report that openpyxl
    opens. Nothing is visited and nothing is asked, and all that is left
    of the run is its last save, tried once: if the file system lets the
    enhanced report be written, the run returns the count 0 and the
    enhanced report is the opened report, with the six blank columns on
    a fresh run; if not, the run raises the exception of the save and
    nothing has been written. *)
Theorem X12_run_past_the_last_row
    filename first_row doi_col issn_col rerun st L wb ws :
  locals_of filename issn_col = Ok L →
  supported_format (opened_file filename L rerun) = true →
  disk st !! opened_file filename L rerun = Some wb →
  wb !! "Sheet0" = Some ws →
  max_row (opened_sheet L rerun ws) < first_row →
  RunReportEnhancement filename first_row doi_col issn_col rerun st
  = match write_error (new_filename L) (net st) with
    | None =>
        (Ok (opened_sheet L rerun ws, 0),
         saved_state (new_filename L)
           (with_sheet0 wb (opened_sheet L rerun ws))
           (opened_state filename L rerun st))
    | Some e => (Raise e, opened_state filename L rerun st)
    end.
Proof.
  intros HL Hx Hd Hs Hlt.
  rewrite (run_open _ first_row doi_col _ _ _ _ _ _ HL Hx Hd Hs).
  rewrite enhance_rows_unfold. unfold range. rewrite seqZ_nil by lia.
  cbn [for_rows]. unfold ret. cbn [opened_state after net].
  by destruct (write_error (new_filename L) (net st)).
Qed.

Lemma requests_app tr1 tr2 :
  requests (tr1 ++ tr2) = requests tr1 ++ requests tr2.
Proof. apply omap_app. Qed.

Lemma requests_gets evs :
  Forall (λ e, is_get e = true) evs → length (requests evs) = length evs.
Proof.
  induction 1 as [|e evs He _ IH]; [done|].
  destruct e; try discriminate He. cbn. by rewrite <- IH.
Qed.

Lemma checkpoint_requests L wb i ws st :
  requests (trace (checkpoint L wb i ws st)) = requests (trace st).
Proof.
  rewrite checkpoint_trace, requests_app.
  destruct (i mod 1000 =? 0); cbn; by rewrite app_nil_r.
Qed.

(** The requests for a DOI: one, two or three. *)
Lemma RequestBookInfoPage_requests (d : string) (st : state) :
  ∃ w evs,
    (RequestBookInfoPage (VStr d) st).2 = after st w evs
    ∧ Forall (λ e, is_get e = true) evs
    ∧ (1 ≤ length evs ≤ 3)%nat.
Proof.
  rewrite RequestBookInfoPage_unfold.
  destruct (requests_get (book_url d) (net st)) as [[r1|e1] w1] eqn:E1.
  2:{ rewrite (get_raise _ _ _ _ _ E1). eexists _, _. split; [done|].
      split; [by repeat constructor|cbn; lia]. }
  rewrite (get_then _ _ _ _ _ E1).
  destruct (status_code r1 =? 404).
  2:{ eexists _, _. split; [done|]. split; [by repeat constructor|cbn; lia]. }
  destruct (requests_get (referencework_url d) w1) as [[r2|e2] w2] eqn:E2.
  2:{ rewrite (get_raise _ _ (after _ _ _) _ _ E2). rewrite after_after.
      eexists _, _. split; [done|]. split; [by repeat constructor|cbn; lia]. }
  rewrite (get_then _ _ (after _ _ _) _ _ E2).
  destruct (status_code r2 =? 404).
  2:{ unfold lift; cbn [snd]. rewrite after_after.
      eexists _, _. split; [done|]. split; [by repeat constructor|cbn; lia]. }
  destruct (requests_get (doi_url d) w2) as [[r3|e3] w3] eqn:E3.
  2:{ rewrite (get_raise _ _ (after _ _ _) _ _ E3). rewrite !after_after.
      eexists _, _. split; [done|]. split; [by repeat constructor|cbn; lia]. }
  rewrite (get_then _ _ (after _ _ _) _ _ E3).
  destruct (status_code r3 =? 404); unfold lift, ret; cbn [snd];
    rewrite !after_after; eexists _, _; (split; [done|]);
    (split; [by repeat constructor|cbn; lia]).
Qed.

Lemma book_dict_of_requests doi st bd st1 :
  book_dict_of doi st = (Ok bd, st1) →
  ∃ n, length (requests (trace st1))
       = (length (requests (trace st)) + n)%nat
       ∧ (1 ≤ n ≤ 3)%nat.
Proof.
  intros H.
  destruct (RequestBookInfoPage doi st) as [r st2] eqn:E.
  rewrite (book_dict_of_run _ _ _ _ E) in H. injection H as Hr <-.
  destruct doi as [|d|n].
  - rewrite RequestBookInfoPage_not_str in E by done.
    injection E as <- _. discriminate Hr.
  - destruct (RequestBookInfoPage_requests d st) as (w & evs & Hst & Hg & Hl).
    rewrite E in Hst. cbn [snd] in Hst. subst st2.
    exists (length evs). split; [|done]. cbn [after trace].
    by rewrite requests_app, length_app, (requests_gets _ Hg).
  - rewrite RequestBookInfoPage_not_str in E by done.
    injection E as <- _. discriminate Hr.
Qed.

Lemma for_rows_requests doi_col issn_col L wb o rows ws cnt st ws' cnt' st' :
  ord issn_col = Ok o → columns_from o L →
  for_rows (row_body doi_col issn_col L wb) rows ws cnt st
  = (Ok (ws', cnt'), st') →
  ∃ n, length (requests (trace st'))
       = (length (requests (trace st)) + n)%nat
       ∧ cnt' - cnt ≤ Z.of_nat n ≤ 3 * (cnt' - cnt).
Proof.
  intros Ho HL. revert ws cnt st.
  induction rows as [|i rows IH]; intros ws cnt st H.
  - unfold for_rows, ret in H. injection H as <- <- <-.
    exists 0%nat. split; lia.
  - apply for_rows_cons_inv in H as (ws1 & cnt1 & st1 & H1 & H2).
    destruct (IH _ _ _ H2) as (n2 & Hn2 & Hb2).
    apply (row_body_inv _ _ _ _ _ _ _ _ _ _ _ _ Ho HL) in H1
      as (_ & _ & [(_ & -> & _ & ->)|(_ & -> & od & bd & st0 & _ & Hbd & _ & _ & ->)]).
    + rewrite checkpoint_requests in Hn2. exists n2. split; [done|lia].
    + rewrite checkpoint_requests in Hn2.
      destruct (book_dict_of_requests _ _ _ _ Hbd) as (n1 & Hn1 & Hb1).
      exists (n1 + n2)%nat. split; [lia|lia].
Qed.

Lemma opened_state_requests filename L rerun st :
  requests (trace (opened_state filename L rerun st)) = requests (trace st).
Proof.
  unfold opened_state, after. cbn [trace]. rewrite requests_app.
  destruct rerun; cbn; by rewrite app_nil_r.
Qed.

(** X13: the requests of a run that returns. Each row with an ISSN
    costs one, two or three requests and a row without ISSN none: the
    run makes at least as many requests as the count it reports and at
    most three times as many. *)
Theorem X13_one_to_three_requests_per_book
    filename first_row doi_col issn_col rerun st ws_fin cnt st' :
  RunReportEnhancement filename first_row doi_col issn_col rerun st
  = (Ok (ws_fin, cnt), st') →
  ∃ n, length (requests (trace st'))
       = (length (requests (trace st)) + n)%nat
       ∧ cnt ≤ Z.of_nat n ≤ 3 * cnt.
Proof.
  intros H.
  apply run_inv in H as (L & o & wb & ws & HL & Ho & Hc & Hd & Hs & Hx & H).
  apply enhance_rows_inv in H as (st2 & H & ->).
  destruct (for_rows_requests _ _ _ _ _ _ _ _ _ _ _ _ Ho Hc H)
    as (n & Hn & Hb).
  exists n. split; [|lia].
  unfold saved_state. cbn [trace]. rewrite requests_app. cbn [requests omap].
  by rewrite app_nil_r, Hn, opened_state_requests.
Qed.

(** X14: a row with an ISSN whose DOI cell does not hold a string (it is
    empty, or a number) stops the run with [TypeError], before any
    request for that row and without saving, even when the row number is
    a multiple of 1000. When this is the first row of the run, nothing
    at all is saved: after a fresh run the enhanced report does not
    exist. *)
Theorem X14_row_without_doi_stops_the_run :
  (∀ doi_col issn_col L wb i ws cnt st o od,
      ord issn_col = Ok o → ord doi_col = Ok od →
      1 ≤ i → 1 ≤ o - 64 → 1 ≤ od - 64 →
      truthy (cell_value ws i (o - 64)) = true →
      (∀ d, cell_value ws i (od - 64) ≠ VStr d) →
      row_body doi_col issn_col L wb i ws cnt st = (Raise TypeError, st))
  ∧ (∀ filename first_row doi_col issn_col rerun st L wb ws o od,
        locals_of filename issn_col = Ok L →
        supported_format (opened_file filename L rerun) = true →
        disk st !! opened_file filename L rerun = Some wb →
        wb !! "Sheet0" = Some ws →
        ord issn_col = Ok o → ord doi_col = Ok od →
        1 ≤ first_row ≤ max_row (opened_sheet L rerun ws) →
        1 ≤ o - 64 → 1 ≤ od - 64 →
        truthy (cell_value (opened_sheet L rerun ws) first_row (o - 64))
        = true →
        (∀ d, cell_value (opened_sheet L rerun ws) first_row (od - 64)
              ≠ VStr d) →
        RunReportEnhancement filename first_row doi_col issn_col rerun st
        = (Raise TypeError, opened_state filename L rerun st)).
Proof.
  assert (∀ doi_col issn_col L wb i ws cnt st o od,
      ord issn_col = Ok o → ord doi_col = Ok od →
      1 ≤ i → 1 ≤ o - 64 → 1 ≤ od - 64 →
      truthy (cell_value ws i (o - 64)) = true →
      (∀ d, cell_value ws i (od - 64) ≠ VStr d) →
      row_body doi_col issn_col L wb i ws cnt st = (Raise TypeError, st))
    as Hrow.
  { intros doi_col issn_col L wb i ws cnt st o od Ho Hod Hi Hc Hcd T Hdoi.
    rewrite row_body_unfold.
    unfold row_visit. rewrite bind_lift, Ho, bind_lift.
    destruct (read_ok ws i (o - 64) Hi Hc) as [ws1 R1]. rewrite R1.
    apply read_inv in R1 as (_ & _ & _ & Hs1).
    cbn beta iota. rewrite T.
    rewrite bind_lift, Hod, bind_lift.
    destruct (read_ok ws1 i (od - 64) Hi Hcd) as [ws2 R2]. rewrite R2.
    cbn beta iota. rewrite Hs1. unfold bind at 1.
    unfold book_dict_of, bind.
    rewrite RequestBookInfoPage_not_str by done. done. }
  split; [exact Hrow|].
  intros filename first_row doi_col issn_col rerun st L wb ws o od
    HL Hx Hd Hs Ho Hod Hr Hc Hcd T Hdoi.
  rewrite (run_open _ first_row doi_col _ _ _ _ _ _ HL Hx Hd Hs).
  unfold enhance_rows, range. rewrite seqZ_cons by lia.
  cbn [for_rows]. unfold bind.
  by rewrite (Hrow doi_col issn_col L wb first_row _ 0 _ o od
                Ho Hod (proj1 Hr) Hc Hcd T Hdoi).
Qed.

End ReturningRuns.

(** ** The properties of the parts at work in the small world *)

(** The volume of the book page and of the Landolt-Bornstein page. *)
Lemma X1_volume_patterns_witness :
  Re.search_volume "(LNP, volume 951)" = Some "951"
  ∧ (∃ pre q rest,
        "(LNP, volume 951)" = pre +:+ "volume " +:+ "951" +:+ String ")" (q +:+ rest)
        ∧ "951" ≠ "" ∧ all_chars Re.is_dot "951" = true
        ∧ all_chars (is_dot_but ")") q = true ∧ stops_at Re.is_dot rest)
  ∧ Re.search_landolt_volume "Volume 41D 2000 edition" ≠ None.
Proof.
  split; [reflexivity|]. split.
  - apply (proj1 X1_volume_patterns "(LNP, volume 951)" "951"). reflexivity.
  - apply (proj2 (proj2 (proj2 X1_volume_patterns)) "" "41D 2000" "edition");
      [discriminate|reflexivity].
Defined.

Lemma X2_acronym_pattern_witness :
  ∃ pre post,
    "(LNP, volume 951)" = pre +:+ String "(" ("LNP" +:+ post)
    ∧ "LNP" ≠ "" ∧ all_chars Re.is_alpha_plus "LNP" = true
    ∧ stops_at Re.is_alpha_plus post.
Proof.
  apply (proj1 X2_acronym_pattern "(LNP, volume 951)" "LNP"). reflexivity.
Defined.

Lemma X3_year_pattern_witness :
  (∃ n, Py.int "2018" = Ok n ∧ 0 ≤ n ≤ 9999)
  ∧ Re.search_year "ISBN 9783319" ≠ None.
Proof.
  split.
  - apply (proj1 X3_year_pattern "Copyright 2018" "2018"). reflexivity.
  - apply (proj2 X3_year_pattern "ISBN " "9783" "319").
    split; reflexivity.
Defined.

Lemma X4_field_shapes_witness :
  ∃ bd, ParseLandoltBookPage (env := Demo.env) (Some "landolt page") = Ok bd
        ∧ ∃ g, bd !! "series" = Some (VStr g).
Proof.
  destruct (X4_field_shapes (env := Demo.env) Landolt (Some "landolt page"))
    as (bd & H & Hstr & _).
  exists bd. split; [exact H|]. apply (Hstr Series). discriminate.
Defined.

(** The book that only dx.doi.org knows. *)
Lemma X6_page_and_flag_witness :
  RequestBookInfoPage (env := Demo.env) (VStr "10.1007/l3")
    (Demo.start Demo.files)
  = (Ok (Some "landolt page", true),
     after (env := Demo.env) (Demo.start Demo.files) 3%nat
       [EGet "http://link.springer.com/book/10.1007/l3#about";
        EGet "http://link.springer.com/referencework/10.1007/l3#about";
        EGet "http://dx.doi.org/10.1007/l3"])
  ∧ ∃ w1 w2 : nat,
      not_found (env := Demo.env) (book_url "10.1007/l3") 0%nat = Some w1
      ∧ not_found (env := Demo.env) (referencework_url "10.1007/l3") w1
        = Some w2.
Proof.
  assert (RequestBookInfoPage (env := Demo.env) (VStr "10.1007/l3")
            (Demo.start Demo.files)
          = (Ok (Some "landolt page", true),
             after (env := Demo.env) (Demo.start Demo.files) 3%nat
               [EGet "http://link.springer.com/book/10.1007/l3#about";
                EGet "http://link.springer.com/referencework/10.1007/l3#about";
                EGet "http://dx.doi.org/10.1007/l3"])) as H
    by reflexivity.
  split; [exact H|].
  destruct (X6_page_and_flag (env := Demo.env) _ _ _ _ _ H)
    as [(r & w & h & Hb & _)
       |[(w1 & w2 & r & w & h & _ & _ & H1 & H2 & _)
        |(w1 & w2 & w3 & Hb & _)]];
    [discriminate Hb|by exists w1, w2|discriminate Hb].
Defined.

(** Row 1000 of the end of a report whose enhanced report is to be
    written to a directory that is not there: the book is asked for at
    its three addresses, and then the save raises. *)
Lemma X7_failed_row_saves_nothing_witness :
  (row_body (env := Demo.env) "D" "G" (Demo.names "_v1./tail")
     {[ "Sheet0" := Demo.tail_sheet ]} 1000 Demo.tail_sheet 0
     (Demo.start Demo.tail_files)).1 = Raise FileNotFoundError
  ∧ disk (row_body (env := Demo.env) "D" "G" (Demo.names "_v1./tail")
            {[ "Sheet0" := Demo.tail_sheet ]} 1000 Demo.tail_sheet 0
            (Demo.start Demo.tail_files)).2
    = disk (Demo.start Demo.tail_files)
  ∧ saves (trace (row_body (env := Demo.env) "D" "G" (Demo.names "_v1./tail")
                    {[ "Sheet0" := Demo.tail_sheet ]} 1000 Demo.tail_sheet 0
                    (Demo.start Demo.tail_files)).2)
    = saves (trace (Demo.start Demo.tail_files))
  ∧ length (requests
              (trace (row_body (env := Demo.env) "D" "G"
                        (Demo.names "_v1./tail")
                        {[ "Sheet0" := Demo.tail_sheet ]} 1000 Demo.tail_sheet 0
                        (Demo.start Demo.tail_files)).2)) = 3%nat.
Proof.
  assert ((row_body (env := Demo.env) "D" "G" (Demo.names "_v1./tail")
             {[ "Sheet0" := Demo.tail_sheet ]} 1000 Demo.tail_sheet 0
             (Demo.start Demo.tail_files)).1 = Raise FileNotFoundError) as H
    by (vm_compute; reflexivity).
  split; [exact H|].
  destruct (X7_failed_row_saves_nothing (env := Demo.env) "D" "G"
              (Demo.names "_v1./tail") {[ "Sheet0" := Demo.tail_sheet ]}
              1000 Demo.tail_sheet 0 (Demo.start Demo.tail_files)
              FileNotFoundError
              (row_body (env := Demo.env) "D" "G" (Demo.names "_v1./tail")
                 {[ "Sheet0" := Demo.tail_sheet ]} 1000 Demo.tail_sheet 0
                 (Demo.start Demo.tail_files)).2)
    as (Hd & Hs & _).
  - apply raised_run. exact H.
  - split; [exact Hd|]. split; [exact Hs|]. vm_compute. reflexivity.
Defined.

(** The first run leaves the report on the disk as it was. *)
Lemma X8_only_the_enhanced_report_is_written_witness :
  disk Demo.fresh_run.2 !! "report.xlsx" = Some {[ "Sheet0" := Demo.sheet ]}
  ∧ disk Demo.fresh_run.2 !! "other.xlsx" = None.
Proof.
  destruct (X8_only_the_enhanced_report_is_written (env := Demo.env)
              "report.xlsx" 10 "D" "G" false (Demo.start Demo.files))
    as [H1 H2].
  split; [exact H1|]. apply (H2 "other.xlsx"). vm_compute. discriminate.
Defined.

(** A report without extension, a column GG, a resumed run on a dated
    name, whose derived name has no extension that openpyxl supports, a
    report that is not there and a workbook without Sheet0. *)
Lemma X9_what_stops_a_run_before_the_loop_witness :
  RunReportEnhancement (env := Demo.env) "report" 10 "D" "G" false
    (Demo.start Demo.files) = (Raise IndexError, Demo.start Demo.files)
  ∧ RunReportEnhancement (env := Demo.env) "report.xlsx" 10 "D" "GG" false
      (Demo.start Demo.files) = (Raise TypeError, Demo.start Demo.files)
  ∧ RunReportEnhancement (env := Demo.env) "report.2018.xlsx" 10 "D" "G" true
      (Demo.start Demo.files)
    = (Raise InvalidFileException, Demo.start Demo.files)
  ∧ RunReportEnhancement (env := Demo.env) "report.xlsx" 10 "D" "G" true
      (Demo.start Demo.files)
    = (Raise FileNotFoundError,
       after (env := Demo.env) (Demo.start Demo.files) 0%nat
         [ELoad "report_v1.xlsx"])
  ∧ RunReportEnhancement (env := Demo.env) "report.xlsx" 10 "D" "G" false
      (Demo.start {[ "report.xlsx" := ∅ ]})
    = (Raise KeyError,
       after (env := Demo.env) (Demo.start {[ "report.xlsx" := ∅ ]}) 0%nat
         [ELoad "report.xlsx"]).
Proof.
  split; [|split; [|split; [|split]]].
  - apply (X9_what_stops_a_run_before_the_loop (env := Demo.env)). reflexivity.
  - apply (X9_what_stops_a_run_before_the_loop (env := Demo.env));
      [reflexivity|]. intros c. discriminate.
  - apply (proj1 (proj2 (proj2 (X9_what_stops_a_run_before_the_loop
             (env := Demo.env) "report.2018.xlsx" 10 "D" "G" true
             (Demo.start Demo.files))))
             (Demo.names "report_v1.2018")); reflexivity.
  - apply (proj1 (proj2 (proj2 (proj2 (X9_what_stops_a_run_before_the_loop
             (env := Demo.env) "report.xlsx" 10 "D" "G" true
             (Demo.start Demo.files)))))
             (Demo.names "report_v1.xlsx")); reflexivity.
  - apply (proj2 (proj2 (proj2 (proj2 (X9_what_stops_a_run_before_the_loop
             (env := Demo.env) "report.xlsx" 10 "D" "G" false
             (Demo.start {[ "report.xlsx" := ∅ ]})))))
             (Demo.names "report_v1.xlsx") ∅); reflexivity.
Defined.

(** The resumed run from row 999. *)
Lemma X10_cells_left_alone_witness :
  ∃ L o wb ws,
    locals_of "tail.xlsx" "G" = Ok L
    ∧ ord "G" = Ok o
    ∧ disk (Demo.start Demo.tail_files) !! opened_file "tail.xlsx" L true
      = Some wb
    ∧ wb !! "Sheet0" = Some ws
    ∧ ∀ r c,
        r < 999
        ∨ truthy (cell_value (opened_sheet L true ws) r (o - 64)) = false
        ∨ c < series_col L ∨ series_col L + 5 < c →
        cell_value (final_sheet Demo.tail_run) r c
        = cell_value (opened_sheet L true ws) r c.
Proof.
  apply (X10_cells_left_alone (env := Demo.env)
           "tail.xlsx" 999 "D" "G" true (Demo.start Demo.tail_files)
           (final_sheet Demo.tail_run) (final_count Demo.tail_run)
           Demo.tail_run.2).
  apply returned_run. vm_compute. reflexivity.
Defined.

Lemma X11_every_row_with_issn_is_enhanced_witness :
  ∃ L o wb ws,
    locals_of "tail.xlsx" "G" = Ok L
    ∧ ord "G" = Ok o
    ∧ disk (Demo.start Demo.tail_files) !! opened_file "tail.xlsx" L true
      = Some wb
    ∧ wb !! "Sheet0" = Some ws
    ∧ ∀ i, 999 ≤ i →
           truthy (cell_value (opened_sheet L true ws) i (o - 64)) = true →
           ∃ od bd sta stb,
             ord "D" = Ok od
             ∧ book_dict_of (env := Demo.env)
                 (cell_value (opened_sheet L true ws) i (od - 64)) sta
               = (Ok bd, stb)
             ∧ ∀ f, bd !! key f
                    = Some (cell_value (final_sheet Demo.tail_run) i
                              (field_col L f)).
Proof.
  apply (X11_every_row_with_issn_is_enhanced (env := Demo.env)
           "tail.xlsx" 999 "D" "G" true (Demo.start Demo.tail_files)
           (final_sheet Demo.tail_run) (final_count Demo.tail_run)
           Demo.tail_run.2).
  apply returned_run. vm_compute. reflexivity.
Defined.

(** The resumed run started at row 2000, past the three rows of the
    sheet, and the same start on a report named by a relative path, whose
    enhanced report would go to a directory that is not there. *)
Lemma X12_run_past_the_last_row_witness :
  RunReportEnhancement (env := Demo.env) "tail.xlsx" 2000 "D" "G" true
    (Demo.start Demo.tail_files)
  = (Ok (Demo.tail_sheet, 0),
     saved_state (env := Demo.env) "tail_v1.xlsx"
       (with_sheet0 {[ "Sheet0" := Demo.tail_sheet ]} Demo.tail_sheet)
       (after (env := Demo.env) (Demo.start Demo.tail_files) 0%nat
          [ELoad "tail_v1.xlsx"]))
  ∧ RunReportEnhancement (env := Demo.env) "./report.xlsx" 2000 "D" "G" false
      (Demo.start {[ "./report.xlsx" := {[ "Sheet0" := Demo.sheet ]} ]})
    = (Raise FileNotFoundError,
       after (env := Demo.env)
         (Demo.start {[ "./report.xlsx" := {[ "Sheet0" := Demo.sheet ]} ]})
         0%nat [ELoad "./report.xlsx"; EInsertCols 8 6]).
Proof.
  split.
  - exact (X12_run_past_the_last_row (env := Demo.env)
             "tail.xlsx" 2000 "D" "G" true (Demo.start Demo.tail_files)
             (Demo.names "tail_v1.xlsx")
             {[ "Sheet0" := Demo.tail_sheet ]} Demo.tail_sheet
             eq_refl eq_refl eq_refl eq_refl eq_refl).
  - assert (max_row (opened_sheet (Demo.names "_v1./report") false Demo.sheet)
            < 2000) as Hlt by (vm_compute; reflexivity).
    exact (X12_run_past_the_last_row (env := Demo.env)
             "./report.xlsx" 2000 "D" "G" false
             (Demo.start {[ "./report.xlsx" := {[ "Sheet0" := Demo.sheet ]} ]})
             (Demo.names "_v1./report")
             {[ "Sheet0" := Demo.sheet ]} Demo.sheet
             eq_refl eq_refl eq_refl eq_refl Hlt).
Defined.

(** Three books in the resumed run: one, three and three requests. *)
Lemma X13_one_to_three_requests_per_book_witness :
  ∃ n, length (requests (trace Demo.tail_run.2))
       = (length (requests (trace (Demo.start Demo.tail_files))) + n)%nat
       ∧ final_count Demo.tail_run ≤ Z.of_nat n
         ≤ 3 * final_count Demo.tail_run.
Proof.
  apply (X13_one_to_three_requests_per_book (env := Demo.env)
           "tail.xlsx" 999 "D" "G" true (Demo.start Demo.tail_files)
           (final_sheet Demo.tail_run) (final_count Demo.tail_run)
           Demo.tail_run.2).
  apply returned_run. vm_compute. reflexivity.
Defined.

(** The first run with the DOI looked for in the empty column E. *)
Lemma X14_row_without_doi_stops_the_run_witness :
  RunReportEnhancement (env := Demo.env) "report.xlsx" 10 "E" "G" false
    (Demo.start Demo.files)
  = (Raise TypeError,
     opened_state (env := Demo.env) "report.xlsx"
       (Demo.names "report_v1.xlsx") false (Demo.start Demo.files)).
Proof.
  assert (1 ≤ 10 ≤ max_row (opened_sheet (Demo.names "report_v1.xlsx")
                              false Demo.sheet)) as Hr
    by (vm_compute; split; discriminate).
  assert (∀ d, cell_value (opened_sheet (Demo.names "report_v1.xlsx")
                             false Demo.sheet) 10 (69 - 64) ≠ VStr d) as Hdoi
    by (intros d; vm_compute; discriminate).
  exact (proj2 (X14_row_without_doi_stops_the_run (env := Demo.env))
           "report.xlsx" 10 "E" "G" false (Demo.start Demo.files)
           (Demo.names "report_v1.xlsx") {[ "Sheet0" := Demo.sheet ]}
           Demo.sheet 71 69 eq_refl eq_refl eq_refl eq_refl eq_refl eq_refl
           Hr ltac:(lia) ltac:(lia) eq_refl Hdoi).
Defined.
